(** * DICOMwebBrowser: the download / cache / index pipeline

    A shallow embedding of the parts of
    [DICOMwebBrowser/DICOMwebBrowser.py] (class [DICOMwebBrowserWidget])
    that fetch study and series lists through the response cache, drain
    the download queue and hand finished downloads to the DICOM indexer:
    [connectToServer], [studySelected], [downloadSelectedSeries] and the
    helpers they call.

    The DICOMweb server, the DICOM indexer, the local DICOM database and
    the file system are collaborators of the widget.  The server is a
    record of functions from requests to answers or errors; the file
    system is the set of cache files and the set of download folders,
    each folder holding plain files only; the user interface is reduced
    to the series table, its progress bars and the Cancel button, whose
    clicks arrive when the code calls [slicer.app.processEvents()].
    Everything the widget asks of the outside is recorded in a trace, on
    which the statements count requests. *)

From Stdlib Require Import ZArith Ascii Lia.
From stdpp Require Import gmap strings list fin_maps pretty.

(** ** hashlib.md5(...).hexdigest()

    The source names cache files and download folders after the MD5 hex
    digest of a key.  The digest is implemented here (RFC 1321) on the
    bytes of the string, so that file names can be computed. *)
Module MD5.

Local Open Scope Z_scope.

Definition mask32 (x : Z) : Z := Z.land x 4294967295.

Definition add32 (x y : Z) : Z := mask32 (x + y).

Definition not32 (x : Z) : Z := Z.lxor x 4294967295.

Definition leftrotate (x c : Z) : Z :=
  mask32 (Z.lor (Z.shiftl x c) (Z.shiftr x (32 - c))).

Definition shifts : list Z :=
  [7; 12; 17; 22; 7; 12; 17; 22; 7; 12; 17; 22; 7; 12; 17; 22;
   5; 9; 14; 20; 5; 9; 14; 20; 5; 9; 14; 20; 5; 9; 14; 20;
   4; 11; 16; 23; 4; 11; 16; 23; 4; 11; 16; 23; 4; 11; 16; 23;
   6; 10; 15; 21; 6; 10; 15; 21; 6; 10; 15; 21; 6; 10; 15; 21].

Definition sines : list Z :=
  [3614090360; 3905402710; 606105819; 3250441966; 4118548399; 1200080426;
   2821735955; 4249261313; 1770035416; 2336552879; 4294925233; 2304563134;
   1804603682; 4254626195; 2792965006; 1236535329; 4129170786; 3225465664;
   643717713; 3921069994; 3593408605; 38016083; 3634488961; 3889429448;
   568446438; 3275163606; 4107603335; 1163531501; 2850285829; 4243563512;
   1735328473; 2368359562; 4294588738; 2272392833; 1839030562; 4259657740;
   2763975236; 1272893353; 4139469664; 3200236656; 681279174; 3936430074;
   3572445317; 76029189; 3654602809; 3873151461; 530742520; 3299628645;
   4096336452; 1126891415; 2878612391; 4237533241; 1700485571; 2399980690;
   4293915773; 2240044497; 1873313359; 4264355552; 2734768916; 1309151649;
   4149444226; 3174756917; 718787259; 3951481745].

Definition bytes_of_string (s : string) : list Z :=
  List.map (fun c => Z.of_N (N_of_ascii c)) (String.list_ascii_of_string s).

(** little-endian encoding of [x] on [n] bytes *)
Fixpoint le_bytes (n : nat) (x : Z) : list Z :=
  match n with
  | O => []
  | S n' => Z.land x 255 :: le_bytes n' (Z.shiftr x 8)
  end.

Definition padding (len : nat) : list Z :=
  let zeros := ((55 - Z.of_nat len) mod 64)%Z in
  128 :: List.repeat 0 (Z.to_nat zeros) ++ le_bytes 8 (8 * Z.of_nat len).

Fixpoint words_of_bytes (n : nat) (bs : list Z) : list Z :=
  match n with
  | O => []
  | S n' =>
      match bs with
      | b0 :: b1 :: b2 :: b3 :: rest =>
          (b0 + Z.shiftl b1 8 + Z.shiftl b2 16 + Z.shiftl b3 24)
            :: words_of_bytes n' rest
      | _ => []
      end
  end.

Fixpoint chunks (n : nat) (bs : list Z) : list (list Z) :=
  match n with
  | O => []
  | S n' =>
      match bs with
      | [] => []
      | _ => List.firstn 64 bs :: chunks n' (List.skipn 64 bs)
      end
  end.

Record digest_state := DigestState { dA : Z; dB : Z; dC : Z; dD : Z }.

Definition round (m : list Z) (st : digest_state) (i : nat) : digest_state :=
  let '(DigestState a b c d) := st in
  let zi := Z.of_nat i in
  let '(f, g) :=
    if zi <? 16 then (Z.lor (Z.land b c) (Z.land (not32 b) d), zi)
    else if zi <? 32 then
      (Z.lor (Z.land d b) (Z.land (not32 d) c), (5 * zi + 1) mod 16)
    else if zi <? 48 then (Z.lxor b (Z.lxor c d), (3 * zi + 5) mod 16)
    else (Z.lxor c (Z.lor b (not32 d)), (7 * zi) mod 16) in
  let f' := add32 (add32 (add32 f a) (List.nth i sines 0))
                  (List.nth (Z.to_nat g) m 0) in
  DigestState d (add32 b (leftrotate f' (List.nth i shifts 0))) b c.

Definition process_chunk (st : digest_state) (chunk : list Z) : digest_state :=
  let m := words_of_bytes 16 chunk in
  let st' := List.fold_left (round m) (List.seq 0 64) st in
  DigestState (add32 (dA st) (dA st')) (add32 (dB st) (dB st'))
              (add32 (dC st) (dC st')) (add32 (dD st) (dD st')).

Definition initial : digest_state :=
  DigestState 1732584193 4023233417 2562383102 271733878.

Definition digest (s : string) : list Z :=
  let msg := bytes_of_string s in
  let padded := msg ++ padding (List.length msg) in
  let st := List.fold_left process_chunk
              (chunks (List.length padded) padded) initial in
  le_bytes 4 (dA st) ++ le_bytes 4 (dB st)
    ++ le_bytes 4 (dC st) ++ le_bytes 4 (dD st).

Definition hex_digit (x : Z) : ascii :=
  List.nth (Z.to_nat x)
    (String.list_ascii_of_string "0123456789abcdef") "0"%char.

Fixpoint hex_of_bytes (bs : list Z) : string :=
  match bs with
  | [] => EmptyString
  | b :: rest =>
      String (hex_digit (Z.shiftr b 4))
        (String (hex_digit (Z.land b 15)) (hex_of_bytes rest))
  end.

Definition hexdigest (s : string) : string := hex_of_bytes (digest s).

End MD5.

Arguments MD5.hexdigest : simpl never.

(** ** Data *)

(** A DICOM JSON dataset, as [dicomweb_client] returns it and as the
    cache files store it: a tag is mapped to its [Value] list. *)
Abbreviation Dataset := (gmap string (list string)).

(** What a request to the DICOMweb server gives: the decoded answer, or
    the exception [dicomweb_client] raises (with its text). *)
Inductive Response (A : Type) : Type :=
| Ok (answer : A)
| HTTPError (message : string).
Arguments Ok {A} answer.
Arguments HTTPError {A} message.

(** The requests [self.DICOMwebClient] is used for. *)
Record Server : Type := {
  search_for_studies : nat -> Response (list Dataset);
  search_for_series : string -> Response (list Dataset);
  search_for_instances : string -> string -> Response (list Dataset);
  retrieve_instance : string -> string -> string -> Response string
}.

(** The collaborators of the widget: the server behind the client, and
    what [ctkDICOMIndexer.addDirectory] followed by
    [waitForImportFinished] does to [slicer.dicomDatabase] with the files
    of a folder. *)
Record Env : Type := {
  client : Server;
  indexer_import :
    gmap string string -> gmap string (gset string) -> gmap string (gset string)
}.

(** A [qt.QProgressBar] in the Status cell of a series row. *)
Record ProgressBar : Type := { value : nat; maximum : nat }.

(** A row of [seriesTableWidget]: the text of its Series Instance UID
    item ([None] when [populateSeriesTableWidget] created no such item)
    and the cell widget of its Status column. *)
Record SeriesRow : Type := {
  rowSeriesUID : option string;
  rowProgressBar : option ProgressBar
}.

(** An entry of [self.downloadQueue]; its ['downloadProgressBar'] is the
    widget held by the series row. *)
Record QueuedItem : Type := {
  studyInstanceUID : string;
  seriesInstanceUID : string;
  downloadFolderPath : string
}.

(** What the widget does to the outside, in the order it does it. *)
Inductive Event : Type :=
| SearchStudies (offset : nat)
| SearchSeries (study : string)
| SearchInstances (study series : string)
| RetrieveInstance (study series sop : string)
| AddDirectory (path : string)
| SetValue (series : string) (bar : ProgressBar)
| CriticalMessage (message : string).

(** The fields of the widget that the pipeline reads and writes, the
    files it owns (cache files by path; download folders by path, each a
    map from file name to contents), the local DICOM database (series to
    SOP instance UIDs) and, for [slicer.app.processEvents], whether each
    coming call delivers a click on the Cancel button. *)
Record State : Type := {
  cachePath : string;
  useCacheFlag : bool;
  cancelDownloadRequested : bool;
  downloadQueue : list QueuedItem;
  studiesTable : list Dataset;
  seriesTable : list SeriesRow;
  cacheFiles : gmap string (list Dataset);
  folders : gmap string (gmap string string);
  dicomDatabase : gmap string (gset string);
  pendingEvents : list bool;
  trace : list Event
}.

Definition set_useCacheFlag (b : bool) (s : State) : State :=
  {| cachePath := cachePath s; useCacheFlag := b;
     cancelDownloadRequested := cancelDownloadRequested s;
     downloadQueue := downloadQueue s;
     studiesTable := studiesTable s; seriesTable := seriesTable s;
     cacheFiles := cacheFiles s; folders := folders s;
     dicomDatabase := dicomDatabase s; pendingEvents := pendingEvents s;
     trace := trace s |}.

Definition set_cancelDownloadRequested (b : bool) (s : State) : State :=
  {| cachePath := cachePath s; useCacheFlag := useCacheFlag s;
     cancelDownloadRequested := b; downloadQueue := downloadQueue s;
     studiesTable := studiesTable s; seriesTable := seriesTable s;
     cacheFiles := cacheFiles s; folders := folders s;
     dicomDatabase := dicomDatabase s; pendingEvents := pendingEvents s;
     trace := trace s |}.

Definition set_downloadQueue (q : list QueuedItem) (s : State) : State :=
  {| cachePath := cachePath s; useCacheFlag := useCacheFlag s;
     cancelDownloadRequested := cancelDownloadRequested s; downloadQueue := q;
     studiesTable := studiesTable s; seriesTable := seriesTable s;
     cacheFiles := cacheFiles s; folders := folders s;
     dicomDatabase := dicomDatabase s; pendingEvents := pendingEvents s;
     trace := trace s |}.

Definition set_studiesTable (t : list Dataset) (s : State) : State :=
  {| cachePath := cachePath s; useCacheFlag := useCacheFlag s;
     cancelDownloadRequested := cancelDownloadRequested s;
     downloadQueue := downloadQueue s;
     studiesTable := t; seriesTable := seriesTable s;
     cacheFiles := cacheFiles s; folders := folders s;
     dicomDatabase := dicomDatabase s; pendingEvents := pendingEvents s;
     trace := trace s |}.

Definition set_seriesTable (t : list SeriesRow) (s : State) : State :=
  {| cachePath := cachePath s; useCacheFlag := useCacheFlag s;
     cancelDownloadRequested := cancelDownloadRequested s;
     downloadQueue := downloadQueue s;
     studiesTable := studiesTable s; seriesTable := t;
     cacheFiles := cacheFiles s; folders := folders s;
     dicomDatabase := dicomDatabase s; pendingEvents := pendingEvents s;
     trace := trace s |}.

Definition set_cacheFiles (c : gmap string (list Dataset)) (s : State) : State :=
  {| cachePath := cachePath s; useCacheFlag := useCacheFlag s;
     cancelDownloadRequested := cancelDownloadRequested s;
     downloadQueue := downloadQueue s;
     studiesTable := studiesTable s; seriesTable := seriesTable s;
     cacheFiles := c; folders := folders s;
     dicomDatabase := dicomDatabase s; pendingEvents := pendingEvents s;
     trace := trace s |}.

Definition set_folders (f : gmap string (gmap string string)) (s : State) : State :=
  {| cachePath := cachePath s; useCacheFlag := useCacheFlag s;
     cancelDownloadRequested := cancelDownloadRequested s;
     downloadQueue := downloadQueue s;
     studiesTable := studiesTable s; seriesTable := seriesTable s;
     cacheFiles := cacheFiles s; folders := f;
     dicomDatabase := dicomDatabase s; pendingEvents := pendingEvents s;
     trace := trace s |}.

Definition set_dicomDatabase (d : gmap string (gset string)) (s : State) : State :=
  {| cachePath := cachePath s; useCacheFlag := useCacheFlag s;
     cancelDownloadRequested := cancelDownloadRequested s;
     downloadQueue := downloadQueue s;
     studiesTable := studiesTable s; seriesTable := seriesTable s;
     cacheFiles := cacheFiles s; folders := folders s;
     dicomDatabase := d; pendingEvents := pendingEvents s;
     trace := trace s |}.

Definition set_pendingEvents (e : list bool) (s : State) : State :=
  {| cachePath := cachePath s; useCacheFlag := useCacheFlag s;
     cancelDownloadRequested := cancelDownloadRequested s;
     downloadQueue := downloadQueue s;
     studiesTable := studiesTable s; seriesTable := seriesTable s;
     cacheFiles := cacheFiles s; folders := folders s;
     dicomDatabase := dicomDatabase s; pendingEvents := e;
     trace := trace s |}.

Definition set_trace (t : list Event) (s : State) : State :=
  {| cachePath := cachePath s; useCacheFlag := useCacheFlag s;
     cancelDownloadRequested := cancelDownloadRequested s;
     downloadQueue := downloadQueue s;
     studiesTable := studiesTable s; seriesTable := seriesTable s;
     cacheFiles := cacheFiles s; folders := folders s;
     dicomDatabase := dicomDatabase s; pendingEvents := pendingEvents s;
     trace := t |}.

(** ** Python control flow: state, exceptions, and a loop that may not
    end *)

Inductive Outcome (A : Type) : Type :=
| Returned (result : A)
| Raised (error : string)
| Diverged.
Arguments Returned {A} result.
Arguments Raised {A} error.
Arguments Diverged {A}.

Definition M (A : Type) : Type := State -> Outcome A * State.

Definition ret {A : Type} (a : A) : M A := fun s => (Returned a, s).

Definition bind {A B : Type} (m : M A) (k : A -> M B) : M B :=
  fun s =>
    match m s with
    | (Returned a, s') => k a s'
    | (Raised error, s') => (Raised error, s')
    | (Diverged, s') => (Diverged, s')
    end.

Definition raise {A : Type} (error : string) : M A :=
  fun s => (Raised error, s).

Definition diverge {A : Type} : M A := fun s => (Diverged, s).

Definition gets {A : Type} (f : State -> A) : M A :=
  fun s => (Returned (f s), s).

Definition modify (f : State -> State) : M unit :=
  fun s => (Returned tt, f s).

(** [try: body except Exception as error: handler(str(error))] *)
Definition try_except {A : Type} (body : M A) (handler : string -> M A) : M A :=
  fun s =>
    match body s with
    | (Raised error, s') => handler error s'
    | other => other
    end.

Declare Scope py_scope.
Delimit Scope py_scope with py.
Notation "x <- y ; z" := (bind y (fun x => z))
  (at level 20, y at level 100, z at level 200, only parsing) : py_scope.
Notation "x ;; z" := (bind x (fun _ => z))
  (at level 100, z at level 200, only parsing, right associativity) : py_scope.
Local Open Scope py_scope.

Definition emit (e : Event) : M unit :=
  modify (fun s => set_trace (trace s ++ [e]) s).

(** A request: it is recorded, and a failure is raised as an exception. *)
Definition request {A : Type} (e : Event) (r : Response A) : M A :=
  emit e ;;
  match r with
  | Ok answer => ret answer
  | HTTPError message => raise message
  end.

(** ** The host application and the file system *)

Definition onCancelDownloadButton : M unit :=
  modify (set_cancelDownloadRequested true).

(** The Use cache check box: state 0 is unchecked, state 2 checked. *)
Definition onUseCacheStateChanged (state : nat) : M unit :=
  match state with
  | 0 => modify (set_useCacheFlag false)
  | 2 => modify (set_useCacheFlag true)
  | _ => ret tt
  end.

(** [slicer.app.processEvents()]: the user interface handles what is
    pending; a click on the Cancel button runs its handler. *)
Definition processEvents : M unit :=
  pending <- gets pendingEvents;
  match pending with
  | [] => ret tt
  | clicked :: later =>
      modify (set_pendingEvents later) ;;
      if clicked then onCancelDownloadButton else ret tt
  end.

(** [showStatus] sets the status label and calls [processEvents];
    [clearStatus] only resets the label. *)
Definition showStatus : M unit := processEvents.

Definition clearStatus : M unit := ret tt.

Definition newline : string := String "010"%char EmptyString.

(** [qt.QMessageBox.critical] *)
Definition critical (message : string) : M unit :=
  emit (CriticalMessage message).

Definition isfile (fs : gmap string (gmap string string))
    (folder name : string) : bool :=
  match fs !! folder with
  | Some files => match files !! name with Some _ => true | None => false end
  | None => false
  end.

Definition os_path_exists (folder : string) : M bool :=
  gets (fun s => match folders s !! folder with
                 | Some _ => true
                 | None => false
                 end).

Definition os_makedirs (folder : string) : M unit :=
  modify (fun s => set_folders (<[folder := ∅]> (folders s)) s).

Definition os_path_isfile (folder name : string) : M bool :=
  gets (fun s => isfile (folders s) folder name).

(** [pydicom.filewriter.write_file(fileName, retrievedInstance)]: creates
    the file or replaces its contents. *)
Definition write_file (folder name payload : string) : M unit :=
  fs <- gets folders;
  match fs !! folder with
  | Some files =>
      modify (set_folders (<[folder := <[name := payload]> files]> fs))
  | None => raise "FileNotFoundError"
  end.

Definition os_listdir (folder : string) : M (list string) :=
  fs <- gets folders;
  match fs !! folder with
  | Some files => ret (elements (dom files))
  | None => raise "FileNotFoundError"
  end.

Definition os_remove (folder name : string) : M unit :=
  fs <- gets folders;
  match fs !! folder with
  | Some files =>
      match files !! name with
      | Some _ => modify (set_folders (<[folder := delete name files]> fs))
      | None => raise "FileNotFoundError"
      end
  | None => raise "FileNotFoundError"
  end.

Definition os_rmdir (folder : string) : M unit :=
  fs <- gets folders;
  match fs !! folder with
  | Some files =>
      if decide (files = ∅) then modify (set_folders (delete folder fs))
      else raise "OSError: Directory not empty"
  | None => raise "FileNotFoundError"
  end.

(** [slicer.dicomDatabase.instancesForSeries] *)
Definition instancesForSeries (series : string) : M (gset string) :=
  gets (fun s => default ∅ (dicomDatabase s !! series)).

(** [indexer.addDirectory(slicer.dicomDatabase, path, True)] and
    [indexer.waitForImportFinished()] *)
Definition addDirectoryAndWait (env : Env) (folder : string) : M unit :=
  emit (AddDirectory folder) ;;
  modify (fun s =>
    set_dicomDatabase
      (indexer_import env (default ∅ (folders s !! folder)) (dicomDatabase s))
      s).

(** ** The series table *)

Fixpoint getSeriesRowNumber_from (rows : list SeriesRow)
    (seriesInstanceUID : string) (rowIndex : nat) : Outcome (option nat) :=
  match rows with
  | [] => Returned None
  | row :: rest =>
      match rowSeriesUID row with
      | None => Raised "AttributeError"
      | Some text =>
          if decide (text = seriesInstanceUID) then Returned (Some rowIndex)
          else getSeriesRowNumber_from rest seriesInstanceUID (S rowIndex)
      end
  end.

(** The row of a series, [None] for the source's [-1]. *)
Definition getSeriesRowNumber (seriesInstanceUID : string) : M (option nat) :=
  fun s => (getSeriesRowNumber_from (seriesTable s) seriesInstanceUID 0, s).

(** The progress bar of a series, as the row that holds it. *)
Definition getSeriesDownloadProgressBar (seriesInstanceUID : string)
    : M (option nat) :=
  rowIndex <- getSeriesRowNumber seriesInstanceUID;
  match rowIndex with
  | None => ret None
  | Some i =>
      rows <- gets seriesTable;
      match rows !! i ≫= rowProgressBar with
      | Some _ => ret (Some i)
      | None => ret None
      end
  end.

Definition withProgressBar (f : ProgressBar -> ProgressBar) (row : SeriesRow)
    : SeriesRow :=
  {| rowSeriesUID := rowSeriesUID row;
     rowProgressBar := f <$> rowProgressBar row |}.

Definition setMaximum (bar n : nat) : M unit :=
  modify (fun s =>
    set_seriesTable
      (alter (withProgressBar (fun b => {| value := value b; maximum := n |}))
             bar (seriesTable s)) s).

Definition setValue (series : string) (bar v : nat) : M unit :=
  modify (fun s =>
    set_seriesTable
      (alter (withProgressBar (fun b => {| value := v; maximum := maximum b |}))
             bar (seriesTable s)) s) ;;
  rows <- gets seriesTable;
  match rows !! bar ≫= rowProgressBar with
  | Some b => emit (SetValue series b)
  | None => ret tt
  end.

Definition removeDownloadProgressBar (selectedSeries : string) : M unit :=
  rowIndex <- getSeriesRowNumber selectedSeries;
  match rowIndex with
  | None => ret tt
  | Some i =>
      modify (fun s =>
        set_seriesTable
          (alter (fun row => {| rowSeriesUID := rowSeriesUID row;
                                rowProgressBar := None |}) i (seriesTable s))
          s)
  end.

(** ** downloadSelectedSeries *)

(** [instance['00080018']['Value'][0]] *)
Definition sopInstanceUidOf (instance : Dataset) : M string :=
  match instance !! "00080018" with
  | Some (uid :: _) => ret uid
  | Some [] => raise "IndexError"
  | None => raise "KeyError"
  end.

(** Line 839, without the folder: the name of the file an instance is
    saved to. *)
Definition instanceFileName (sopInstanceUid : string) : string :=
  MD5.hexdigest sopInstanceUid +:+ ".dcm".

Definition whenBar (bar : option nat) (f : nat -> M unit) : M unit :=
  match bar with
  | Some b => f b
  | None => ret tt
  end.

(** The body of the [for instanceIndex, instance in enumerate(instances)]
    loop after the cancellation check; [continue] ends the body. *)
Definition instanceBody (env : Env) (item : QueuedItem) (bar : option nat)
    (instancesAlreadyInDatabase : gset string)
    (instance : Dataset) (instanceIndex : nat) : M unit :=
  whenBar bar (fun b => setValue (seriesInstanceUID item) b instanceIndex) ;;
  processEvents ;;
  sopInstanceUid <- sopInstanceUidOf instance;
  if decide (sopInstanceUid ∈ instancesAlreadyInDatabase) then ret tt
  else
    let fileName := instanceFileName sopInstanceUid in
    present <- os_path_isfile (downloadFolderPath item) fileName;
    useCache <- gets useCacheFlag;
    if negb present || negb useCache then
      retrievedInstance <-
        request (RetrieveInstance (studyInstanceUID item)
                   (seriesInstanceUID item) sopInstanceUid)
                (retrieve_instance (client env) (studyInstanceUID item)
                   (seriesInstanceUID item) sopInstanceUid);
      write_file (downloadFolderPath item) fileName retrievedInstance
    else ret tt.

(** The loop itself: the cancellation flag is checked before each
    instance, and [break] ends the loop. *)
Fixpoint instanceLoop (env : Env) (item : QueuedItem) (bar : option nat)
    (instancesAlreadyInDatabase : gset string)
    (instances : list Dataset) (instanceIndex : nat) : M unit :=
  match instances with
  | [] => ret tt
  | instance :: rest =>
      cancel <- gets cancelDownloadRequested;
      if cancel then ret tt
      else
        instanceBody env item bar instancesAlreadyInDatabase instance
          instanceIndex ;;
        instanceLoop env item bar instancesAlreadyInDatabase rest
          (S instanceIndex)
  end.

(** Lines 795-800: the download folder is created and the status shown,
    outside the [try]. *)
Definition prepareFolder (item : QueuedItem) : M unit :=
  present <- os_path_exists (downloadFolderPath item);
  (if present then ret tt else os_makedirs (downloadFolderPath item)) ;;
  showStatus.

(** From the [try] to the instance loop: the instance list is asked for,
    the progress bar set up and the local database queried. *)
Definition beginDownload (env : Env) (item : QueuedItem)
    : M (option nat * gset string * list Dataset) :=
  instances <-
    request (SearchInstances (studyInstanceUID item) (seriesInstanceUID item))
            (search_for_instances (client env) (studyInstanceUID item)
               (seriesInstanceUID item));
  showStatus ;;
  processEvents ;;
  currentDownloadProgressBar <-
    getSeriesDownloadProgressBar (seriesInstanceUID item);
  whenBar currentDownloadProgressBar (fun b =>
    setMaximum b (length instances) ;;
    setValue (seriesInstanceUID item) b 0) ;;
  _ <- getSeriesRowNumber (seriesInstanceUID item);
  instancesAlreadyInDatabase <- instancesForSeries (seriesInstanceUID item);
  ret (currentDownloadProgressBar, instancesAlreadyInDatabase, instances).

Fixpoint removeFiles (folder : string) (names : list string) : M unit :=
  match names with
  | [] => ret tt
  | f :: rest => os_remove folder f ;; removeFiles folder rest
  end.

(** After the loop: the status icon is set and, unless the download was
    cancelled, the folder is indexed and removed. *)
Definition finishDownload (env : Env) (item : QueuedItem) (bar : option nat)
    (numberOfInstances : nat) : M unit :=
  clearStatus ;;
  rowIndex <- getSeriesRowNumber (seriesInstanceUID item);
  match rowIndex with
  | None => raise "AttributeError"
  | Some _ =>
      cancel <- gets cancelDownloadRequested;
      (if cancel then ret tt
       else
         whenBar bar (fun b =>
           setValue (seriesInstanceUID item) b numberOfInstances) ;;
         showStatus ;;
         addDirectoryAndWait env (downloadFolderPath item) ;;
         names <- os_listdir (downloadFolderPath item);
         removeFiles (downloadFolderPath item) names ;;
         os_rmdir (downloadFolderPath item)) ;;
      removeDownloadProgressBar (seriesInstanceUID item)
  end.

Definition downloadSeries (env : Env) (item : QueuedItem) : M unit :=
  started <- beginDownload env item;
  let '(bar, instancesAlreadyInDatabase, instances) := started in
  instanceLoop env item bar instancesAlreadyInDatabase instances 0 ;;
  finishDownload env item bar (length instances).

Definition downloadErrorMessage (error : string) : string :=
  "downloadSelectedSeries: Error in getting response from DICOMweb server."
  +:+ newline +:+ "HTTP Error:" +:+ newline +:+ error.

(** The body of the [while] loop for one popped item. *)
Definition processQueuedItem (env : Env) (queuedItem : QueuedItem) : M unit :=
  prepareFolder queuedItem ;;
  try_except (downloadSeries env queuedItem)
    (fun error => clearStatus ;; critical (downloadErrorMessage error)).

(** [while self.downloadQueue and not self.cancelDownloadRequested]: the
    recursion is on the queue, which only this loop changes while it
    runs. *)
Fixpoint drainQueue (env : Env) (queue : list QueuedItem) : M unit :=
  match queue with
  | [] => ret tt
  | queuedItem :: rest =>
      cancel <- gets cancelDownloadRequested;
      if cancel then ret tt
      else
        modify (set_downloadQueue rest) ;;
        processQueuedItem env queuedItem ;;
        drainQueue env rest
  end.

Fixpoint removeProgressBars (queue : list QueuedItem) : M unit :=
  match queue with
  | [] => ret tt
  | queuedItem :: rest =>
      removeDownloadProgressBar (seriesInstanceUID queuedItem) ;;
      removeProgressBars rest
  end.

Definition downloadSelectedSeries (env : Env) : M unit :=
  queue <- gets downloadQueue;
  drainQueue env queue ;;
  remaining <- gets downloadQueue;
  removeProgressBars remaining ;;
  modify (set_downloadQueue []).

(** ** The response cache and the study and series lists *)

(** [cacheFile] of [connectToServer] (line 531) *)
Definition studiesCacheFile (cachePath serverUrl : string) : string :=
  cachePath +:+ MD5.hexdigest serverUrl +:+ ".json".

(** [cacheFile] of [studySelected] (line 619) *)
Definition seriesCacheFile (cachePath selectedStudyInstanceUID : string)
    : string :=
  cachePath +:+ selectedStudyInstanceUID +:+ ".json".

Definition cache_isfile (cacheFile : string) : M bool :=
  gets (fun s => match cacheFiles s !! cacheFile with
                 | Some _ => true
                 | None => false
                 end).

Definition json_load (cacheFile : string) : M (list Dataset) :=
  files <- gets cacheFiles;
  match files !! cacheFile with
  | Some payload => ret payload
  | None => raise "FileNotFoundError"
  end.

Definition json_dump (cacheFile : string) (payload : list Dataset) : M unit :=
  modify (fun s => set_cacheFiles (<[cacheFile := payload]> (cacheFiles s)) s).

Definition clearStudiesTableWidget : M unit := modify (set_studiesTable []).

Definition clearSeriesTableWidget : M unit := modify (set_seriesTable []).

Definition populateStudiesTableWidget (studies : list Dataset) : M unit :=
  modify (fun s => set_studiesTable (studiesTable s ++ studies) s).

Definition rowOfSeries (serie : Dataset) : SeriesRow :=
  {| rowSeriesUID := serie !! "0020000E" ≫= head; rowProgressBar := None |}.

Definition populateSeriesTableWidget (series : list Dataset) : M unit :=
  modify (fun s => set_seriesTable (seriesTable s ++ (rowOfSeries <$> series)) s).

(** The [while True] loop of [connectToServer]; [fuel] bounds the number
    of pages asked for. *)
Fixpoint searchAllStudies (fuel : nat) (env : Env) (studies : list Dataset)
    (offset : nat) : M (list Dataset) :=
  match fuel with
  | O => diverge
  | S fuel' =>
      subset <- request (SearchStudies offset)
                        (search_for_studies (client env) offset);
      match subset with
      | [] => ret studies
      | first :: _ =>
          if decide (first ∈ studies) then ret studies
          else searchAllStudies fuel' env (studies ++ subset)
                 (offset + length subset)
      end
  end.

Definition connectErrorMessage (error : string) : string :=
  "connectToServer: Error in getting response from DICOMweb server."
  +:+ newline +:+ "Error:" +:+ newline +:+ error.

(** The [else] branch of [connectToServer]: all pages are fetched, then
    saved to the cache and shown; any exception ends in a message box. *)
Definition fetchStudies (fuel : nat) (env : Env) (cacheFile : string)
    : M unit :=
  try_except
    (studies <- searchAllStudies fuel env [] 0;
     json_dump cacheFile studies ;;
     populateStudiesTableWidget studies ;;
     clearStatus)
    (fun error => clearStatus ;; critical (connectErrorMessage error)).

(** The settings, the URL history and the set-up of the client are left
    out.  The closing loop over the selected study rows does nothing: the
    rows have just been made and none is selected. *)
Definition connectToServer (fuel : nat) (env : Env) (serverUrl : string)
    : M unit :=
  clearStudiesTableWidget ;;
  clearSeriesTableWidget ;;
  dir <- gets cachePath;
  let cacheFile := studiesCacheFile dir serverUrl in
  showStatus ;;
  present <- cache_isfile cacheFile;
  useCache <- gets useCacheFlag;
  studiesList <-
    (if present && useCache then
       cached <- json_load cacheFile;
       if decide (length cached = 0) then ret None else ret (Some cached)
     else ret None);
  match studiesList with
  | Some (study :: more) =>
      populateStudiesTableWidget (study :: more) ;;
      clearStatus
  | _ => fetchStudies fuel env cacheFile
  end ;;
  clearSeriesTableWidget.

(** The text of the Study instance UID item that
    [setTableCellTextFromDICOM] makes for a study. *)
Definition studyInstanceUIDText (study : Dataset) : string :=
  match study !! "0020000D" with
  | Some values => String.concat ", " values
  | None => EmptyString
  end.

Definition seriesErrorMessage (error : string) : string :=
  "studySelected: Error in getting response from DICOMweb server."
  +:+ newline +:+ "Error:" +:+ newline +:+ error.

(** The [else] branch of [studySelected]. *)
Definition fetchSeries (env : Env) (selectedStudyInstanceUID cacheFile : string)
    : M unit :=
  try_except
    (series <- request (SearchSeries selectedStudyInstanceUID)
                 (search_for_series (client env) selectedStudyInstanceUID);
     json_dump cacheFile series ;;
     populateSeriesTableWidget series ;;
     clearStatus)
    (fun error => clearStatus ;; critical (seriesErrorMessage error)).

(** [row] is the row of the selected study; the text of its Study
    instance UID item is the key of the query.  Buttons, titles and the
    final selection of all series rows are left out. *)
Definition studySelected (env : Env) (row : nat) : M unit :=
  studies <- gets studiesTable;
  match studies !! row with
  | None => raise "IndexError"
  | Some study =>
      let selectedStudyInstanceUID := studyInstanceUIDText study in
      dir <- gets cachePath;
      let cacheFile := seriesCacheFile dir selectedStudyInstanceUID in
      showStatus ;;
      present <- cache_isfile cacheFile;
      useCache <- gets useCacheFlag;
      if present && useCache then
        series <- json_load cacheFile;
        populateSeriesTableWidget series ;;
        clearStatus
      else fetchSeries env selectedStudyInstanceUID cacheFile
  end.

(** ** Observations on the trace *)

Definition isRetrieveInstance (e : Event) : bool :=
  match e with RetrieveInstance _ _ _ => true | _ => false end.

Definition isAddDirectory (e : Event) : bool :=
  match e with AddDirectory _ => true | _ => false end.

Definition isSearchStudies (e : Event) : bool :=
  match e with SearchStudies _ => true | _ => false end.

Definition isSearchSeries (e : Event) : bool :=
  match e with SearchSeries _ => true | _ => false end.

Definition isSetValue (e : Event) : bool :=
  match e with SetValue _ _ => true | _ => false end.

Definition isCriticalMessage (e : Event) : bool :=
  match e with CriticalMessage _ => true | _ => false end.

Definition retrievals (t : list Event) : list Event :=
  List.filter isRetrieveInstance t.

Definition imports (t : list Event) : list Event :=
  List.filter isAddDirectory t.

Definition studyRequests (t : list Event) : list Event :=
  List.filter isSearchStudies t.

Definition seriesRequests (t : list Event) : list Event :=
  List.filter isSearchSeries t.

Definition progressReports (t : list Event) : list Event :=
  List.filter isSetValue t.

Definition messages (t : list Event) : list Event :=
  List.filter isCriticalMessage t.

(** ** Conditions the statements are made under *)

(** The cache does not answer a study-list query: it is switched off, or
    holds no file for the server, or holds an empty list. *)
Definition studiesCacheMiss (s : State) (serverUrl : string) : Prop :=
  useCacheFlag s = false
  ∨ cacheFiles s !! studiesCacheFile (cachePath s) serverUrl = None
  ∨ cacheFiles s !! studiesCacheFile (cachePath s) serverUrl = Some [].

(** The state in which [connectToServer] consults the cache: both tables
    cleared and the status shown. *)
Definition connectPrelude (s : State) : State :=
  (processEvents (set_seriesTable [] (set_studiesTable [] s))).2.

(** The cache does not answer a series-list query. *)
Definition seriesCacheMiss (s : State) (selectedStudyInstanceUID : string)
    : Prop :=
  useCacheFlag s = false
  ∨ cacheFiles s !! seriesCacheFile (cachePath s) selectedStudyInstanceUID
    = None.

(** No cancellation: the flag is clear and no click on Cancel is pending. *)
Definition noCancel (s : State) : Prop :=
  cancelDownloadRequested s = false
  ∧ forallb negb (pendingEvents s) = true.

(** The Series Instance UID column, which [getSeriesRowNumber] searches. *)
Definition rowUIDs (s : State) : list (option string) :=
  rowSeriesUID <$> seriesTable s.

(** Row [b] holds a progress bar whose maximum is [n]. *)
Definition barAt (s : State) (b n : nat) : Prop :=
  exists v, seriesTable s !! b ≫= rowProgressBar
            = Some {| value := v; maximum := n |}.

(** The SOP instance UID of an instance, when it has one. *)
Definition sopUidOf (instance : Dataset) : option string :=
  instance !! "00080018" ≫= head.

(** What running a download never changes, whatever its outcome: the
    UIDs of the rows, the existence of folders, the folders already
    indexed, the cache and the queue. *)
Definition downloadFrame (s s' : State) : Prop :=
  rowUIDs s' = rowUIDs s
  ∧ (forall p, is_Some (folders s !! p) -> is_Some (folders s' !! p))
  ∧ imports (trace s') = imports (trace s)
  ∧ useCacheFlag s' = useCacheFlag s
  ∧ cachePath s' = cachePath s
  ∧ cacheFiles s' = cacheFiles s
  ∧ dicomDatabase s' = dicomDatabase s
  ∧ downloadQueue s' = downloadQueue s.

Definition framed {A : Type} (m : M A) : Prop :=
  forall s, downloadFrame s (m s).2.

(** The state in which an instance is looked at: its index shown on the
    progress bar and the pending events handled. *)
Definition beforeInstance (item : QueuedItem) (bar : option nat)
    (instanceIndex : nat) (s : State) : State :=
  (processEvents
     (whenBar bar (fun b => setValue (seriesInstanceUID item) b instanceIndex)
        s).2).2.

(** The instances the loop asks the server for, in order: those not in
    the local database and, when the cache is in use, not yet saved in
    the download folder ([present] holds the names of the files there). *)
Fixpoint toRetrieve (useCache : bool) (present db : gset string)
    (uids : list string) : list string :=
  match uids with
  | [] => []
  | uid :: rest =>
      if decide (uid ∈ db) then toRetrieve useCache present db rest
      else if useCache && bool_decide (instanceFileName uid ∈ present)
      then toRetrieve useCache present db rest
      else uid :: toRetrieve useCache ({[instanceFileName uid]} ∪ present) db rest
  end.

(** What showing status and progress never changes: folders, cache flag,
    database, row UIDs, the requests for instances made and the folders
    indexed so far; and they cancel nothing unless a click is pending. *)
Definition calm (s s' : State) : Prop :=
  folders s' = folders s
  ∧ useCacheFlag s' = useCacheFlag s
  ∧ dicomDatabase s' = dicomDatabase s
  ∧ rowUIDs s' = rowUIDs s
  ∧ retrievals (trace s') = retrievals (trace s)
  ∧ imports (trace s') = imports (trace s)
  ∧ downloadQueue s' = downloadQueue s
  ∧ (noCancel s -> noCancel s').

(** The server delivers all of a job: its instance list, in which every
    instance has a SOP instance UID, and each of these instances. *)
Definition downloadable (env : Env) (item : QueuedItem) : Prop :=
  exists instances uids,
    search_for_instances (client env) (studyInstanceUID item)
      (seriesInstanceUID item) = Ok instances
    ∧ sopUidOf <$> instances = Some <$> uids
    ∧ forall uid, uid ∈ uids ->
        exists payload,
          retrieve_instance (client env) (studyInstanceUID item)
            (seriesInstanceUID item) uid = Ok payload.

(** The series of a job has its row in the series table. *)
Definition hasRow (s : State) (item : QueuedItem) : Prop :=
  exists i,
    getSeriesRowNumber_from (seriesTable s) (seriesInstanceUID item) 0
    = Returned (Some i).

(** ** Scenarios *)

Definition studyWith (uid : string) : Dataset := {[ "0020000D" := [uid] ]}.

Definition seriesWith (uid : string) : Dataset := {[ "0020000E" := [uid] ]}.

Definition instanceWith (uid : string) : Dataset := {[ "00080018" := [uid] ]}.

Definition studyA : Dataset := studyWith "1.2.3".

Definition studyB : Dataset := studyWith "1.2.4".

Definition studyC : Dataset := studyWith "1.2.5".

Definition fiveInstances : list Dataset :=
  instanceWith <$> ["1.1"; "1.2"; "1.3"; "1.4"; "1.5"].

(** A server with three studies on two pages, one series per study and
    five instances per series; the instance list of series [S2] cannot be
    fetched. *)
Definition demoServer : Server :=
  {| search_for_studies := fun offset =>
       match offset with
       | 0 => Ok [studyA; studyB]
       | 2 => Ok [studyC]
       | _ => Ok []
       end;
     search_for_series := fun study => Ok [seriesWith "S1"];
     search_for_instances := fun study series =>
       if decide (series = "S2") then HTTPError "503 Service Unavailable"
       else Ok fiveInstances;
     retrieve_instance := fun study series sop => Ok ("DICM " +:+ sop) |}.

(** A server that ignores the offset. *)
Definition stuckServer : Server :=
  {| search_for_studies := fun offset => Ok [studyA; studyB];
     search_for_series := search_for_series demoServer;
     search_for_instances := search_for_instances demoServer;
     retrieve_instance := retrieve_instance demoServer |}.

(** A server whose second page cannot be fetched. *)
Definition failingServer : Server :=
  {| search_for_studies := fun offset =>
       match offset with
       | 0 => Ok [studyA; studyB]
       | _ => HTTPError "504 Gateway Timeout"
       end;
     search_for_series := search_for_series demoServer;
     search_for_instances := search_for_instances demoServer;
     retrieve_instance := retrieve_instance demoServer |}.

Definition envOf (server : Server) : Env :=
  {| client := server; indexer_import := fun files database => database |}.

Definition demoEnv : Env := envOf demoServer.

Definition demoUrl : string := "http://localhost:8042/dicom-web".

Definition demoStoragePath : string := "/db/DICOMwebLocal/".

(** The queue entry [addSelectedToDownloadQueue] makes for a series
    (lines 739-741), for a storage path that ends with a separator. *)
Definition queuedItemFor (study series : string) : QueuedItem :=
  {| studyInstanceUID := study;
     seriesInstanceUID := series;
     downloadFolderPath := demoStoragePath +:+ MD5.hexdigest series +:+ "/" |}.

Definition jobS1 : QueuedItem := queuedItemFor "1.2.3" "S1".

Definition jobS2 : QueuedItem := queuedItemFor "1.2.3" "S2".

Definition jobS3 : QueuedItem := queuedItemFor "1.2.3" "S3".

Definition rowWithBar (series : string) : SeriesRow :=
  {| rowSeriesUID := Some series;
     rowProgressBar := Some {| value := 0; maximum := 100 |} |}.

(** Three series selected for download; instances [1.2] and [1.4] of
    [S1] are in the local database; nothing is cached or saved yet. *)
Definition demoState : State :=
  {| cachePath := demoStoragePath +:+ "/ServerResponseCache/";
     useCacheFlag := true;
     cancelDownloadRequested := false;
     downloadQueue := [jobS1; jobS2; jobS3];
     studiesTable := [studyA];
     seriesTable := [rowWithBar "S1"; rowWithBar "S2"; rowWithBar "S3"];
     cacheFiles := ∅;
     folders := ∅;
     dicomDatabase := {[ "S1" := {[ "1.2"; "1.4" ]} ]};
     pendingEvents := [];
     trace := [] |}.

(** The same, with the file of instance [1.1] of [S1] left in the
    download folder by an earlier download. *)
Definition stagedState : State :=
  set_folders
    {[ downloadFolderPath jobS1 := {[ instanceFileName "1.1" := "DICM old" ]} ]}
    demoState.

(** [stagedState] after the Use cache box was unchecked. *)
Definition stagedStateNoCache : State :=
  (onUseCacheStateChanged 0 stagedState).2.

(** The same as [demoState], with a click on Cancel handled by the fifth
    call of [processEvents]: while the second instance is looked at. *)
Definition cancelledState : State :=
  set_pendingEvents [false; false; false; false; true] demoState.

(** The same, with the click handled one call later: while the third
    instance is looked at. *)
Definition lateCancelledState : State :=
  set_pendingEvents [false; false; false; false; false; true] demoState.

(** [demoState] with an empty list cached for the server, and with an
    empty list cached for study [1.2.3]. *)
Definition emptyStudiesCache : State :=
  set_cacheFiles {[ studiesCacheFile (cachePath demoState) demoUrl := [] ]}
    demoState.

Definition emptySeriesCache : State :=
  set_cacheFiles {[ seriesCacheFile (cachePath demoState) "1.2.3" := [] ]}
    demoState.

(** ** More of the widget *)

(** [list.remove(x)]: the first occurrence of [x] is taken out. *)
Fixpoint remove_first (x : string) (l : list string) : list string :=
  match l with
  | [] => []
  | y :: rest => if decide (y = x) then rest else y :: remove_first x rest
  end.

(** [addServerUrlToHistory], on the value of the [ServerURLHistory]
    setting: the URL is moved (or put) in front, and the ten most recent
    URLs are kept. *)
Definition addServerUrlToHistory (url : string) (urlHistory : list string)
    : list string :=
  let urlHistory :=
    if decide (url ∈ urlHistory) then remove_first url urlHistory
    else urlHistory in
  take 10 (url :: urlHistory).

(** Every file there was is still there (its contents may be newer). *)
Definition filesKept (s s' : State) : Prop :=
  forall folder name,
    isfile (folders s) folder name = true ->
    isfile (folders s') folder name = true.

Definition keepsFiles {A : Type} (m : M A) : Prop :=
  forall s, filesKept s (m s).2.

(** The server hands out [pages] one after the other, each at the offset
    reached so far (the number of studies received) and each starting
    with a study not received before, and then ends the list: with an
    empty page, or with a page that starts with a study already
    received. *)
Fixpoint servesPages (env : Env) (studies : list Dataset)
    (pages : list (list Dataset)) : Prop :=
  match pages with
  | [] =>
      match search_for_studies (client env) (length studies) with
      | Ok [] => True
      | Ok (first :: _) => first ∈ studies
      | HTTPError _ => False
      end
  | page :: rest =>
      search_for_studies (client env) (length studies) = Ok page
      ∧ (exists first more, page = first :: more ∧ first ∉ studies)
      ∧ servesPages env (studies ++ page) rest
  end.

(** The offsets at which the pages, and the page that ends the list, are
    asked for. *)
Fixpoint pageOffsets (offset : nat) (pages : list (list Dataset)) : list nat :=
  match pages with
  | [] => [offset]
  | page :: rest => offset :: pageOffsets (offset + length page) rest
  end.



(** A server on which instance [1.3] cannot be retrieved, and one on
    which the series of a study cannot be listed. *)
Definition brokenServer : Server :=
  {| search_for_studies := search_for_studies demoServer;
     search_for_series := fun study => HTTPError "500 Internal Server Error";
     search_for_instances := search_for_instances demoServer;
     retrieve_instance := fun study series sop =>
       if decide (sop = "1.3") then HTTPError "404 Not Found"
       else Ok ("DICM " +:+ sop) |}.

(** A series that has no row in the table of [demoState]. *)
Definition jobS4 : QueuedItem := queuedItemFor "1.2.3" "S4".

(** [demoState] with two studies cached for the server. *)
Definition cachedStudiesState : State :=
  set_cacheFiles
    {[ studiesCacheFile (cachePath demoState) demoUrl := [studyA; studyB] ]}
    demoState.

(** The server hands out [pages] one after the other, as in
    [servesPages], and the request for the page that follows them fails
    with [error]. *)
Fixpoint failsAfterPages (env : Env) (studies : list Dataset)
    (pages : list (list Dataset)) (error : string) : Prop :=
  match pages with
  | [] => search_for_studies (client env) (length studies) = HTTPError error
  | page :: rest =>
      search_for_studies (client env) (length studies) = Ok page
      ∧ (exists first more, page = first :: more ∧ first ∉ studies)
      ∧ failsAfterPages env (studies ++ page) rest error
  end.

(** What leaves the Cancel button alone: the flag and the events still
    pending are as they were. *)
Definition sameEvents (s s' : State) : Prop :=
  cancelDownloadRequested s' = cancelDownloadRequested s
  ∧ pendingEvents s' = pendingEvents s.

Definition keepsEvents {A : Type} (m : M A) : Prop :=
  forall s, sameEvents s (m s).2.

(** * Properties *)

(** ** The digest agrees with [hashlib] on test vectors *)

Example md5_abc : MD5.hexdigest "abc" = "900150983cd24fb0d6963f7d28e17f72".
Proof. vm_compute. reflexivity. Qed.

Example md5_uid : MD5.hexdigest "1.2.3" = "b0e8daa258acbb6fc4c86f89e0c9183e".
Proof. vm_compute. reflexivity. Qed.

Example md5_url :
  MD5.hexdigest "http://localhost:8042/dicom-web"
  = "e6414d4049f71ab28e6f9528a15f294e".
Proof. vm_compute. reflexivity. Qed.

Example md5_two_blocks :
  MD5.hexdigest "aaaaaaaaaaaaaaaaaaaaaaaaaaaaaaaaaaaaaaaaaaaaaaaaaaaaaaaa"
  = "3b0c8ac703f828b04c6c197006d17218".
Proof. vm_compute. reflexivity. Qed.

(** ** Running the monad *)

Lemma run_pair {A : Type} (m : M A) (s : State) : m s = ((m s).1, (m s).2).
Proof. destruct (m s); reflexivity. Qed.

Lemma bind_returned {A B : Type} (m : M A) (k : A -> M B) s a s' :
  m s = (Returned a, s') -> bind m k s = k a s'.
Proof. intros H. unfold bind. rewrite H. reflexivity. Qed.

Lemma bind_raised {A B : Type} (m : M A) (k : A -> M B) s error s' :
  m s = (Raised error, s') -> bind m k s = (Raised error, s').
Proof. intros H. unfold bind. rewrite H. reflexivity. Qed.

Lemma set_trace_same s : set_trace (trace s ++ []) s = s.
Proof. destruct s; unfold set_trace; simpl. rewrite app_nil_r. reflexivity. Qed.

(** ** processEvents *)

Lemma processEvents_returns s : (processEvents s).1 = Returned tt.
Proof.
  unfold processEvents, bind, gets, modify, ret, onCancelDownloadButton.
  destruct (pendingEvents s) as [|[] later]; reflexivity.
Qed.

Lemma processEvents_run s : processEvents s = (Returned tt, (processEvents s).2).
Proof. rewrite (run_pair processEvents s) at 1. rewrite processEvents_returns. reflexivity. Qed.

(** Handling events changes nothing but the cancel flag and the events
    still pending. *)
Lemma processEvents_frame s :
  let s' := (processEvents s).2 in
  cachePath s' = cachePath s ∧ useCacheFlag s' = useCacheFlag s
  ∧ downloadQueue s' = downloadQueue s ∧ studiesTable s' = studiesTable s
  ∧ seriesTable s' = seriesTable s ∧ cacheFiles s' = cacheFiles s
  ∧ folders s' = folders s ∧ dicomDatabase s' = dicomDatabase s
  ∧ trace s' = trace s.
Proof.
  unfold processEvents, bind, gets, modify, ret, onCancelDownloadButton.
  destruct (pendingEvents s) as [|[] later]; simpl; repeat split; reflexivity.
Qed.

(** ** connectToServer *)

Lemma connectPrelude_frame s :
  cachePath (connectPrelude s) = cachePath s
  ∧ useCacheFlag (connectPrelude s) = useCacheFlag s
  ∧ cacheFiles (connectPrelude s) = cacheFiles s
  ∧ trace (connectPrelude s) = trace s
  ∧ studiesTable (connectPrelude s) = []
  ∧ seriesTable (connectPrelude s) = [].
Proof.
  unfold connectPrelude.
  destruct (processEvents_frame (set_seriesTable [] (set_studiesTable [] s)))
    as (H1 & H2 & _ & H4 & H5 & H6 & _ & _ & H9).
  simpl in *. repeat split; assumption.
Qed.

(** On a cache miss [connectToServer] takes its fetch branch. *)
Lemma connectToServer_miss fuel env url s :
  studiesCacheMiss s url ->
  connectToServer fuel env url s
  = (fetchStudies fuel env (studiesCacheFile (cachePath s) url) ;;
     clearSeriesTableWidget) (connectPrelude s).
Proof.
  intros Hmiss. unfold connectToServer.
  unfold bind at 1, clearStudiesTableWidget at 1, modify at 1.
  unfold bind at 1, clearSeriesTableWidget at 1, modify at 1.
  unfold bind at 1, gets at 1.
  unfold bind at 1, showStatus. rewrite processEvents_run.
  fold (connectPrelude s). simpl cachePath.
  destruct (connectPrelude_frame s) as (Hp & Hu & Hc & _).
  unfold bind at 1, cache_isfile, gets at 1. rewrite Hc.
  unfold bind at 1, gets at 1. rewrite Hu.
  destruct Hmiss as [Hoff | [Hnone | Hempty]].
  - rewrite Hoff, andb_false_r. reflexivity.
  - rewrite Hnone. reflexivity.
  - rewrite Hempty. destruct (useCacheFlag s); simpl; [|reflexivity].
    unfold json_load, bind, gets. rewrite Hc, Hempty. reflexivity.
Qed.

Lemma fetchStudies_returned fuel env file s studies s1 :
  searchAllStudies fuel env [] 0 s = (Returned studies, s1) ->
  fetchStudies fuel env file s
  = (Returned tt,
     set_studiesTable (studiesTable s1 ++ studies)
       (set_cacheFiles (<[file := studies]> (cacheFiles s1)) s1)).
Proof.
  intros H. unfold fetchStudies, try_except.
  rewrite (bind_returned _ _ _ _ _ H). reflexivity.
Qed.

Lemma fetchStudies_raised fuel env file s error s1 :
  searchAllStudies fuel env [] 0 s = (Raised error, s1) ->
  fetchStudies fuel env file s
  = (Returned tt,
     set_trace (trace s1 ++ [CriticalMessage (connectErrorMessage error)]) s1).
Proof.
  intros H. unfold fetchStudies, try_except.
  rewrite (bind_raised _ _ _ _ _ H). reflexivity.
Qed.

(** What the page loop returns and which requests it makes do not depend
    on the state it is run in; it only adds its requests to the trace. *)
Lemma searchAllStudies_effect fuel env : forall studies offset,
  exists outcome requests,
    Forall (fun e => isSearchStudies e = true) requests
    ∧ forall s, searchAllStudies fuel env studies offset s
                = (outcome, set_trace (trace s ++ requests) s).
Proof.
  induction fuel as [|fuel IH]; intros studies offset.
  - exists Diverged, []. split; [constructor|].
    intros s. simpl. unfold diverge. rewrite set_trace_same. reflexivity.
  - destruct (search_for_studies (client env) offset) as [subset|message] eqn:Hsrv.
    + destruct subset as [|first more].
      * exists (Returned studies), [SearchStudies offset].
        split; [repeat constructor|]. intros s.
        simpl. unfold request, emit, bind, modify. rewrite Hsrv. reflexivity.
      * destruct (decide (first ∈ studies)) as [Hin|Hnotin].
        -- exists (Returned studies), [SearchStudies offset].
           split; [repeat constructor|]. intros s.
           simpl. unfold request, emit, bind, modify. rewrite Hsrv. simpl.
           rewrite decide_True by assumption. reflexivity.
        -- destruct (IH (studies ++ first :: more)
                        (offset + length (first :: more)))
             as (outcome & requests & Hreq & Hrun).
           exists outcome, (SearchStudies offset :: requests).
           split; [constructor; [reflexivity | assumption]|].
           intros s.
           simpl. unfold request, emit, bind, modify. rewrite Hsrv. simpl.
           rewrite decide_False by assumption.
           simpl in Hrun. rewrite Hrun.
           unfold set_trace. simpl. rewrite <- app_assoc. reflexivity.
    + exists (Raised message), [SearchStudies offset].
      split; [repeat constructor|]. intros s.
      simpl. unfold request, emit, bind, modify. rewrite Hsrv. reflexivity.
Qed.

(** A server that ignores the offset: the second page starts with a study
    already seen, and the loop stops there. *)
Lemma searchAllStudies_same_page fuel env page s :
  page ≠ [] ->
  (forall offset, search_for_studies (client env) offset = Ok page) ->
  searchAllStudies (S (S fuel)) env [] 0 s
  = (Returned page,
     set_trace (trace s ++ [SearchStudies 0; SearchStudies (length page)]) s).
Proof.
  intros Hne Hsrv. destruct page as [|first more]; [congruence|].
  simpl. unfold request, emit, bind, modify. rewrite !Hsrv. simpl.
  destruct (decide (first ∈ [])) as [Hin|_]; [inversion Hin|].
  rewrite Hsrv. simpl.
  destruct (decide (first ∈ first :: more)) as [_|Hnotin].
  - unfold ret, set_trace. simpl. rewrite <- app_assoc. reflexivity.
  - exfalso. apply Hnotin. constructor.
Qed.

(** Pages [[A; B]], [[C]] and [[]] at offsets 0, 2 and 3. *)
Lemma searchAllStudies_three_pages fuel env A B C s :
  C ∉ [A; B] ->
  search_for_studies (client env) 0 = Ok [A; B] ->
  search_for_studies (client env) 2 = Ok [C] ->
  search_for_studies (client env) 3 = Ok [] ->
  searchAllStudies (S (S (S fuel))) env [] 0 s
  = (Returned [A; B; C],
     set_trace (trace s ++ [SearchStudies 0; SearchStudies 2; SearchStudies 3])
       s).
Proof.
  intros HC H0 H2 H3.
  simpl. unfold request, emit, bind, modify. rewrite H0. simpl.
  destruct (decide (A ∈ [])) as [Hin|_]; [inversion Hin|].
  rewrite H2. simpl.
  destruct (decide (C ∈ [A; B])) as [Hin|_]; [contradiction|].
  rewrite H3. simpl.
  unfold ret, set_trace. simpl. rewrite <- !app_assoc. reflexivity.
Qed.

Lemma studyRequests_app t1 t2 :
  studyRequests (t1 ++ t2) = studyRequests t1 ++ studyRequests t2.
Proof. apply List.filter_app. Qed.

Lemma messages_app t1 t2 : messages (t1 ++ t2) = messages t1 ++ messages t2.
Proof. apply List.filter_app. Qed.

(** C7. Against a server that answers every page request with the same
    non-empty page (such as [[A; B]]), whatever the offset,
    [connectToServer] on a cache miss ends after exactly two page
    requests, at offsets 0 and the length of the page, and shows and
    caches that page once. *)
Theorem connectToServer_offset_ignored fuel env url s page :
  page ≠ [] ->
  (forall offset, search_for_studies (client env) offset = Ok page) ->
  studiesCacheMiss s url ->
  2 <= fuel ->
  let r := connectToServer fuel env url s in
  r.1 = Returned tt
  ∧ studyRequests (trace r.2)
    = studyRequests (trace s) ++ [SearchStudies 0; SearchStudies (length page)]
  ∧ studiesTable r.2 = page
  ∧ cacheFiles r.2 !! studiesCacheFile (cachePath s) url = Some page.
Proof.
  intros Hne Hsrv Hmiss Hfuel r. subst r.
  destruct fuel as [|[|fuel]]; [lia | lia |].
  rewrite (connectToServer_miss _ _ _ _ Hmiss).
  destruct (connectPrelude_frame s) as (_ & _ & Hc & Ht & Hst & _).
  erewrite bind_returned;
    [|apply fetchStudies_returned, (searchAllStudies_same_page _ _ page);
      assumption].
  unfold clearSeriesTableWidget, modify. simpl.
  rewrite Ht, Hst, Hc, studyRequests_app, lookup_insert_eq.
  repeat split; reflexivity.
Qed.

(** C8. Against a server whose pages at offsets 0, 2 and 3 are [[A; B]],
    [[C]] and [[]], with [C] a study other than [A] and [B],
    [connectToServer] on a cache miss makes exactly three page requests
    and shows (and caches) the pages in the order they came: [[A; B; C]]. *)
Theorem connectToServer_three_pages fuel env url s A B C :
  C ∉ [A; B] ->
  search_for_studies (client env) 0 = Ok [A; B] ->
  search_for_studies (client env) 2 = Ok [C] ->
  search_for_studies (client env) 3 = Ok [] ->
  studiesCacheMiss s url ->
  3 <= fuel ->
  let r := connectToServer fuel env url s in
  r.1 = Returned tt
  ∧ studyRequests (trace r.2)
    = studyRequests (trace s)
      ++ [SearchStudies 0; SearchStudies 2; SearchStudies 3]
  ∧ studiesTable r.2 = [A; B; C]
  ∧ cacheFiles r.2 !! studiesCacheFile (cachePath s) url = Some [A; B; C].
Proof.
  intros HC H0 H2 H3 Hmiss Hfuel r. subst r.
  destruct fuel as [|[|[|fuel]]]; [lia | lia | lia |].
  rewrite (connectToServer_miss _ _ _ _ Hmiss).
  destruct (connectPrelude_frame s) as (_ & _ & Hc & Ht & Hst & _).
  erewrite bind_returned;
    [|apply fetchStudies_returned, searchAllStudies_three_pages; eassumption].
  unfold clearSeriesTableWidget, modify. simpl.
  rewrite Ht, Hst, Hc, studyRequests_app, lookup_insert_eq.
  repeat split; reflexivity.
Qed.

(** ** What a download leaves unchanged *)

Lemma downloadFrame_refl s : downloadFrame s s.
Proof. unfold downloadFrame. repeat split; auto. Qed.

Lemma downloadFrame_trans s1 s2 s3 :
  downloadFrame s1 s2 -> downloadFrame s2 s3 -> downloadFrame s1 s3.
Proof.
  unfold downloadFrame.
  intros (A1 & A2 & A3 & A4 & A5 & A6 & A7 & A8)
         (B1 & B2 & B3 & B4 & B5 & B6 & B7 & B8).
  repeat split; try congruence. auto.
Qed.

Lemma framed_ret {A : Type} (a : A) : framed (ret a).
Proof. intros s. apply downloadFrame_refl. Qed.

Lemma framed_raise {A : Type} error : framed (@raise A error).
Proof. intros s. apply downloadFrame_refl. Qed.

Lemma framed_gets {A : Type} (f : State -> A) : framed (gets f).
Proof. intros s. apply downloadFrame_refl. Qed.

Lemma framed_bind {A B : Type} (m : M A) (k : A -> M B) :
  framed m -> (forall a, framed (k a)) -> framed (bind m k).
Proof.
  intros Hm Hk s. unfold bind. specialize (Hm s).
  destruct (m s) as [[a|error|] s1]; simpl in *; try assumption.
  eapply downloadFrame_trans; [exact Hm | apply Hk].
Qed.

Lemma framed_try_except {A : Type} (body : M A) handler :
  framed body -> (forall error, framed (handler error)) ->
  framed (try_except body handler).
Proof.
  intros Hb Hh s. unfold try_except. specialize (Hb s).
  destruct (body s) as [[a|error|] s1]; simpl in *; try assumption.
  eapply downloadFrame_trans; [exact Hb | apply Hh].
Qed.

Lemma framed_modify f :
  (forall s, downloadFrame s (f s)) -> framed (modify f).
Proof. intros H s. apply H. Qed.

Lemma imports_app t1 t2 : imports (t1 ++ t2) = imports t1 ++ imports t2.
Proof. apply List.filter_app. Qed.

Lemma retrievals_app t1 t2 :
  retrievals (t1 ++ t2) = retrievals t1 ++ retrievals t2.
Proof. apply List.filter_app. Qed.

Lemma framed_emit e : isAddDirectory e = false -> framed (emit e).
Proof.
  intros He. apply framed_modify. intros s. unfold downloadFrame. simpl.
  rewrite imports_app. unfold imports at 2. simpl. rewrite He, app_nil_r.
  repeat split; auto.
Qed.

Lemma framed_processEvents : framed processEvents.
Proof.
  intros s.
  destruct (processEvents_frame s) as (H1 & H2 & H3 & H4 & H5 & H6 & H7 & H8 & H9).
  unfold downloadFrame, rowUIDs. rewrite H1, H2, H3, H5, H6, H7, H8, H9.
  repeat split; auto.
Qed.

Lemma framed_request {A : Type} e (r : Response A) :
  isAddDirectory e = false -> framed (request e r).
Proof.
  intros He. unfold request. apply framed_bind; [apply framed_emit, He|].
  intros _. destruct r; [apply framed_ret | apply framed_raise].
Qed.

Lemma rowUIDs_alter (f : SeriesRow -> SeriesRow) i (rows : list SeriesRow) :
  (forall row, rowSeriesUID (f row) = rowSeriesUID row) ->
  rowSeriesUID <$> alter f i rows = rowSeriesUID <$> rows.
Proof.
  intros Hf. revert i. induction rows as [|row rows IH]; intros [|i]; simpl;
    try reflexivity.
  - rewrite Hf. reflexivity.
  - f_equal. apply IH.
Qed.

Lemma framed_alter_row f i :
  (forall row, rowSeriesUID (f row) = rowSeriesUID row) ->
  framed (modify (fun s => set_seriesTable (alter f i (seriesTable s)) s)).
Proof.
  intros Hf. apply framed_modify. intros s. unfold downloadFrame, rowUIDs.
  simpl. rewrite (rowUIDs_alter f i _ Hf). repeat split; auto.
Qed.

Lemma framed_setMaximum b n : framed (setMaximum b n).
Proof. apply framed_alter_row. reflexivity. Qed.

Lemma framed_setValue series b v : framed (setValue series b v).
Proof.
  unfold setValue. apply framed_bind; [apply framed_alter_row; reflexivity|].
  intros _. apply framed_bind; [apply framed_gets|]. intros rows.
  destruct (rows !! b ≫= rowProgressBar);
    [apply framed_emit; reflexivity | apply framed_ret].
Qed.

Lemma framed_whenBar bar f : (forall b, framed (f b)) -> framed (whenBar bar f).
Proof. intros H. destruct bar; [apply H | apply framed_ret]. Qed.

Lemma framed_getSeriesRowNumber series : framed (getSeriesRowNumber series).
Proof. intros s. apply downloadFrame_refl. Qed.

Lemma framed_removeDownloadProgressBar series :
  framed (removeDownloadProgressBar series).
Proof.
  unfold removeDownloadProgressBar.
  apply framed_bind; [apply framed_getSeriesRowNumber|].
  intros [i|]; [apply framed_alter_row; reflexivity | apply framed_ret].
Qed.

Lemma framed_write_file folder name payload :
  framed (write_file folder name payload).
Proof.
  intros s. unfold write_file, bind, gets, modify, raise.
  destruct (folders s !! folder) as [files|] eqn:Hf; simpl;
    [|apply downloadFrame_refl].
  unfold downloadFrame, rowUIDs. simpl. repeat split; auto.
  intros p Hp. destruct (decide (folder = p)) as [->|Hne].
  - rewrite lookup_insert_eq. eauto.
  - rewrite lookup_insert_ne by assumption. exact Hp.
Qed.

Lemma framed_sopInstanceUidOf instance : framed (sopInstanceUidOf instance).
Proof.
  unfold sopInstanceUidOf.
  destruct (instance !! "00080018") as [[|uid more]|];
    first [apply framed_ret | apply framed_raise].
Qed.

Lemma framed_instanceBody env item bar db instance instanceIndex :
  framed (instanceBody env item bar db instance instanceIndex).
Proof.
  unfold instanceBody.
  apply framed_bind;
    [apply framed_whenBar; intros b; apply framed_setValue|]. intros _.
  apply framed_bind; [apply framed_processEvents|]. intros _.
  apply framed_bind; [apply framed_sopInstanceUidOf|]. intros uid.
  destruct (decide (uid ∈ db)); [apply framed_ret|].
  apply framed_bind; [apply framed_gets|]. intros present.
  apply framed_bind; [apply framed_gets|]. intros useCache.
  destruct (negb present || negb useCache); [|apply framed_ret].
  apply framed_bind; [apply framed_request; reflexivity|]. intros payload.
  apply framed_write_file.
Qed.

Lemma framed_instanceLoop env item bar db instances :
  forall instanceIndex,
    framed (instanceLoop env item bar db instances instanceIndex).
Proof.
  induction instances as [|instance rest IH]; intros instanceIndex; simpl.
  - apply framed_ret.
  - apply framed_bind; [apply framed_gets|]. intros [|]; [apply framed_ret|].
    apply framed_bind; [apply framed_instanceBody|]. intros _. apply IH.
Qed.

Lemma framed_beginDownload env item : framed (beginDownload env item).
Proof.
  unfold beginDownload.
  apply framed_bind; [apply framed_request; reflexivity|]. intros instances.
  apply framed_bind; [apply framed_processEvents|]. intros _.
  apply framed_bind; [apply framed_processEvents|]. intros _.
  apply framed_bind.
  { unfold getSeriesDownloadProgressBar.
    apply framed_bind; [apply framed_getSeriesRowNumber|]. intros [i|];
      [|apply framed_ret].
    apply framed_bind; [apply framed_gets|]. intros rows.
    destruct (rows !! i ≫= rowProgressBar); apply framed_ret. }
  intros bar. apply framed_bind.
  { apply framed_whenBar. intros b.
    apply framed_bind; [apply framed_setMaximum|]. intros _.
    apply framed_setValue. }
  intros _. apply framed_bind; [apply framed_getSeriesRowNumber|]. intros _.
  apply framed_bind; [apply framed_gets|]. intros db. apply framed_ret.
Qed.

(** ** Progress bars *)

Lemma setValue_run series b v s :
  setValue series b v s = (Returned tt, (setValue series b v s).2).
Proof.
  unfold setValue, bind, modify, gets, emit, ret. simpl.
  destruct (alter _ b (seriesTable s) !! b ≫= rowProgressBar); reflexivity.
Qed.

Lemma setValue_fields series b v s :
  let s' := (setValue series b v s).2 in
  folders s' = folders s ∧ useCacheFlag s' = useCacheFlag s
  ∧ cancelDownloadRequested s' = cancelDownloadRequested s
  ∧ pendingEvents s' = pendingEvents s
  ∧ retrievals (trace s') = retrievals (trace s).
Proof.
  unfold setValue, bind, modify, gets, emit, ret. simpl.
  destruct (alter _ b (seriesTable s) !! b ≫= rowProgressBar); simpl;
    repeat split; try reflexivity.
  rewrite retrievals_app. simpl. apply app_nil_r.
Qed.

Lemma barAt_alter s b n b' (f : ProgressBar -> ProgressBar) s' :
  (forall bar, maximum (f bar) = maximum bar) ->
  seriesTable s' = alter (withProgressBar f) b' (seriesTable s) ->
  barAt s b n -> barAt s' b n.
Proof.
  intros Hf Hs' (v & Hv). unfold barAt. rewrite Hs'.
  destruct (decide (b' = b)) as [->|Hne].
  - rewrite list_lookup_alter_eq.
    destruct (seriesTable s !! b) as [row|]; simpl in *; [|discriminate].
    unfold withProgressBar. simpl.
    rewrite Hv. simpl. specialize (Hf {| value := v; maximum := n |}).
    destruct (f _) as [v' n']. simpl in Hf. subst n'. eauto.
  - rewrite list_lookup_alter_ne by assumption. eauto.
Qed.

Lemma setValue_table series b v s :
  seriesTable (setValue series b v s).2
  = alter (withProgressBar (fun bar => {| value := v; maximum := maximum bar |}))
      b (seriesTable s).
Proof.
  unfold setValue, bind, modify, gets, emit, ret. simpl.
  destruct (alter _ b (seriesTable s) !! b ≫= rowProgressBar); reflexivity.
Qed.

Lemma setValue_barAt series b' v s b n :
  barAt s b n -> barAt (setValue series b' v s).2 b n.
Proof. apply barAt_alter with (2 := setValue_table series b' v s). reflexivity. Qed.

(** With a bar of maximum [n] in row [b], [setValue] reports [v] of [n]. *)
Lemma setValue_trace series b v s n :
  barAt s b n ->
  trace (setValue series b v s).2
  = trace s ++ [SetValue series {| value := v; maximum := n |}].
Proof.
  intros (v0 & Hv). unfold setValue, bind, modify, gets, emit, ret. simpl.
  rewrite list_lookup_alter_eq.
  destruct (seriesTable s !! b) as [row|]; simpl in *; [|discriminate].
  rewrite Hv. reflexivity.
Qed.

Lemma setMaximum_barAt b n s :
  is_Some (seriesTable s !! b ≫= rowProgressBar) ->
  barAt (setMaximum b n s).2 b n.
Proof.
  intros [[v m] Hbar]. unfold barAt, setMaximum, modify. simpl.
  rewrite list_lookup_alter_eq.
  destruct (seriesTable s !! b) as [row|]; simpl in *; [|discriminate].
  rewrite Hbar. simpl. eauto.
Qed.

(** ** Handling events when nothing cancels *)

Lemma processEvents_noCancel s : noCancel s -> noCancel (processEvents s).2.
Proof.
  unfold noCancel, processEvents, bind, gets, modify, ret,
    onCancelDownloadButton.
  intros [Hflag Hpending].
  destruct (pendingEvents s) as [|[] later] eqn:E; simpl in *;
    try discriminate; rewrite ?E; split; assumption.
Qed.

Lemma noCancel_fields s s' :
  cancelDownloadRequested s' = cancelDownloadRequested s ->
  pendingEvents s' = pendingEvents s ->
  noCancel s -> noCancel s'.
Proof. unfold noCancel. intros -> ->. auto. Qed.

Lemma whenBar_setValue_run series bar v s :
  whenBar bar (fun b => setValue series b v) s
  = (Returned tt, (whenBar bar (fun b => setValue series b v) s).2).
Proof. destruct bar; simpl; [apply setValue_run | reflexivity]. Qed.

Lemma beforeInstance_fields item bar idx s :
  let s' := beforeInstance item bar idx s in
  folders s' = folders s ∧ useCacheFlag s' = useCacheFlag s
  ∧ retrievals (trace s') = retrievals (trace s)
  ∧ (noCancel s -> noCancel s')
  ∧ (forall b n, barAt s b n -> barAt s' b n).
Proof.
  unfold beforeInstance.
  set (s1 := (whenBar bar _ s).2).
  assert (H1 : folders s1 = folders s ∧ useCacheFlag s1 = useCacheFlag s
               ∧ cancelDownloadRequested s1 = cancelDownloadRequested s
               ∧ pendingEvents s1 = pendingEvents s
               ∧ retrievals (trace s1) = retrievals (trace s)
               ∧ (forall b n, barAt s b n -> barAt s1 b n)).
  { subst s1. destruct bar as [b'|]; simpl.
    - destruct (setValue_fields (seriesInstanceUID item) b' idx s)
        as (A & B & C & D & E).
      repeat split; try assumption. intros b n. apply setValue_barAt.
    - repeat split; auto. }
  destruct H1 as (A & B & C & D & E & F).
  destruct (processEvents_frame s1) as (_ & P2 & _ & _ & P5 & _ & P7 & _ & P9).
  simpl. rewrite P7, P2, P9. split; [assumption|]. split; [assumption|].
  split; [assumption|]. split.
  - intros Hn. apply processEvents_noCancel.
    apply (noCancel_fields s s1); assumption.
  - intros b n Hb. destruct (F b n Hb) as (v & Hv).
    exists v. rewrite P5. exact Hv.
Qed.

(** ** One instance *)

Lemma sopInstanceUidOf_run instance uid s :
  sopUidOf instance = Some uid ->
  sopInstanceUidOf instance s = (Returned uid, s).
Proof.
  unfold sopUidOf, sopInstanceUidOf.
  destruct (instance !! "00080018") as [[|u more]|]; simpl; try discriminate.
  intros [= ->]. reflexivity.
Qed.

Lemma instanceBody_head env item bar db instance idx s uid :
  sopUidOf instance = Some uid ->
  instanceBody env item bar db instance idx s
  = (if decide (uid ∈ db) then ret tt
     else
       present <- os_path_isfile (downloadFolderPath item) (instanceFileName uid);
       useCache <- gets useCacheFlag;
       if negb present || negb useCache then
         retrievedInstance <-
           request (RetrieveInstance (studyInstanceUID item)
                      (seriesInstanceUID item) uid)
                   (retrieve_instance (client env) (studyInstanceUID item)
                      (seriesInstanceUID item) uid);
         write_file (downloadFolderPath item) (instanceFileName uid)
           retrievedInstance
       else ret tt)%py (beforeInstance item bar idx s).
Proof.
  intros Huid. unfold instanceBody.
  rewrite (bind_returned _ _ _ _ _ (whenBar_setValue_run _ _ _ _)).
  rewrite (bind_returned _ _ _ _ _ (processEvents_run _)).
  fold (beforeInstance item bar idx s).
  rewrite (bind_returned _ _ _ _ _ (sopInstanceUidOf_run _ _ _ Huid)).
  reflexivity.
Qed.

(** An instance already in the local database is skipped. *)
Lemma instanceBody_in_database env item bar db instance idx s uid :
  sopUidOf instance = Some uid -> uid ∈ db ->
  instanceBody env item bar db instance idx s
  = (Returned tt, beforeInstance item bar idx s).
Proof.
  intros Huid Hin. rewrite (instanceBody_head _ _ _ _ _ _ _ _ Huid).
  rewrite decide_True by assumption. reflexivity.
Qed.

(** With the cache in use, an instance whose file is already in the
    download folder is not asked for. *)
Lemma instanceBody_cached env item bar db instance idx s uid :
  sopUidOf instance = Some uid -> uid ∉ db ->
  useCacheFlag s = true ->
  isfile (folders s) (downloadFolderPath item) (instanceFileName uid) = true ->
  instanceBody env item bar db instance idx s
  = (Returned tt, beforeInstance item bar idx s).
Proof.
  intros Huid Hnotin Hcache Hfile.
  rewrite (instanceBody_head _ _ _ _ _ _ _ _ Huid).
  rewrite decide_False by assumption.
  destruct (beforeInstance_fields item bar idx s) as (Hf & Hu & _).
  unfold bind, os_path_isfile, gets. rewrite Hf, Hu, Hfile, Hcache.
  reflexivity.
Qed.

(** Otherwise the instance is asked for and written to the file named
    after its UID, whether or not that file exists. *)
Lemma instanceBody_retrieved env item bar db instance idx s uid payload files :
  sopUidOf instance = Some uid -> uid ∉ db ->
  useCacheFlag s = false
  ∨ isfile (folders s) (downloadFolderPath item) (instanceFileName uid) = false ->
  retrieve_instance (client env) (studyInstanceUID item)
    (seriesInstanceUID item) uid = Ok payload ->
  folders s !! downloadFolderPath item = Some files ->
  let s1 := beforeInstance item bar idx s in
  instanceBody env item bar db instance idx s
  = (Returned tt,
     set_folders
       (<[downloadFolderPath item := <[instanceFileName uid := payload]> files]>
          (folders s))
       (set_trace
          (trace s1 ++ [RetrieveInstance (studyInstanceUID item)
                          (seriesInstanceUID item) uid]) s1)).
Proof.
  intros Huid Hnotin Hmiss Hsrv Hfolder s1.
  rewrite (instanceBody_head _ _ _ _ _ _ _ _ Huid).
  rewrite decide_False by assumption. fold s1.
  destruct (beforeInstance_fields item bar idx s) as (Hf & Hu & _).
  fold s1 in Hf, Hu.
  unfold bind, os_path_isfile, gets. rewrite Hf, Hu.
  assert (Hgo : negb (isfile (folders s) (downloadFolderPath item)
                        (instanceFileName uid))
                || negb (useCacheFlag s) = true).
  { destruct Hmiss as [-> | ->]; [apply orb_true_r | reflexivity]. }
  rewrite Hgo. unfold request, emit, bind, modify. rewrite Hsrv.
  unfold ret, write_file, bind, gets. simpl. rewrite Hf, Hfolder.
  reflexivity.
Qed.

(** A failed retrieval raises, and nothing is written. *)
Lemma instanceBody_failed env item bar db instance idx s uid message :
  sopUidOf instance = Some uid -> uid ∉ db ->
  useCacheFlag s = false
  ∨ isfile (folders s) (downloadFolderPath item) (instanceFileName uid) = false ->
  retrieve_instance (client env) (studyInstanceUID item)
    (seriesInstanceUID item) uid = HTTPError message ->
  let s1 := beforeInstance item bar idx s in
  instanceBody env item bar db instance idx s
  = (Raised message,
     set_trace
       (trace s1 ++ [RetrieveInstance (studyInstanceUID item)
                       (seriesInstanceUID item) uid]) s1).
Proof.
  intros Huid Hnotin Hmiss Hsrv s1.
  rewrite (instanceBody_head _ _ _ _ _ _ _ _ Huid).
  rewrite decide_False by assumption. fold s1.
  destruct (beforeInstance_fields item bar idx s) as (Hf & Hu & _).
  fold s1 in Hf, Hu.
  unfold bind, os_path_isfile, gets. rewrite Hf, Hu.
  assert (Hgo : negb (isfile (folders s) (downloadFolderPath item)
                        (instanceFileName uid))
                || negb (useCacheFlag s) = true).
  { destruct Hmiss as [-> | ->]; [apply orb_true_r | reflexivity]. }
  rewrite Hgo. unfold request, emit, bind, modify. rewrite Hsrv.
  reflexivity.
Qed.

(** ** The instance loop *)

(** Once the flag is set, the loop does nothing more. *)
Lemma instanceLoop_cancelled env item bar db instances idx s :
  cancelDownloadRequested s = true ->
  instanceLoop env item bar db instances idx s = (Returned tt, s).
Proof.
  intros Hc. destruct instances as [|instance rest]; [reflexivity|].
  simpl. unfold bind, gets. rewrite Hc. reflexivity.
Qed.

Lemma instanceLoop_cons env item bar db instance rest idx s :
  cancelDownloadRequested s = false ->
  instanceLoop env item bar db (instance :: rest) idx s
  = (instanceBody env item bar db instance idx ;;
     instanceLoop env item bar db rest (S idx)) s.
Proof. intros Hc. simpl. unfold bind at 1, gets. rewrite Hc. reflexivity. Qed.

Lemma isfile_dom fs folder name (files : gmap string string) :
  fs !! folder = Some files ->
  isfile fs folder name = bool_decide (name ∈ dom files).
Proof.
  intros Hf. unfold isfile. rewrite Hf.
  destruct (files !! name) as [payload|] eqn:Hn.
  - symmetry. apply bool_decide_eq_true. apply elem_of_dom. eauto.
  - symmetry. apply bool_decide_eq_false. rewrite elem_of_dom, Hn.
    intros [x Hx]. discriminate.
Qed.

(** When nothing cancels and every request succeeds, the loop runs to
    its end and asks for exactly the instances of [toRetrieve]. *)
Lemma instanceLoop_noCancel env item bar db :
  forall instances uids idx s files,
    sopUidOf <$> instances = Some <$> uids ->
    (forall uid, uid ∈ uids -> uid ∉ db ->
       exists payload,
         retrieve_instance (client env) (studyInstanceUID item)
           (seriesInstanceUID item) uid = Ok payload) ->
    noCancel s ->
    folders s !! downloadFolderPath item = Some files ->
    exists s' files',
      instanceLoop env item bar db instances idx s = (Returned tt, s')
      ∧ noCancel s'
      ∧ folders s' !! downloadFolderPath item = Some files'
      ∧ retrievals (trace s')
        = retrievals (trace s)
          ++ (RetrieveInstance (studyInstanceUID item) (seriesInstanceUID item)
                <$> toRetrieve (useCacheFlag s) (dom files) db uids)
      ∧ (forall b n, barAt s b n -> barAt s' b n).
Proof.
  induction instances as [|instance rest IH];
    intros uids idx s files Huids Hsrv Hquiet Hfolder.
  - destruct uids; [|discriminate]. exists s, files. simpl.
    rewrite app_nil_r. repeat split; auto; apply Hquiet.
  - destruct uids as [|uid uids]; [discriminate|].
    simpl in Huids. injection Huids as Huid Hrest.
    rewrite instanceLoop_cons by apply Hquiet.
    destruct (beforeInstance_fields item bar idx s)
      as (Bf & Bu & Br & Bq & Bb).
    set (s1 := beforeInstance item bar idx s) in *.
    assert (Hsrv' : forall u, u ∈ uids -> u ∉ db ->
              exists payload,
                retrieve_instance (client env) (studyInstanceUID item)
                  (seriesInstanceUID item) u = Ok payload).
    { intros u Hu Hn. apply Hsrv; [right|]; assumption. }
    simpl toRetrieve.
    destruct (decide (uid ∈ db)) as [Hin|Hnotin].
    + rewrite (bind_returned _ _ _ _ _
                 (instanceBody_in_database _ _ _ _ _ _ _ _ Huid Hin)).
      fold s1.
      destruct (IH uids (S idx) s1 files Hrest Hsrv' (Bq Hquiet))
        as (s' & files' & Hrun & Hq' & Hf' & Hr' & Hb').
      { rewrite Bf. exact Hfolder. }
      exists s', files'. rewrite Hrun, Hr', Br, Bu.
      repeat split; auto; apply Hq'.
    + rewrite <- (isfile_dom (folders s) _ _ _ Hfolder).
      destruct (useCacheFlag s
                && isfile (folders s) (downloadFolderPath item)
                     (instanceFileName uid)) eqn:Hhit.
      * apply andb_true_iff in Hhit as [Hcache Hfile].
        rewrite (bind_returned _ _ _ _ _
                   (instanceBody_cached _ _ _ _ _ _ _ _
                      Huid Hnotin Hcache Hfile)).
        fold s1.
        destruct (IH uids (S idx) s1 files Hrest Hsrv' (Bq Hquiet))
          as (s' & files' & Hrun & Hq' & Hf' & Hr' & Hb').
        { rewrite Bf. exact Hfolder. }
        exists s', files'. rewrite Hrun, Hr', Br, Bu, Hcache.
        repeat split; auto; apply Hq'.
      * apply andb_false_iff in Hhit.
        destruct (Hsrv uid) as (payload & Hpayload); [left|exact Hnotin|].
        rewrite (bind_returned _ _ _ _ _
                   (instanceBody_retrieved _ _ bar _ _ idx _ _ _ _
                      Huid Hnotin Hhit Hpayload Hfolder)).
        fold s1.
        match goal with
        | |- context [instanceLoop _ _ _ _ _ _ ?st] => set (s2 := st)
        end.
        destruct (IH uids (S idx) s2
                    (<[instanceFileName uid := payload]> files)
                    Hrest Hsrv')
          as (s' & files' & Hrun & Hq' & Hf' & Hr' & Hb').
        { specialize (Bq Hquiet). unfold noCancel in *. exact Bq. }
        { subst s2. simpl. apply lookup_insert_eq. }
        exists s', files'. rewrite Hrun, Hr'. subst s2. simpl.
        rewrite retrievals_app, Br, Bu, dom_insert_L, <- app_assoc.
        repeat split; auto; try apply Hq'.
        intros b n Hb. apply Hb'. destruct (Bb b n Hb) as (v & Hv).
        exists v. exact Hv.
Qed.

(** ** Removing the download folder *)

Lemma set_folders_same s fs : folders s = fs -> set_folders fs s = s.
Proof. intros <-. destruct s; reflexivity. Qed.

Lemma removeFiles_run folder : forall names (files : gmap string string) s,
  folders s !! folder = Some files ->
  NoDup names ->
  (forall name, name ∈ names -> is_Some (files !! name)) ->
  removeFiles folder names s
  = (Returned tt,
     set_folders
       (<[folder := foldl (fun m name => delete name m) files names]> (folders s))
       s).
Proof.
  induction names as [|name names IH]; intros files s Hfolder Hnodup Hin.
  - simpl. unfold ret. rewrite set_folders_same; [reflexivity|].
    symmetry. apply insert_id, Hfolder.
  - cbn [removeFiles]. unfold bind at 1, os_remove, bind at 1, gets at 1.
    rewrite Hfolder.
    destruct (Hin name) as [payload Hpayload]; [left|]. rewrite Hpayload.
    unfold modify at 1.
    apply NoDup_cons in Hnodup as [Hfresh Hnodup].
    rewrite (IH (delete name files)); simpl.
    + rewrite insert_insert_eq. reflexivity.
    + apply lookup_insert_eq.
    + exact Hnodup.
    + intros name' Hname'. rewrite lookup_delete_ne.
      * apply Hin. right. exact Hname'.
      * intros ->. contradiction.
Qed.

Lemma lookup_delete_all (names : list string) : forall (files : gmap string string) name,
  foldl (fun m n => delete n m) files names !! name
  = if decide (name ∈ names) then None else files !! name.
Proof.
  induction names as [|n names IH]; intros files name; cbn [foldl].
  - destruct (decide (name ∈ [])) as [Hin|_]; [inversion Hin | reflexivity].
  - rewrite IH.
    destruct (decide (name ∈ names)) as [Hin|Hnotin];
      destruct (decide (name ∈ n :: names)) as [Hin'|Hnotin'];
      try reflexivity.
    + exfalso. apply Hnotin'. right. exact Hin.
    + apply elem_of_cons in Hin' as [->|Hin']; [|contradiction].
      apply lookup_delete_eq.
    + apply lookup_delete_ne. intros ->. apply Hnotin'. left.
Qed.

(** Removing every listed file leaves the folder empty. *)
Lemma delete_all_listed (files : gmap string string) :
  foldl (fun m n => delete n m) files (elements (dom files)) = ∅.
Proof.
  apply map_eq. intros name. rewrite lookup_delete_all, lookup_empty.
  destruct (decide (name ∈ elements (dom files))) as [Hin|Hnotin];
    [reflexivity|].
  destruct (files !! name) as [payload|] eqn:Hname; [|reflexivity].
  exfalso. apply Hnotin. apply elem_of_elements, elem_of_dom. eauto.
Qed.

(** Lines 865-867: every file of the folder is removed, then the folder. *)
Lemma cleanup_run folder (files : gmap string string) s :
  folders s !! folder = Some files ->
  (names <- os_listdir folder;
   removeFiles folder names ;;
   os_rmdir folder)%py s
  = (Returned tt, set_folders (delete folder (folders s)) s).
Proof.
  intros Hfolder. unfold bind at 1, os_listdir, bind at 1, gets at 1.
  rewrite Hfolder. unfold ret at 1.
  erewrite bind_returned.
  2:{ apply (removeFiles_run folder _ files); [assumption| |].
      - apply NoDup_elements.
      - intros name Hname. apply elem_of_dom, elem_of_elements, Hname. }
  rewrite delete_all_listed.
  unfold os_rmdir, bind, gets, modify. simpl. rewrite lookup_insert_eq.
  rewrite decide_True by reflexivity. rewrite delete_insert_eq. reflexivity.
Qed.

(** ** The series table *)

Lemma getSeriesRowNumber_from_rowUIDs series :
  forall rows rows' i,
    rowSeriesUID <$> rows = rowSeriesUID <$> rows' ->
    getSeriesRowNumber_from rows series i
    = getSeriesRowNumber_from rows' series i.
Proof.
  induction rows as [|row rows IH]; intros [|row' rows'] i Heq;
    try discriminate; [reflexivity|].
  simpl in Heq. injection Heq as Hrow Hrows. simpl. rewrite Hrow.
  destruct (rowSeriesUID row') as [text|]; [|reflexivity].
  destruct (decide (text = series)); [reflexivity|]. apply IH, Hrows.
Qed.

Lemma getSeriesRowNumber_frame series s s' :
  rowUIDs s' = rowUIDs s ->
  getSeriesRowNumber series s'
  = (getSeriesRowNumber_from (seriesTable s) series 0, s').
Proof.
  intros H. unfold getSeriesRowNumber.
  rewrite (getSeriesRowNumber_from_rowUIDs series _ (seriesTable s) 0 H).
  reflexivity.
Qed.

Lemma getSeriesRowNumber_found series s s' r :
  rowUIDs s' = rowUIDs s ->
  getSeriesRowNumber_from (seriesTable s) series 0 = Returned r ->
  getSeriesRowNumber series s' = (Returned r, s').
Proof.
  intros H Hr. rewrite (getSeriesRowNumber_frame series s s' H), Hr.
  reflexivity.
Qed.

Lemma getSeriesDownloadProgressBar_run series s s' i :
  rowUIDs s' = rowUIDs s ->
  getSeriesRowNumber_from (seriesTable s) series 0 = Returned (Some i) ->
  getSeriesDownloadProgressBar series s'
  = (Returned match seriesTable s' !! i ≫= rowProgressBar with
              | Some _ => Some i
              | None => None
              end, s').
Proof.
  intros H Hrow. unfold getSeriesDownloadProgressBar.
  rewrite (bind_returned _ _ _ _ _ (getSeriesRowNumber_found _ _ _ _ H Hrow)).
  unfold bind, gets.
  destruct (seriesTable s' !! i ≫= rowProgressBar); reflexivity.
Qed.

Lemma removeDownloadProgressBar_fields series s :
  let r := removeDownloadProgressBar series s in
  folders r.2 = folders s ∧ trace r.2 = trace s
  ∧ cancelDownloadRequested r.2 = cancelDownloadRequested s
  ∧ pendingEvents r.2 = pendingEvents s
  ∧ dicomDatabase r.2 = dicomDatabase s
  ∧ (r.1 = Returned tt
     ∨ getSeriesRowNumber_from (seriesTable s) series 0 = Raised "AttributeError").
Proof.
  unfold removeDownloadProgressBar, bind, getSeriesRowNumber.
  assert (Hcases : forall rows i,
            (exists r, getSeriesRowNumber_from rows series i = Returned r)
            ∨ getSeriesRowNumber_from rows series i = Raised "AttributeError").
  { induction rows as [|row rows IH]; intros i; simpl; [eauto|].
    destruct (rowSeriesUID row); [|auto].
    destruct (decide _); [eauto | apply IH]. }
  destruct (Hcases (seriesTable s) 0) as [[[i|] ->] | ->]; simpl;
    repeat split; auto.
Qed.

(** ** Steps that only show status or progress *)

Lemma calm_refl s : calm s s.
Proof. unfold calm. repeat split; auto; apply H. Qed.

Lemma calm_trans s1 s2 s3 : calm s1 s2 -> calm s2 s3 -> calm s1 s3.
Proof.
  unfold calm.
  intros (A1 & A2 & A3 & A4 & A5 & A6 & A7 & A8)
         (B1 & B2 & B3 & B4 & B5 & B6 & B7 & B8).
  do 7 (split; [congruence|]). auto.
Qed.

Lemma calm_processEvents s : calm s (processEvents s).2.
Proof.
  destruct (processEvents_frame s) as (H1 & H2 & H3 & H4 & H5 & H6 & H7 & H8 & H9).
  unfold calm, rowUIDs. rewrite H2, H3, H5, H7, H8, H9.
  do 7 (split; [reflexivity|]). apply processEvents_noCancel.
Qed.

Lemma calm_emit e s :
  isRetrieveInstance e = false -> isAddDirectory e = false ->
  calm s (set_trace (trace s ++ [e]) s).
Proof.
  intros Hr Hi. unfold calm, rowUIDs. simpl.
  rewrite retrievals_app, imports_app. unfold retrievals at 2, imports at 2.
  simpl. rewrite Hr, Hi, !app_nil_r.
  do 7 (split; [reflexivity|]). auto.
Qed.

Lemma calm_alter_row f i s :
  (forall row, rowSeriesUID (f row) = rowSeriesUID row) ->
  calm s (set_seriesTable (alter f i (seriesTable s)) s).
Proof.
  intros Hf. unfold calm, rowUIDs. simpl. rewrite (rowUIDs_alter f i _ Hf).
  do 7 (split; [reflexivity|]). auto.
Qed.

Lemma calm_setMaximum b n s : calm s (setMaximum b n s).2.
Proof. apply calm_alter_row. reflexivity. Qed.

Lemma calm_setValue series b v s : calm s (setValue series b v s).2.
Proof.
  unfold setValue, bind, modify, gets, emit, ret. simpl.
  match goal with
  | |- context [set_seriesTable ?t s] => set (s1 := set_seriesTable t s)
  end.
  assert (H1 : calm s s1) by (apply calm_alter_row; reflexivity).
  destruct (_ ≫= rowProgressBar) as [bar|]; simpl; [|exact H1].
  eapply calm_trans; [exact H1|].
  apply (calm_emit (SetValue series bar) s1); reflexivity.
Qed.

Lemma calm_whenBar_setValue series bar v s :
  calm s (whenBar bar (fun b => setValue series b v) s).2.
Proof. destruct bar; [apply calm_setValue | apply calm_refl]. Qed.

(** ** The parts of a download *)

Lemma prepareFolder_run item s :
  prepareFolder item s = (Returned tt, (prepareFolder item s).2).
Proof.
  unfold prepareFolder, bind, os_path_exists, gets, os_makedirs, modify,
    showStatus.
  destruct (folders s !! downloadFolderPath item); simpl;
    rewrite processEvents_run; reflexivity.
Qed.

Lemma prepareFolder_fields item s :
  let s0 := (prepareFolder item s).2 in
  is_Some (folders s0 !! downloadFolderPath item)
  ∧ downloadFrame s s0
  ∧ retrievals (trace s0) = retrievals (trace s)
  ∧ seriesTable s0 = seriesTable s
  ∧ dicomDatabase s0 = dicomDatabase s
  ∧ (noCancel s -> noCancel s0)
  ∧ (forall p files, folders s !! p = Some files -> folders s0 !! p = Some files).
Proof.
  unfold prepareFolder, bind, os_path_exists, gets, os_makedirs, modify,
    showStatus, ret.
  destruct (folders s !! downloadFolderPath item) as [files|] eqn:Hf; simpl.
  - rewrite processEvents_run.
    destruct (processEvents_frame s) as (H1 & H2 & H3 & H4 & H5 & H6 & H7 & H8 & H9).
    simpl. rewrite H7, Hf, H9, H5, H8.
    split; [eauto|]. split; [apply framed_processEvents|].
    split; [reflexivity|]. split; [reflexivity|]. split; [reflexivity|].
    split; [apply processEvents_noCancel|]. auto.
  - set (s1 := set_folders _ s). rewrite processEvents_run.
    destruct (processEvents_frame s1) as (H1 & H2 & H3 & H4 & H5 & H6 & H7 & H8 & H9).
    simpl. rewrite H7, H9, H5, H8. subst s1. simpl.
    rewrite lookup_insert_eq.
    split; [eauto|]. split.
    { eapply downloadFrame_trans; [|apply framed_processEvents].
      unfold downloadFrame, rowUIDs. simpl. repeat split; auto.
      intros p Hp. destruct (decide (downloadFolderPath item = p)) as [->|Hne].
      - rewrite lookup_insert_eq. eauto.
      - rewrite lookup_insert_ne by assumption. exact Hp. }
    split; [reflexivity|]. split; [reflexivity|]. split; [reflexivity|].
    split.
    { intros Hq. apply processEvents_noCancel. exact Hq. }
    intros p files Hp. rewrite lookup_insert_ne; [exact Hp|].
    intros <-. congruence.
Qed.

Lemma request_ok {A : Type} e (answer : A) s :
  request e (Ok answer) s = (Returned answer, set_trace (trace s ++ [e]) s).
Proof. reflexivity. Qed.

Lemma request_failed {A : Type} e message s :
  request e (@HTTPError A message) s
  = (Raised message, set_trace (trace s ++ [e]) s).
Proof. reflexivity. Qed.

(** With the instance list delivered and the series in the table,
    [beginDownload] hands the list, the local instances and the progress
    bar to the loop. *)
Lemma beginDownload_run env item s instances i :
  search_for_instances (client env) (studyInstanceUID item)
    (seriesInstanceUID item) = Ok instances ->
  getSeriesRowNumber_from (seriesTable s) (seriesInstanceUID item) 0
  = Returned (Some i) ->
  exists s1 bar,
    beginDownload env item s
    = (Returned (bar, default ∅ (dicomDatabase s !! seriesInstanceUID item),
                 instances), s1)
    ∧ calm s s1
    ∧ (is_Some (seriesTable s !! i ≫= rowProgressBar) ->
       bar = Some i ∧ barAt s1 i (length instances)).
Proof.
  intros Hsrv Hrow. unfold beginDownload. rewrite Hsrv.
  rewrite (bind_returned _ _ _ _ _ (request_ok _ _ _)).
  set (sA := set_trace _ s).
  assert (CA : calm s sA) by (apply calm_emit; reflexivity).
  unfold showStatus.
  rewrite (bind_returned _ _ _ _ _ (processEvents_run _)).
  set (sB := (processEvents sA).2).
  rewrite (bind_returned _ _ _ _ _ (processEvents_run _)).
  set (sC := (processEvents sB).2).
  assert (CC : calm s sC).
  { eapply calm_trans; [exact CA|]. eapply calm_trans;
      apply calm_processEvents. }
  assert (TC : seriesTable sC = seriesTable s).
  { destruct (processEvents_frame sB) as (_ & _ & _ & _ & H5 & _).
    destruct (processEvents_frame sA) as (_ & _ & _ & _ & H5' & _).
    subst sC sB. rewrite H5, H5'. reflexivity. }
  assert (RC : rowUIDs sC = rowUIDs s) by apply CC.
  rewrite (bind_returned _ _ _ _ _
             (getSeriesDownloadProgressBar_run _ _ _ _ RC Hrow)).
  rewrite TC.
  destruct (seriesTable s !! i ≫= rowProgressBar) as [pb|] eqn:Hbar.
  - cbn [whenBar].
    erewrite bind_returned.
    2:{ unfold bind at 1, setMaximum at 1, modify at 1. apply setValue_run. }
    set (sM := set_seriesTable _ sC).
    set (sD := (setValue _ _ _ sM).2).
    assert (CD : calm s sD).
    { eapply calm_trans; [exact CC|]. eapply calm_trans;
        [apply (calm_setMaximum i (length instances) sC) | apply calm_setValue]. }
    assert (RD : rowUIDs sD = rowUIDs s) by apply CD.
    rewrite (bind_returned _ _ _ _ _ (getSeriesRowNumber_found _ _ _ _ RD Hrow)).
    unfold instancesForSeries, bind, gets, ret.
    exists sD, (Some i).
    assert (D3 : dicomDatabase sD = dicomDatabase s) by apply CD. rewrite D3.
    split; [reflexivity|]. split; [exact CD|].
    intros _. split; [reflexivity|].
    apply setValue_barAt. apply (setMaximum_barAt i (length instances) sC).
    rewrite TC, Hbar. eauto.
  - cbn [whenBar]. unfold ret at 1, bind at 1.
    rewrite (bind_returned _ _ _ _ _ (getSeriesRowNumber_found _ _ _ _ RC Hrow)).
    unfold instancesForSeries, bind, gets, ret.
    exists sC, None.
    assert (D3 : dicomDatabase sC = dicomDatabase s) by apply CC. rewrite D3.
    split; [reflexivity|]. split; [exact CC|].
    intros [x Hx]. discriminate.
Qed.

(** A cancelled download is neither indexed nor removed. *)
Lemma finishDownload_cancelled env item bar n s :
  cancelDownloadRequested s = true ->
  exists outcome s',
    finishDownload env item bar n s = (outcome, s')
    ∧ folders s' = folders s ∧ trace s' = trace s.
Proof.
  intros Hc. unfold finishDownload, clearStatus.
  unfold bind at 1, ret at 1. unfold bind at 1, getSeriesRowNumber.
  destruct (getSeriesRowNumber_from (seriesTable s) (seriesInstanceUID item) 0)
    as [[i|]|error|]; try (eexists _, _; repeat split; reflexivity).
  unfold bind at 1, gets at 1. rewrite Hc. unfold bind at 1, ret at 1.
  destruct (removeDownloadProgressBar_fields (seriesInstanceUID item) s)
    as (H1 & H2 & _).
  eexists _, _. split; [apply run_pair|]. split; assumption.
Qed.

Lemma last_snoc {A : Type} (l : list A) (x : A) : last (l ++ [x]) = Some x.
Proof. rewrite last_app. reflexivity. Qed.

Lemma addDirectoryAndWait_run env folder files s :
  folders s !! folder = Some files ->
  addDirectoryAndWait env folder s
  = (Returned tt,
     set_dicomDatabase (indexer_import env files (dicomDatabase s))
       (set_trace (trace s ++ [AddDirectory folder]) s)).
Proof.
  intros Hf. unfold addDirectoryAndWait, bind, emit, modify. cbn [folders set_trace].
  rewrite Hf. reflexivity.
Qed.

(** A download that was not cancelled is indexed, and its folder removed
    with all the files in it. *)
Lemma finishDownload_completed env item bar n s i files :
  cancelDownloadRequested s = false ->
  getSeriesRowNumber_from (seriesTable s) (seriesInstanceUID item) 0
  = Returned (Some i) ->
  folders s !! downloadFolderPath item = Some files ->
  exists s',
    finishDownload env item bar n s = (Returned tt, s')
    ∧ folders s' = delete (downloadFolderPath item) (folders s)
    ∧ imports (trace s')
      = imports (trace s) ++ [AddDirectory (downloadFolderPath item)]
    ∧ retrievals (trace s') = retrievals (trace s)
    ∧ rowUIDs s' = rowUIDs s
    ∧ (noCancel s -> noCancel s')
    ∧ dicomDatabase s' = indexer_import env files (dicomDatabase s)
    ∧ downloadQueue s' = downloadQueue s
    ∧ useCacheFlag s' = useCacheFlag s
    ∧ (forall b, bar = Some b -> barAt s b n ->
       last (progressReports (trace s'))
       = Some (SetValue (seriesInstanceUID item) {| value := n; maximum := n |})).
Proof.
  intros Hc Hrow Hfolder. unfold finishDownload, clearStatus.
  unfold bind at 1, ret at 1.
  rewrite (bind_returned _ _ _ _ _
             (getSeriesRowNumber_found _ s s _ eq_refl Hrow)).
  unfold bind at 1, gets at 1. rewrite Hc.
  set (sA := (whenBar bar (fun b => setValue (seriesInstanceUID item) b n) s).2).
  set (sB := (processEvents sA).2).
  set (sC := set_dicomDatabase
               (indexer_import env files (dicomDatabase sB))
               (set_trace (trace sB ++ [AddDirectory (downloadFolderPath item)])
                  sB)).
  set (sD := set_folders (delete (downloadFolderPath item) (folders sC)) sC).
  assert (CA : calm s sA) by apply calm_whenBar_setValue.
  assert (CB : calm s sB).
  { eapply calm_trans; [exact CA | apply calm_processEvents]. }
  assert (FB : folders sB !! downloadFolderPath item = Some files).
  { destruct CB as (-> & _). exact Hfolder. }
  erewrite bind_returned.
  2:{ rewrite (bind_returned _ _ _ _ _ (whenBar_setValue_run _ _ _ _)).
      unfold showStatus.
      rewrite (bind_returned _ _ _ _ _ (processEvents_run _)).
      fold sA sB.
      rewrite (bind_returned _ _ _ _ _ (addDirectoryAndWait_run _ _ _ _ FB)).
      fold sC.
      apply (cleanup_run _ files). subst sC. simpl. exact FB. }
  fold sD.
  assert (RD : rowUIDs sD = rowUIDs s).
  { assert (R : rowUIDs sB = rowUIDs s) by apply CB.
    subst sD sC. unfold rowUIDs in *. simpl. exact R. }
  unfold removeDownloadProgressBar.
  rewrite (bind_returned _ _ _ _ _ (getSeriesRowNumber_found _ _ _ _ RD Hrow)).
  unfold modify.
  eexists. split; [reflexivity|].
  destruct CB as (B1 & B2 & B3 & B4 & B5 & B6 & B7 & B8).
  subst sD sC. simpl.
  rewrite B1, B2, B3, imports_app, retrievals_app, B5, B6, B7. simpl.
  rewrite app_nil_r.
  split; [reflexivity|]. split; [reflexivity|]. split; [reflexivity|].
  split.
  { unfold rowUIDs in *. simpl. rewrite rowUIDs_alter; [exact B4|reflexivity]. }
  split.
  { intros Hq. specialize (B8 Hq). unfold noCancel in *. simpl. exact B8. }
  split; [reflexivity|]. split; [reflexivity|]. split; [reflexivity|].
  intros b -> Hbar.
  destruct (processEvents_frame sA) as (_ & _ & _ & _ & _ & _ & _ & _ & T).
  fold sB in T. rewrite T. subst sA. cbn [whenBar].
  rewrite (setValue_trace _ _ _ _ _ Hbar).
  unfold progressReports. rewrite !List.filter_app. simpl.
  rewrite app_nil_r. apply last_snoc.
Qed.

Lemma prepareFolder_folder item s :
  folders (prepareFolder item s).2 !! downloadFolderPath item
  = Some (default ∅ (folders s !! downloadFolderPath item)).
Proof.
  unfold prepareFolder, bind, os_path_exists, gets, os_makedirs, modify,
    showStatus, ret.
  destruct (folders s !! downloadFolderPath item) as [files|] eqn:Hf; simpl.
  - rewrite processEvents_run.
    destruct (processEvents_frame s) as (_ & _ & _ & _ & _ & _ & H7 & _).
    simpl. rewrite H7. exact Hf.
  - set (s1 := set_folders _ s). rewrite processEvents_run.
    destruct (processEvents_frame s1) as (_ & _ & _ & _ & _ & _ & H7 & _).
    simpl. rewrite H7. subst s1. simpl. apply lookup_insert_eq.
Qed.

(** ** One queued item *)

Lemma processQueuedItem_run env item s :
  processQueuedItem env item s
  = try_except (downloadSeries env item)
      (fun error => clearStatus ;; critical (downloadErrorMessage error))
      (prepareFolder item s).2.
Proof.
  unfold processQueuedItem.
  rewrite (bind_returned _ _ _ _ _ (prepareFolder_run item s)). reflexivity.
Qed.

Lemma downloadSeries_run env item s0 bar db instances s1 s2 :
  beginDownload env item s0 = (Returned (bar, db, instances), s1) ->
  instanceLoop env item bar db instances 0 s1 = (Returned tt, s2) ->
  downloadSeries env item s0
  = finishDownload env item bar (length instances) s2.
Proof.
  intros Hbegin Hloop. unfold downloadSeries.
  rewrite (bind_returned _ _ _ _ _ Hbegin). cbn beta iota.
  rewrite (bind_returned _ _ _ _ _ Hloop). reflexivity.
Qed.

(** From the start of an item to the end of its instance loop, only what
    [downloadFrame] allows has changed. *)
Lemma downloadFrame_to_loop_end env item s bar db instances s1 s2 :
  beginDownload env item (prepareFolder item s).2
  = (Returned (bar, db, instances), s1) ->
  instanceLoop env item bar db instances 0 s1 = (Returned tt, s2) ->
  downloadFrame s s2 ∧ is_Some (folders s2 !! downloadFolderPath item).
Proof.
  intros Hbegin Hloop.
  destruct (prepareFolder_fields item s) as (Hex & F0 & _).
  assert (F1 := framed_beginDownload env item (prepareFolder item s).2).
  rewrite Hbegin in F1. simpl in F1.
  assert (F2 := framed_instanceLoop env item bar db instances 0 s1).
  rewrite Hloop in F2. simpl in F2.
  split.
  - eapply downloadFrame_trans; [exact F0|].
    eapply downloadFrame_trans; [exact F1 | exact F2].
  - apply F2, F1, Hex.
Qed.

(** C1. For a job whose instance loop ends without error: if the
    cancellation flag is clear at that point (and the series has its row
    in the table, so that the indexer is reached), the download folder is
    handed to the indexer with all its files, then every file in it is
    removed and the folder itself is gone; if the flag is set, nothing is
    indexed and the folder stays as the loop left it, with every file
    downloaded so far. *)
Theorem cleanup_after_download env item s bar db instances s1 s2 :
  beginDownload env item (prepareFolder item s).2
  = (Returned (bar, db, instances), s1) ->
  instanceLoop env item bar db instances 0 s1 = (Returned tt, s2) ->
  let r := processQueuedItem env item s in
  (cancelDownloadRequested s2 = false ->
   (exists i, getSeriesRowNumber_from (seriesTable s) (seriesInstanceUID item) 0
              = Returned (Some i)) ->
   exists files,
     folders s2 !! downloadFolderPath item = Some files
     ∧ r.1 = Returned tt
     ∧ imports (trace r.2)
       = imports (trace s) ++ [AddDirectory (downloadFolderPath item)]
     ∧ dicomDatabase r.2 = indexer_import env files (dicomDatabase s2)
     ∧ folders r.2 = delete (downloadFolderPath item) (folders s2)
     ∧ folders r.2 !! downloadFolderPath item = None)
  ∧ (cancelDownloadRequested s2 = true ->
     is_Some (folders s2 !! downloadFolderPath item)
     ∧ folders r.2 = folders s2
     ∧ imports (trace r.2) = imports (trace s)).
Proof.
  intros Hbegin Hloop r. subst r.
  destruct (downloadFrame_to_loop_end _ _ _ _ _ _ _ _ Hbegin Hloop)
    as (Hframe & Hex).
  destruct Hframe as (Hrows & _ & Himports & _).
  rewrite processQueuedItem_run. unfold try_except.
  rewrite (downloadSeries_run _ _ _ _ _ _ _ _ Hbegin Hloop).
  split.
  - intros Hflag (i & Hrow). destruct Hex as [files Hfiles].
    rewrite <- (getSeriesRowNumber_from_rowUIDs _ (seriesTable s2) _ 0 Hrows)
      in Hrow.
    destruct (finishDownload_completed env item bar (length instances) s2 i
                files Hflag Hrow Hfiles)
      as (s' & Hrun & Hf & Hi & _ & _ & _ & Hdb & _).
    exists files. rewrite Hrun. simpl. rewrite Hi, Himports, Hdb, Hf.
    split; [exact Hfiles|].
    repeat split; try reflexivity. apply lookup_delete_eq.
  - intros Hflag.
    destruct (finishDownload_cancelled env item bar (length instances) s2 Hflag)
      as (outcome & s' & Hrun & Hf & Ht).
    rewrite Hrun. split; [exact Hex|].
    destruct outcome as [[]|error|]; simpl; rewrite ?imports_app, Hf, Ht,
      Himports; simpl; rewrite ?app_nil_r; split; reflexivity.
Qed.

(** C10. An instance that is not in the local database, met by the loop
    while the flag is clear: with the cache in use and its file already
    in the download folder, no request is made for it and the folder is
    left as it is; with the cache not in use, it is asked for and what
    comes back is written to the file named after its UID, replacing the
    file if there was one. *)
Theorem staging_file_reuse env item bar db instance rest idx s uid :
  cancelDownloadRequested s = false ->
  sopUidOf instance = Some uid ->
  uid ∉ db ->
  let s1 := beforeInstance item bar idx s in
  let fileName := instanceFileName uid in
  (useCacheFlag s = true ->
   isfile (folders s) (downloadFolderPath item) fileName = true ->
   instanceLoop env item bar db (instance :: rest) idx s
   = instanceLoop env item bar db rest (S idx) s1
   ∧ retrievals (trace s1) = retrievals (trace s)
   ∧ folders s1 = folders s)
  ∧ (useCacheFlag s = false ->
     forall payload files,
       retrieve_instance (client env) (studyInstanceUID item)
         (seriesInstanceUID item) uid = Ok payload ->
       folders s !! downloadFolderPath item = Some files ->
       exists s2,
         instanceLoop env item bar db (instance :: rest) idx s
         = instanceLoop env item bar db rest (S idx) s2
         ∧ retrievals (trace s2)
           = retrievals (trace s)
             ++ [RetrieveInstance (studyInstanceUID item)
                   (seriesInstanceUID item) uid]
         ∧ folders s2
           = <[downloadFolderPath item := <[fileName := payload]> files]>
               (folders s)).
Proof.
  intros Hflag Huid Hnotin s1 fileName.
  destruct (beforeInstance_fields item bar idx s) as (Bf & Bu & Br & _).
  fold s1 in Bf, Bu, Br.
  split.
  - intros Hcache Hfile. rewrite instanceLoop_cons by assumption.
    rewrite (bind_returned _ _ _ _ _
               (instanceBody_cached _ _ _ _ _ _ _ _ Huid Hnotin Hcache Hfile)).
    auto.
  - intros Hcache payload files Hsrv Hfolder.
    rewrite instanceLoop_cons by assumption.
    rewrite (bind_returned _ _ _ _ _
               (instanceBody_retrieved _ _ bar _ _ idx _ _ _ _
                  Huid Hnotin (or_introl Hcache) Hsrv Hfolder)).
    fold s1. eexists. split; [reflexivity|]. simpl.
    rewrite retrievals_app, Br. split; reflexivity.
Qed.

(** A job that nothing cancels and whose requests all succeed: it is
    downloaded, indexed and its folder removed. *)
Lemma processQueuedItem_completed env item s instances uids i :
  noCancel s ->
  search_for_instances (client env) (studyInstanceUID item)
    (seriesInstanceUID item) = Ok instances ->
  sopUidOf <$> instances = Some <$> uids ->
  (forall uid, uid ∈ uids ->
     uid ∉ default ∅ (dicomDatabase s !! seriesInstanceUID item) ->
     exists payload,
       retrieve_instance (client env) (studyInstanceUID item)
         (seriesInstanceUID item) uid = Ok payload) ->
  getSeriesRowNumber_from (seriesTable s) (seriesInstanceUID item) 0
  = Returned (Some i) ->
  exists s',
    processQueuedItem env item s = (Returned tt, s')
    ∧ noCancel s'
    ∧ rowUIDs s' = rowUIDs s
    ∧ downloadQueue s' = downloadQueue s
    ∧ imports (trace s')
      = imports (trace s) ++ [AddDirectory (downloadFolderPath item)]
    ∧ folders s' !! downloadFolderPath item = None
    ∧ retrievals (trace s')
      = retrievals (trace s)
        ++ (RetrieveInstance (studyInstanceUID item) (seriesInstanceUID item)
              <$> toRetrieve (useCacheFlag s)
                    (dom (default ∅ (folders s !! downloadFolderPath item)))
                    (default ∅ (dicomDatabase s !! seriesInstanceUID item))
                    uids)
    ∧ (is_Some (seriesTable s !! i ≫= rowProgressBar) ->
       last (progressReports (trace s'))
       = Some (SetValue (seriesInstanceUID item)
                 {| value := length instances; maximum := length instances |})).
Proof.
  intros Hquiet Hsrv Huids Hretr Hrow.
  destruct (prepareFolder_fields item s)
    as (_ & F0 & R0 & T0 & D0 & Q0 & _).
  assert (L0 := prepareFolder_folder item s).
  set (s0 := (prepareFolder item s).2) in *.
  destruct (beginDownload_run env item s0 instances i Hsrv) as
    (s1 & bar & Hbegin & C1 & Hbar).
  { rewrite T0. exact Hrow. }
  rewrite D0 in Hbegin.
  destruct C1 as (C1f & C1u & C1d & C1r & C1t & C1i & C1q & C1n).
  destruct (instanceLoop_noCancel env item bar
              (default ∅ (dicomDatabase s !! seriesInstanceUID item))
              instances uids 0 s1
              (default ∅ (folders s !! downloadFolderPath item))
              Huids Hretr (C1n (Q0 Hquiet)))
    as (s2 & files2 & Hloop & Q2 & L2 & R2 & B2).
  { rewrite C1f. exact L0. }
  assert (F2 := framed_instanceLoop env item bar
                  (default ∅ (dicomDatabase s !! seriesInstanceUID item))
                  instances 0 s1).
  rewrite Hloop in F2. simpl in F2.
  destruct F2 as (F2r & _ & F2i & F2u & _ & _ & _ & F2q).
  destruct F0 as (F0r & _ & F0i & F0u & _ & _ & _ & F0q).
  assert (Hrows2 : rowUIDs s2 = rowUIDs s) by congruence.
  destruct (finishDownload_completed env item bar (length instances) s2 i
              files2)
    as (s' & Hfin & Ff & Fi & Fr & Frow & Fq & _ & Fqueue & _ & Fbar).
  { apply Q2. }
  { rewrite (getSeriesRowNumber_from_rowUIDs _ _ (seriesTable s) 0 Hrows2).
    exact Hrow. }
  { exact L2. }
  exists s'. rewrite processQueuedItem_run. fold s0. unfold try_except.
  rewrite (downloadSeries_run _ _ _ _ _ _ _ _ Hbegin Hloop), Hfin.
  split; [reflexivity|]. split; [exact (Fq Q2)|].
  split; [congruence|]. split; [congruence|].
  split; [rewrite Fi; congruence|].
  split; [rewrite Ff; apply lookup_delete_eq|].
  split.
  { rewrite Fr, R2, C1t, R0, C1u, F0u. reflexivity. }
  intros Hhas. apply (Fbar i).
  - apply Hbar. rewrite T0. exact Hhas.
  - apply B2. apply Hbar. rewrite T0. exact Hhas.
Qed.

(** A job whose instance list cannot be fetched: the error is shown and
    the job is over; nothing is indexed. *)
Lemma processQueuedItem_failed env item s message :
  search_for_instances (client env) (studyInstanceUID item)
    (seriesInstanceUID item) = HTTPError message ->
  exists s',
    processQueuedItem env item s = (Returned tt, s')
    ∧ (noCancel s -> noCancel s')
    ∧ rowUIDs s' = rowUIDs s
    ∧ downloadQueue s' = downloadQueue s
    ∧ imports (trace s') = imports (trace s)
    ∧ messages (trace s')
      = messages (trace s) ++ [CriticalMessage (downloadErrorMessage message)].
Proof.
  intros Hsrv.
  destruct (prepareFolder_fields item s) as (_ & F0 & _ & _ & _ & Q0 & _).
  assert (M0 : trace (prepareFolder item s).2 = trace s).
  { unfold prepareFolder, bind, os_path_exists, gets, os_makedirs, modify,
      showStatus, ret.
    destruct (folders s !! downloadFolderPath item); simpl;
      rewrite processEvents_run;
      match goal with
      | |- context [processEvents ?st] =>
          destruct (processEvents_frame st) as (_ & _ & _ & _ & _ & _ & _ & _ & T)
      end; simpl; rewrite T; reflexivity. }
  set (s0 := (prepareFolder item s).2) in *.
  destruct F0 as (F0r & _ & F0i & _ & _ & _ & _ & F0q).
  eexists. rewrite processQueuedItem_run. fold s0.
  unfold try_except, downloadSeries. unfold bind at 1.
  unfold beginDownload. rewrite Hsrv.
  rewrite (bind_raised _ _ _ _ _ (request_failed _ _ _)).
  unfold clearStatus, critical, emit, bind, ret, modify.
  split; [reflexivity|]. simpl.
  rewrite !imports_app, !messages_app, M0. simpl. rewrite !app_nil_r.
  split.
  { intros Hq. specialize (Q0 Hq). unfold noCancel in *. simpl. exact Q0. }
  split; [exact F0r|]. split; [exact F0q|]. split; reflexivity.
Qed.

(** ** The queue *)

Lemma drainQueue_cons env queuedItem rest s :
  cancelDownloadRequested s = false ->
  drainQueue env (queuedItem :: rest) s
  = (processQueuedItem env queuedItem ;; drainQueue env rest)
      (set_downloadQueue rest s).
Proof. intros Hc. simpl. unfold bind at 1, gets. rewrite Hc. reflexivity. Qed.

Lemma hasRow_rowUIDs s s' item :
  rowUIDs s' = rowUIDs s -> hasRow s item -> hasRow s' item.
Proof.
  intros H (i & Hi). exists i.
  rewrite (getSeriesRowNumber_from_rowUIDs _ _ (seriesTable s) 0 H). exact Hi.
Qed.

Lemma noCancel_set_downloadQueue q s :
  noCancel s -> noCancel (set_downloadQueue q s).
Proof. intros H. exact H. Qed.

(** The loop goes on to the rest of the queue after a job that
    completed ... *)
Lemma drainQueue_after_completed env item rest s :
  noCancel s -> downloadable env item -> hasRow s item ->
  exists s',
    drainQueue env (item :: rest) s = drainQueue env rest s'
    ∧ noCancel s' ∧ rowUIDs s' = rowUIDs s ∧ downloadQueue s' = rest
    ∧ imports (trace s')
      = imports (trace s) ++ [AddDirectory (downloadFolderPath item)].
Proof.
  intros Hq (instances & uids & Hsrv & Huids & Hretr) (i & Hrow).
  destruct (processQueuedItem_completed env item (set_downloadQueue rest s)
              instances uids i)
    as (s' & Hrun & Q & R & D & I & _); auto.
  exists s'. rewrite drainQueue_cons by apply Hq.
  rewrite (bind_returned _ _ _ _ _ Hrun). auto.
Qed.

(** ... and after a job that failed. *)
Lemma drainQueue_after_failed env item rest s message :
  noCancel s ->
  search_for_instances (client env) (studyInstanceUID item)
    (seriesInstanceUID item) = HTTPError message ->
  exists s',
    drainQueue env (item :: rest) s = drainQueue env rest s'
    ∧ noCancel s' ∧ rowUIDs s' = rowUIDs s ∧ downloadQueue s' = rest
    ∧ imports (trace s') = imports (trace s).
Proof.
  intros Hq Hsrv.
  destruct (processQueuedItem_failed env item (set_downloadQueue rest s)
              message Hsrv)
    as (s' & Hrun & Q & R & D & I & _).
  exists s'. rewrite drainQueue_cons by apply Hq.
  rewrite (bind_returned _ _ _ _ _ Hrun).
  split; [reflexivity|]. split; [apply Q, Hq|]. auto.
Qed.

(** C2. A job whose download raises does not end the drain: the error is
    shown and the loop goes on with the rest of the queue.  In a queue of
    three jobs of which the second fails to fetch its instance list,
    while the server delivers the first and the third and nothing
    cancels, the indexer is called exactly twice, for the folders of the
    first and the third job, and the queue ends empty. *)
Theorem drain_continues_after_failure env s j1 j2 j3 message :
  noCancel s ->
  downloadQueue s = [j1; j2; j3] ->
  downloadable env j1 -> hasRow s j1 ->
  search_for_instances (client env) (studyInstanceUID j2)
    (seriesInstanceUID j2) = HTTPError message ->
  downloadable env j3 -> hasRow s j3 ->
  (forall item rest s0 error s_e,
     cancelDownloadRequested s0 = false ->
     downloadSeries env item (prepareFolder item (set_downloadQueue rest s0)).2
     = (Raised error, s_e) ->
     drainQueue env (item :: rest) s0
     = drainQueue env rest
         (set_trace
            (trace s_e ++ [CriticalMessage (downloadErrorMessage error)]) s_e))
  ∧ let r := downloadSelectedSeries env s in
    r.1 = Returned tt
    ∧ imports (trace r.2)
      = imports (trace s)
        ++ [AddDirectory (downloadFolderPath j1);
            AddDirectory (downloadFolderPath j3)]
    ∧ downloadQueue r.2 = [].
Proof.
  intros Hq Hqueue D1 R1 Hfail D3 R3. split.
  - intros item rest s0 error s_e Hc Hraise.
    rewrite drainQueue_cons by assumption.
    unfold bind at 1. rewrite processQueuedItem_run. unfold try_except.
    rewrite Hraise. reflexivity.
  - destruct (drainQueue_after_completed env j1 [j2; j3] s Hq D1 R1)
      as (s1 & E1 & Q1 & U1 & _ & I1).
    destruct (drainQueue_after_failed env j2 [j3] s1 message Q1 Hfail)
      as (s2 & E2 & Q2 & U2 & _ & I2).
    destruct (drainQueue_after_completed env j3 [] s2 Q2 D3)
      as (s3 & E3 & Q3 & U3 & L3 & I3).
    { apply (hasRow_rowUIDs s); [congruence | exact R3]. }
    assert (Hrun : downloadSelectedSeries env s
                   = (Returned tt, set_downloadQueue [] s3)).
    { unfold downloadSelectedSeries. unfold bind at 1, gets at 1.
      rewrite Hqueue. unfold bind at 1. rewrite E1, E2, E3.
      cbn [drainQueue]. unfold ret at 1. unfold bind at 1, gets at 1.
      rewrite L3. reflexivity. }
    intros r. subst r. rewrite Hrun.
    cbn [fst snd trace downloadQueue set_downloadQueue].
    rewrite I3, I2, I1, <- app_assoc. repeat split; reflexivity.
Qed.

(** ** Which instances are asked for *)

Lemma toRetrieve_no_cache db : forall uids present,
  toRetrieve false present db uids = filter (fun uid => uid ∉ db) uids.
Proof.
  induction uids as [|uid uids IH]; intros present; [reflexivity|].
  cbn [toRetrieve]. rewrite filter_cons.
  destruct (decide (uid ∈ db)) as [Hin|Hnotin].
  - rewrite decide_False by auto. apply IH.
  - rewrite decide_True by assumption. simpl. f_equal. apply IH.
Qed.

Lemma toRetrieve_fresh db : forall uids present,
  NoDup (instanceFileName <$> filter (fun uid => uid ∉ db) uids) ->
  (forall uid, uid ∈ uids -> uid ∉ db -> instanceFileName uid ∉ present) ->
  toRetrieve true present db uids = filter (fun uid => uid ∉ db) uids.
Proof.
  induction uids as [|uid uids IH]; intros present Hnodup Hfresh;
    [reflexivity|].
  cbn [toRetrieve]. rewrite filter_cons in Hnodup |- *.
  destruct (decide (uid ∈ db)) as [Hin|Hnotin].
  - rewrite decide_False in Hnodup |- * by auto.
    apply IH; [exact Hnodup|]. intros u Hu. apply Hfresh. right. exact Hu.
  - rewrite decide_True in Hnodup |- * by assumption.
    rewrite bool_decide_eq_false_2 by (apply Hfresh; [left | exact Hnotin]).
    simpl. f_equal.
    rewrite fmap_cons in Hnodup. apply NoDup_cons in Hnodup as [Hnew Hnodup].
    apply IH; [exact Hnodup|].
    intros u Hu Hn Hin. apply elem_of_union in Hin as [Hin|Hin].
    + apply elem_of_singleton in Hin. apply Hnew. rewrite <- Hin.
      apply list_elem_of_fmap_2.
      apply list_elem_of_filter. split; assumption.
    + apply (Hfresh u); [right|..]; assumption.
Qed.

Lemma length_filter_split (db : gset string) (uids : list string) :
  length (filter (fun uid => uid ∉ db) uids)
  + length (filter (fun uid => uid ∈ db) uids)
  = length uids.
Proof.
  induction uids as [|uid uids IH]; [reflexivity|].
  rewrite !filter_cons.
  destruct (decide (uid ∈ db)) as [Hin|Hnotin].
  - rewrite decide_False by auto. simpl. lia.
  - rewrite decide_True by assumption. simpl. lia.
Qed.

(** C4, as the code has it.  A job of five instances of which two are in
    the local database, that nothing cancels and whose requests succeed,
    with its progress bar in the table: when the cache is not in use, or
    when none of the files of the three other instances is in the
    download folder yet (their names being pairwise distinct), exactly
    those three instances are asked for, in the order of the list, and
    the last progress shown is 5 of 5. *)
Theorem five_instances_two_local env item s instances uids i :
  let db := default ∅ (dicomDatabase s !! seriesInstanceUID item) in
  let missing := filter (fun uid => uid ∉ db) uids in
  noCancel s ->
  search_for_instances (client env) (studyInstanceUID item)
    (seriesInstanceUID item) = Ok instances ->
  sopUidOf <$> instances = Some <$> uids ->
  length instances = 5 ->
  length (filter (fun uid => uid ∈ db) uids) = 2 ->
  (forall uid, uid ∈ uids -> uid ∉ db ->
     exists payload,
       retrieve_instance (client env) (studyInstanceUID item)
         (seriesInstanceUID item) uid = Ok payload) ->
  getSeriesRowNumber_from (seriesTable s) (seriesInstanceUID item) 0
  = Returned (Some i) ->
  is_Some (seriesTable s !! i ≫= rowProgressBar) ->
  useCacheFlag s = false
  ∨ (NoDup (instanceFileName <$> missing)
     ∧ forall uid, uid ∈ missing ->
         isfile (folders s) (downloadFolderPath item) (instanceFileName uid)
         = false) ->
  let r := processQueuedItem env item s in
  r.1 = Returned tt
  ∧ retrievals (trace r.2)
    = retrievals (trace s)
      ++ (RetrieveInstance (studyInstanceUID item) (seriesInstanceUID item)
            <$> missing)
  ∧ length missing = 3
  ∧ last (progressReports (trace r.2))
    = Some (SetValue (seriesInstanceUID item) {| value := 5; maximum := 5 |}).
Proof.
  intros db missing Hq Hsrv Huids Hlen Hlocal Hretr Hrow Hbar Hcache.
  destruct (processQueuedItem_completed env item s instances uids i
              Hq Hsrv Huids Hretr Hrow)
    as (s' & Hrun & _ & _ & _ & _ & _ & Hr & Hp).
  intros r. subst r. rewrite Hrun. cbn [fst snd].
  split; [reflexivity|]. split; [|split].
  - rewrite Hr. f_equal. f_equal. fold db. destruct Hcache as [Hoff|[Hnodup Hfresh]].
    + rewrite Hoff. apply toRetrieve_no_cache.
    + destruct (useCacheFlag s); [|apply toRetrieve_no_cache].
      apply toRetrieve_fresh; [exact Hnodup|].
      intros uid Hin Hnotin Hpresent.
      assert (Hm : uid ∈ missing).
      { apply list_elem_of_filter. split; assumption. }
      specialize (Hfresh uid Hm). unfold isfile in Hfresh.
      destruct (folders s !! downloadFolderPath item) as [files|];
        simpl in Hpresent.
      * apply elem_of_dom in Hpresent as [payload Hpayload].
        rewrite Hpayload in Hfresh. discriminate.
      * rewrite dom_empty_L in Hpresent. apply not_elem_of_empty in Hpresent.
        exact Hpresent.
  - assert (Hn : length uids = 5).
    { rewrite <- Hlen, <- (length_fmap sopUidOf instances), Huids.
      symmetry. apply length_fmap. }
    pose proof (length_filter_split db uids) as Hsplit.
    fold missing in Hsplit. lia.
  - rewrite <- Hlen. apply Hp, Hbar.
Qed.

(** ** studySelected *)

Lemma studySelected_miss env row s study :
  studiesTable s !! row = Some study ->
  seriesCacheMiss s (studyInstanceUIDText study) ->
  studySelected env row s
  = fetchSeries env (studyInstanceUIDText study)
      (seriesCacheFile (cachePath s) (studyInstanceUIDText study))
      (processEvents s).2.
Proof.
  intros Hrow Hmiss. unfold studySelected.
  unfold bind at 1, gets at 1. rewrite Hrow.
  unfold bind at 1, gets at 1. unfold showStatus.
  rewrite (bind_returned _ _ _ _ _ (processEvents_run s)).
  destruct (processEvents_frame s) as (_ & Hu & _ & _ & _ & Hc & _).
  unfold bind at 1, cache_isfile, gets at 1. rewrite Hc.
  unfold bind at 1, gets at 1. rewrite Hu.
  destruct Hmiss as [Hoff | Hnone].
  - rewrite Hoff, andb_false_r. reflexivity.
  - rewrite Hnone. reflexivity.
Qed.

(** Whatever list the cache holds for a study is shown, and the server is
    not asked. *)
Lemma studySelected_hit env row s study series :
  studiesTable s !! row = Some study ->
  useCacheFlag s = true ->
  cacheFiles s !! seriesCacheFile (cachePath s) (studyInstanceUIDText study)
  = Some series ->
  studySelected env row s
  = (Returned tt,
     set_seriesTable
       (seriesTable (processEvents s).2 ++ (rowOfSeries <$> series))
       (processEvents s).2).
Proof.
  intros Hrow Hon Hfile. unfold studySelected.
  unfold bind at 1, gets at 1. rewrite Hrow.
  unfold bind at 1, gets at 1. unfold showStatus.
  rewrite (bind_returned _ _ _ _ _ (processEvents_run s)).
  destruct (processEvents_frame s) as (_ & Hu & _ & _ & _ & Hc & _).
  unfold bind at 1, cache_isfile, gets at 1. rewrite Hc, Hfile.
  unfold bind at 1, gets at 1. rewrite Hu, Hon. cbn [andb].
  unfold json_load, bind, gets. rewrite Hc, Hfile. reflexivity.
Qed.

(** C5, at the input where the code departs from it.  With the cache in
    use and an empty list cached, [connectToServer] asks the server
    again and shows what it answers; [studySelected] takes the empty
    list as the answer: it makes no request and shows no series, where
    without the cache file it asks the server and shows the series. *)
Theorem empty_series_cache_not_refetched :
  (let r := connectToServer 3 demoEnv demoUrl emptyStudiesCache in
   studyRequests (trace r.2)
   = [SearchStudies 0; SearchStudies 2; SearchStudies 3]
   ∧ studiesTable r.2 = [studyA; studyB; studyC])
  ∧ (let r := studySelected demoEnv 0 emptySeriesCache in
     r.1 = Returned tt
     ∧ seriesRequests (trace r.2) = []
     ∧ seriesTable r.2 = seriesTable emptySeriesCache)
  ∧ (let r := studySelected demoEnv 0 demoState in
     r.1 = Returned tt
     ∧ seriesRequests (trace r.2) = [SearchSeries "1.2.3"]
     ∧ seriesTable r.2 = seriesTable demoState ++ [rowOfSeries (seriesWith "S1")]).
Proof. vm_compute. repeat split; reflexivity. Qed.

(** For the study list, an empty cached list is a miss: the fetch branch
    is taken, as when there is no cache file. *)
Lemma connectToServer_empty_cache_refetches fuel env url s :
  cacheFiles s !! studiesCacheFile (cachePath s) url = Some [] ->
  connectToServer fuel env url s
  = (fetchStudies fuel env (studiesCacheFile (cachePath s) url) ;;
     clearSeriesTableWidget) (connectPrelude s).
Proof. intros H. apply connectToServer_miss. right. right. exact H. Qed.

(** ** Names of the cache files *)

(** C6 as stated fails for the series lists: the cache file of a study
    is named after the study instance UID itself, not after its digest. *)
Lemma series_cache_file_not_hashed :
  let dir := cachePath demoState in
  let r := studySelected demoEnv 0 demoState in
  seriesCacheFile dir "1.2.3" ≠ dir +:+ MD5.hexdigest "1.2.3" +:+ ".json"
  ∧ cacheFiles r.2 !! (dir +:+ MD5.hexdigest "1.2.3" +:+ ".json") = None
  ∧ cacheFiles r.2 !! (dir +:+ "1.2.3" +:+ ".json")
    = Some [seriesWith "S1"].
Proof.
  vm_compute. split; [discriminate|]. split; reflexivity.
Qed.

(** C6, as the code has it.  The cache file written for a study list is
    named by the cache directory, the MD5 hex digest of the server URL
    and [.json]; the cache file written for the series list of a study
    is named by the cache directory, the study instance UID itself and
    [.json].  No other cache file is touched. *)
Theorem cache_file_names fuel env url s studies row study series :
  studiesCacheMiss s url ->
  (searchAllStudies fuel env [] 0 s).1 = Returned studies ->
  studiesTable s !! row = Some study ->
  seriesCacheMiss s (studyInstanceUIDText study) ->
  search_for_series (client env) (studyInstanceUIDText study) = Ok series ->
  cacheFiles (connectToServer fuel env url s).2
  = <[cachePath s +:+ MD5.hexdigest url +:+ ".json" := studies]> (cacheFiles s)
  ∧ cacheFiles (studySelected env row s).2
    = <[cachePath s +:+ studyInstanceUIDText study +:+ ".json" := series]>
        (cacheFiles s).
Proof.
  intros Hmiss Hfetch Hrow Hsmiss Hsrv. split.
  - rewrite (connectToServer_miss _ _ _ _ Hmiss).
    destruct (connectPrelude_frame s) as (_ & _ & Hc & _).
    destruct (searchAllStudies_effect fuel env [] 0)
      as (outcome & requests & _ & Hrun).
    rewrite Hrun in Hfetch. simpl in Hfetch. subst outcome.
    erewrite bind_returned; [|apply fetchStudies_returned, Hrun].
    unfold clearSeriesTableWidget, modify. simpl. rewrite Hc. reflexivity.
  - rewrite (studySelected_miss _ _ _ _ Hrow Hsmiss).
    destruct (processEvents_frame s) as (_ & _ & _ & _ & _ & Hc & _).
    unfold fetchSeries, try_except. rewrite Hsrv.
    rewrite (bind_returned _ _ _ _ _ (request_ok _ _ _)).
    unfold json_dump, populateSeriesTableWidget, clearStatus, bind, modify,
      ret. simpl. rewrite Hc. reflexivity.
Qed.

Lemma cache_file_names_witness :
  cacheFiles (connectToServer 3 demoEnv demoUrl demoState).2
  = <[cachePath demoState +:+ MD5.hexdigest demoUrl +:+ ".json"
      := [studyA; studyB; studyC]]> (cacheFiles demoState)
  ∧ cacheFiles (studySelected demoEnv 0 demoState).2
    = <[cachePath demoState +:+ studyInstanceUIDText studyA +:+ ".json"
        := [seriesWith "S1"]]> (cacheFiles demoState).
Proof.
  apply (cache_file_names 3 demoEnv demoUrl demoState
           [studyA; studyB; studyC] 0 studyA [seriesWith "S1"]).
  - right. left. reflexivity.
  - vm_compute. reflexivity.
  - reflexivity.
  - right. reflexivity.
  - reflexivity.
Defined.

(** ** The statements at work *)

Lemma connectToServer_offset_ignored_witness :
  let r := connectToServer 2 (envOf stuckServer) demoUrl demoState in
  r.1 = Returned tt
  ∧ studyRequests (trace r.2) = [SearchStudies 0; SearchStudies 2]
  ∧ studiesTable r.2 = [studyA; studyB]
  ∧ cacheFiles r.2 !! studiesCacheFile (cachePath demoState) demoUrl
    = Some [studyA; studyB].
Proof.
  apply (connectToServer_offset_ignored 2 (envOf stuckServer) demoUrl
           demoState [studyA; studyB]).
  - discriminate.
  - intros offset. reflexivity.
  - right. left. reflexivity.
  - lia.
Defined.

Lemma connectToServer_three_pages_witness :
  let r := connectToServer 3 demoEnv demoUrl demoState in
  r.1 = Returned tt
  ∧ studyRequests (trace r.2)
    = [SearchStudies 0; SearchStudies 2; SearchStudies 3]
  ∧ studiesTable r.2 = [studyA; studyB; studyC]
  ∧ cacheFiles r.2 !! studiesCacheFile (cachePath demoState) demoUrl
    = Some [studyA; studyB; studyC].
Proof.
  apply (connectToServer_three_pages 3 demoEnv demoUrl demoState
           studyA studyB studyC).
  - apply (bool_decide_unpack _). vm_compute. exact I.
  - reflexivity.
  - reflexivity.
  - reflexivity.
  - right. left. reflexivity.
  - lia.
Defined.

Lemma cleanup_after_download_witness :
  (let r := processQueuedItem demoEnv jobS1 demoState in
   imports (trace r.2) = [AddDirectory (downloadFolderPath jobS1)]
   ∧ folders r.2 !! downloadFolderPath jobS1 = None)
  ∧ (let r := processQueuedItem demoEnv jobS3 cancelledState in
     imports (trace r.2) = []
     ∧ folders r.2 !! downloadFolderPath jobS3
       = Some {[ instanceFileName "1.1" := "DICM 1.1";
                 instanceFileName "1.2" := "DICM 1.2" ]}).
Proof.
  split.
  - set (s1 := (beginDownload demoEnv jobS1 (prepareFolder jobS1 demoState).2).2).
    set (s2 := (instanceLoop demoEnv jobS1 (Some 0) {[ "1.2"; "1.4" ]}
                  fiveInstances 0 s1).2).
    destruct (cleanup_after_download demoEnv jobS1 demoState (Some 0)
                {[ "1.2"; "1.4" ]} fiveInstances s1 s2) as [Hdone _].
    + vm_compute. reflexivity.
    + vm_compute. reflexivity.
    + destruct Hdone as (files & _ & _ & Hi & _ & _ & Hnone).
      * vm_compute. reflexivity.
      * exists 0. reflexivity.
      * split; assumption.
  - set (s1 := (beginDownload demoEnv jobS3
                  (prepareFolder jobS3 cancelledState).2).2).
    set (s2 := (instanceLoop demoEnv jobS3 (Some 2) ∅ fiveInstances 0 s1).2).
    destruct (cleanup_after_download demoEnv jobS3 cancelledState (Some 2)
                ∅ fiveInstances s1 s2) as [_ Hcancelled].
    + vm_compute. reflexivity.
    + vm_compute. reflexivity.
    + destruct Hcancelled as (_ & Hf & Hi); [vm_compute; reflexivity|].
      split; [exact Hi|]. cbv zeta. rewrite Hf. vm_compute. reflexivity.
Defined.

Lemma staging_file_reuse_witness :
  (let r := instanceLoop demoEnv jobS1 None ∅ [instanceWith "1.1"] 0
              stagedState in
   retrievals (trace r.2) = []
   ∧ folders r.2 = folders stagedState)
  ∧ (let r := instanceLoop demoEnv jobS1 None ∅ [instanceWith "1.1"] 0
                stagedStateNoCache in
     retrievals (trace r.2) = [RetrieveInstance "1.2.3" "S1" "1.1"]
     ∧ folders r.2 !! downloadFolderPath jobS1
       = Some {[ instanceFileName "1.1" := "DICM 1.1" ]}).
Proof.
  split.
  - destruct (staging_file_reuse demoEnv jobS1 None ∅ (instanceWith "1.1") []
                0 stagedState "1.1") as [Hcached _].
    + reflexivity.
    + reflexivity.
    + apply not_elem_of_empty.
    + destruct Hcached as (Hrun & Hr & Hf).
      * reflexivity.
      * vm_compute. reflexivity.
      * cbv zeta. rewrite Hrun. split; assumption.
  - destruct (staging_file_reuse demoEnv jobS1 None ∅ (instanceWith "1.1") []
                0 stagedStateNoCache "1.1") as [_ Hretrieved].
    + reflexivity.
    + reflexivity.
    + apply not_elem_of_empty.
    + destruct (Hretrieved eq_refl "DICM 1.1"
                  {[ instanceFileName "1.1" := "DICM old" ]})
        as (s2 & Hrun & Hr & Hf).
      * reflexivity.
      * vm_compute. reflexivity.
      * cbv zeta. rewrite Hrun. cbn [instanceLoop ret fst snd].
        rewrite Hr, Hf. split; [reflexivity|].
        vm_compute. reflexivity.
Defined.

Lemma drain_continues_after_failure_witness :
  let r := downloadSelectedSeries demoEnv demoState in
  r.1 = Returned tt
  ∧ imports (trace r.2)
    = [AddDirectory (downloadFolderPath jobS1);
       AddDirectory (downloadFolderPath jobS3)]
  ∧ downloadQueue r.2 = [].
Proof.
  assert (Hdeliver : forall series, series ≠ "S2" ->
            downloadable demoEnv (queuedItemFor "1.2.3" series)).
  { intros series Hne.
    exists fiveInstances, ["1.1"; "1.2"; "1.3"; "1.4"; "1.5"].
    split; [|split].
    - cbn. rewrite decide_False by exact Hne. reflexivity.
    - reflexivity.
    - intros uid _. eexists. reflexivity. }
  apply (drain_continues_after_failure demoEnv demoState jobS1 jobS2 jobS3
           "503 Service Unavailable").
  - split; reflexivity.
  - reflexivity.
  - apply Hdeliver. discriminate.
  - exists 0. reflexivity.
  - reflexivity.
  - apply Hdeliver. discriminate.
  - exists 2. reflexivity.
Defined.

(** C4 as stated fails when the cache is in use and a file of one of the
    three instances is already in the download folder: of the five
    instances, two of them in the local database, only two are asked
    for. *)
Lemma five_instances_staged_file_two_requests :
  let s := stagedState in
  let r := processQueuedItem demoEnv jobS1 s in
  search_for_instances (client demoEnv) "1.2.3" "S1" = Ok fiveInstances
  ∧ length fiveInstances = 5
  ∧ dicomDatabase s !! "S1" = Some {[ "1.2"; "1.4" ]}
  ∧ r.1 = Returned tt
  ∧ retrievals (trace r.2)
    = [RetrieveInstance "1.2.3" "S1" "1.3"; RetrieveInstance "1.2.3" "S1" "1.5"]
  ∧ length (retrievals (trace r.2)) ≠ 3.
Proof.
  vm_compute. repeat split; try reflexivity. discriminate.
Qed.

Lemma five_instances_two_local_witness :
  let r := processQueuedItem demoEnv jobS1 demoState in
  r.1 = Returned tt
  ∧ retrievals (trace r.2)
    = [RetrieveInstance "1.2.3" "S1" "1.1";
       RetrieveInstance "1.2.3" "S1" "1.3";
       RetrieveInstance "1.2.3" "S1" "1.5"]
  ∧ last (progressReports (trace r.2))
    = Some (SetValue "S1" {| value := 5; maximum := 5 |}).
Proof.
  assert (Hmissing :
            filter (fun uid => uid ∉ default ∅ (dicomDatabase demoState !! "S1"))
              ["1.1"; "1.2"; "1.3"; "1.4"; "1.5"]
            = ["1.1"; "1.3"; "1.5"]).
  { vm_compute. reflexivity. }
  destruct (five_instances_two_local demoEnv jobS1 demoState fiveInstances
              ["1.1"; "1.2"; "1.3"; "1.4"; "1.5"] 0)
    as (Hrun & Hr & _ & Hp).
  - split; reflexivity.
  - reflexivity.
  - reflexivity.
  - reflexivity.
  - vm_compute. reflexivity.
  - intros uid _ _. eexists. reflexivity.
  - reflexivity.
  - vm_compute. eauto.
  - right. cbn [seriesInstanceUID jobS1 queuedItemFor]. rewrite Hmissing.
    split.
    + apply (bool_decide_unpack _). vm_compute. exact I.
    + intros uid Hin. reflexivity.
  - cbv zeta. split; [exact Hrun|]. split; [|exact Hp].
    rewrite Hr. cbn [seriesInstanceUID jobS1 queuedItemFor].
    rewrite Hmissing. reflexivity.
Defined.

(** * Further properties of the code *)

(** ** The history of server URLs *)

Lemma remove_first_not_in x l : x ∉ l -> remove_first x l = l.
Proof.
  induction l as [|y l IH]; intros Hx; [reflexivity|]. simpl.
  rewrite decide_False.
  - f_equal. apply IH. intros H. apply Hx. right. exact H.
  - intros ->. apply Hx. left.
Qed.

Lemma elem_of_remove_first x y l : y ∈ remove_first x l -> y ∈ l.
Proof.
  induction l as [|z l IH]; simpl; [auto|].
  destruct (decide (z = x)) as [->|Hne]; intros H.
  - right. exact H.
  - apply elem_of_cons in H as [->|H]; [left | right; auto].
Qed.

Lemma remove_first_other x y l : y ≠ x -> y ∈ l -> y ∈ remove_first x l.
Proof.
  intros Hne. induction l as [|z l IH]; simpl; [auto|]. intros H.
  apply elem_of_cons in H as [->|H].
  - rewrite decide_False by assumption. left.
  - destruct (decide (z = x)); [exact H | right; auto].
Qed.

Lemma length_remove_first x l : length (remove_first x l) <= length l.
Proof.
  induction l as [|z l IH]; simpl; [lia|].
  destruct (decide (z = x)); simpl; lia.
Qed.

Lemma NoDup_remove_first x l :
  NoDup l -> NoDup (remove_first x l) ∧ x ∉ remove_first x l.
Proof.
  induction l as [|z l IH]; intros Hl; simpl.
  - split; [constructor | apply not_elem_of_nil].
  - apply NoDup_cons in Hl as [Hz Hl].
    destruct (decide (z = x)) as [->|Hne]; [auto|].
    destruct (IH Hl) as [Hnd Hx]. split.
    + apply NoDup_cons. split; [|exact Hnd].
      intros H. apply Hz. eapply elem_of_remove_first, H.
    + intros H. apply elem_of_cons in H as [->|H]; [congruence | auto].
Qed.

Lemma elem_of_take_list {A : Type} (x : A) n (l : list A) :
  x ∈ take n l -> x ∈ l.
Proof.
  intros H. rewrite <- (take_drop n l). apply elem_of_app. left. exact H.
Qed.

Lemma addServerUrlToHistory_cons url urlHistory :
  addServerUrlToHistory url urlHistory
  = url :: take 9 (remove_first url urlHistory).
Proof.
  unfold addServerUrlToHistory.
  destruct (decide (url ∈ urlHistory)) as [Hin|Hnotin]; [reflexivity|].
  rewrite remove_first_not_in by assumption. reflexivity.
Qed.

(** The URL connected to comes first in the history, which never holds
    more than ten URLs, holds nothing but this URL and URLs it held
    before, and loses none of them while it held fewer than ten. *)
Theorem addServerUrlToHistory_most_recent url urlHistory :
  head (addServerUrlToHistory url urlHistory) = Some url
  ∧ length (addServerUrlToHistory url urlHistory) <= 10
  ∧ (forall u, u ∈ addServerUrlToHistory url urlHistory ->
       u = url ∨ u ∈ urlHistory)
  ∧ (length urlHistory < 10 ->
     forall u, u ∈ urlHistory -> u ∈ addServerUrlToHistory url urlHistory).
Proof.
  rewrite addServerUrlToHistory_cons. split; [reflexivity|]. split.
  { simpl. rewrite length_take. lia. }
  split.
  - intros u Hu. apply elem_of_cons in Hu as [->|Hu]; [left; reflexivity|].
    right. eapply elem_of_remove_first, elem_of_take_list, Hu.
  - intros Hlen u Hu. destruct (decide (u = url)) as [->|Hne]; [left|].
    right. rewrite take_ge.
    + apply remove_first_other; assumption.
    + pose proof (length_remove_first url urlHistory). lia.
Qed.

Lemma addServerUrlToHistory_most_recent_witness :
  "c" ∈ addServerUrlToHistory "b" ["a"; "b"; "c"].
Proof.
  apply (addServerUrlToHistory_most_recent "b" ["a"; "b"; "c"]).
  - simpl. lia.
  - apply (bool_decide_unpack _). vm_compute. exact I.
Defined.

(** A history without repetition stays without repetition. *)
Theorem addServerUrlToHistory_NoDup url urlHistory :
  NoDup urlHistory -> NoDup (addServerUrlToHistory url urlHistory).
Proof.
  intros Hnd. rewrite addServerUrlToHistory_cons.
  destruct (NoDup_remove_first url urlHistory Hnd) as [Hrest Hurl].
  apply NoDup_cons. split.
  - intros H. apply Hurl. eapply elem_of_take_list, H.
  - eapply sublist_NoDup; [exact Hrest | apply sublist_take].

Qed.

Lemma addServerUrlToHistory_NoDup_witness :
  NoDup (addServerUrlToHistory "b" ["a"; "b"; "c"]).
Proof.
  apply (addServerUrlToHistory_NoDup "b" ["a"; "b"; "c"]).
  apply (bool_decide_unpack _). vm_compute. exact I.
Defined.

(** Connecting to the same server again leaves the history as it is. *)
Theorem addServerUrlToHistory_idempotent url urlHistory :
  addServerUrlToHistory url (addServerUrlToHistory url urlHistory)
  = addServerUrlToHistory url urlHistory.
Proof.
  rewrite (addServerUrlToHistory_cons url (addServerUrlToHistory url _)).
  rewrite addServerUrlToHistory_cons. simpl.
  rewrite decide_True by reflexivity.
  rewrite take_take. reflexivity.
Qed.

(** ** Looking a series up in the table *)

Lemma getSeriesRowNumber_from_spec series : forall rows start result,
  getSeriesRowNumber_from rows series start = Returned result <->
  match result with
  | Some found =>
      exists i, found = start + i
        ∧ rows !! i ≫= rowSeriesUID = Some series
        ∧ forall j, j < i ->
            exists text, rows !! j ≫= rowSeriesUID = Some text ∧ text ≠ series
  | None =>
      forall row, row ∈ rows ->
        exists text, rowSeriesUID row = Some text ∧ text ≠ series
  end.
Proof.
  induction rows as [|row rows IH]; intros start result; simpl.
  - split.
    + intros [= <-]. intros row Hrow. inversion Hrow.
    + destruct result as [found|]; [|reflexivity].
      intros (i & _ & Hi & _). discriminate.
  - destruct (rowSeriesUID row) as [text|] eqn:Htext.
    + destruct (decide (text = series)) as [->|Hne].
      * split.
        -- intros [= <-]. exists 0. split; [lia|]. split; [simpl; assumption|].
           intros j Hj. lia.
        -- destruct result as [found|].
           ++ intros (i & -> & Hi & Hbefore). destruct i as [|i].
              ** f_equal. f_equal. lia.
              ** destruct (Hbefore 0) as (t & Ht & Hneq); [lia|].
                 simpl in Ht. congruence.
           ++ intros Hall. destruct (Hall row) as (t & Ht & Hneq); [left|].
              congruence.
      * rewrite IH. destruct result as [found|].
        -- split.
           ++ intros (i & -> & Hi & Hbefore). exists (S i).
              split; [lia|]. split; [exact Hi|].
              intros [|j] Hj; [simpl; eauto|]. apply Hbefore. lia.
           ++ intros (i & -> & Hi & Hbefore). destruct i as [|i].
              ** simpl in Hi. congruence.
              ** exists i. split; [lia|]. split; [exact Hi|].
                 intros j Hj. apply (Hbefore (S j)). lia.
        -- split.
           ++ intros Hall r Hr. apply elem_of_cons in Hr as [->|Hr]; eauto.
           ++ intros Hall r Hr. apply Hall. right. exact Hr.
    + split; [discriminate|].
      destruct result as [found|].
      * intros (i & -> & Hi & Hbefore). destruct i as [|i].
        -- simpl in Hi. congruence.
        -- destruct (Hbefore 0) as (t & Ht & _); [lia|]. simpl in Ht.
           congruence.
      * intros Hall. destruct (Hall row) as (t & Ht & _); [left|]. congruence.
Qed.

(** [getSeriesRowNumber] gives a row exactly when that row is the first
    one whose Series Instance UID item has the UID looked for, every row
    above it having such an item; it gives -1 exactly when every row has
    such an item and none has that UID.  (A row without the item above
    the first match makes it raise.) *)
Theorem getSeriesRowNumber_first_match series s :
  (forall i,
     (getSeriesRowNumber series s).1 = Returned (Some i) <->
     seriesTable s !! i ≫= rowSeriesUID = Some series
     ∧ forall j, j < i ->
         exists text,
           seriesTable s !! j ≫= rowSeriesUID = Some text ∧ text ≠ series)
  ∧ ((getSeriesRowNumber series s).1 = Returned None <->
     forall row, row ∈ seriesTable s ->
       exists text, rowSeriesUID row = Some text ∧ text ≠ series).
Proof.
  unfold getSeriesRowNumber. cbn [fst]. split.
  - intros i. rewrite (getSeriesRowNumber_from_spec series _ 0 (Some i)).
    split.
    + intros (k & -> & Hk & Hbefore). auto.
    + intros (Hi & Hbefore). exists i. auto.
  - apply (getSeriesRowNumber_from_spec series _ 0 None).
Qed.

(** ** Which instances the loop may ask for *)

Lemma instanceBody_no_uid env item bar db instance idx s :
  sopUidOf instance = None ->
  exists error,
    instanceBody env item bar db instance idx s
    = (Raised error, beforeInstance item bar idx s).
Proof.
  intros Hnone. unfold instanceBody.
  rewrite (bind_returned _ _ _ _ _ (whenBar_setValue_run _ _ _ _)).
  rewrite (bind_returned _ _ _ _ _ (processEvents_run _)).
  fold (beforeInstance item bar idx s).
  unfold sopUidOf in Hnone. unfold bind, sopInstanceUidOf.
  destruct (instance !! "00080018") as [[|uid more]|]; try discriminate;
    eexists; reflexivity.
Qed.

Lemma instanceBody_asked env item bar db instance idx s uid :
  sopUidOf instance = Some uid -> uid ∉ db ->
  useCacheFlag s = false
  ∨ isfile (folders s) (downloadFolderPath item) (instanceFileName uid) = false ->
  exists outcome s',
    instanceBody env item bar db instance idx s = (outcome, s')
    ∧ retrievals (trace s')
      = retrievals (trace s)
        ++ [RetrieveInstance (studyInstanceUID item) (seriesInstanceUID item)
              uid].
Proof.
  intros Huid Hnotin Hmiss.
  destruct (beforeInstance_fields item bar idx s) as (Bf & Bu & Br & _).
  destruct (retrieve_instance (client env) (studyInstanceUID item)
              (seriesInstanceUID item) uid) as [payload|message] eqn:Hsrv.
  - destruct (folders s !! downloadFolderPath item) as [files|] eqn:Hfolder.
    + eexists _, _. split.
      * apply (instanceBody_retrieved _ _ bar _ _ idx _ _ _ _
                 Huid Hnotin Hmiss Hsrv Hfolder).
      * simpl. rewrite retrievals_app, Br. reflexivity.
    + rewrite (instanceBody_head _ _ _ _ _ _ _ _ Huid).
      rewrite decide_False by assumption.
      unfold bind, os_path_isfile, gets. rewrite Bf, Bu.
      assert (Hgo : negb (isfile (folders s) (downloadFolderPath item)
                            (instanceFileName uid))
                    || negb (useCacheFlag s) = true).
      { destruct Hmiss as [-> | ->]; [apply orb_true_r | reflexivity]. }
      rewrite Hgo. unfold request, emit, bind, modify. rewrite Hsrv.
      unfold ret, write_file, bind, gets. simpl. rewrite Bf, Hfolder.
      eexists _, _. split; [reflexivity|]. simpl.
      rewrite retrievals_app, Br. reflexivity.
  - eexists _, _. split.
    + apply (instanceBody_failed _ _ bar _ _ idx _ _ _
               Huid Hnotin Hmiss Hsrv).
    + simpl. rewrite retrievals_app, Br. reflexivity.
Qed.

(** Whatever happens during the loop (cancellation, a failing request,
    an instance without UID), the instances it asks the server for are
    instances of the list that are not in the local database, each asked
    for at most once per occurrence and in the order of the list. *)
Theorem instanceLoop_asks_only_missing env item bar db instances :
  forall idx s,
    exists asked,
      retrievals (trace (instanceLoop env item bar db instances idx s).2)
      = retrievals (trace s)
        ++ (RetrieveInstance (studyInstanceUID item) (seriesInstanceUID item)
              <$> asked)
      ∧ asked `sublist_of`
          filter (fun uid => uid ∉ db) (omap sopUidOf instances).
Proof.
  induction instances as [|instance rest IH]; intros idx s.
  - exists []. simpl. rewrite app_nil_r. split; [reflexivity|constructor].
  - destruct (cancelDownloadRequested s) eqn:Hflag.
    { rewrite instanceLoop_cancelled by assumption. exists []. simpl.
      rewrite app_nil_r. split; [reflexivity | apply sublist_nil_l]. }
    rewrite instanceLoop_cons by assumption.
    destruct (beforeInstance_fields item bar idx s) as (Bf & Bu & Br & _).
    cbn [omap list_omap].
    destruct (sopUidOf instance) as [uid|] eqn:Huid.
    + rewrite filter_cons.
      destruct (decide (uid ∈ db)) as [Hin|Hnotin].
      * rewrite (bind_returned _ _ _ _ _
                   (instanceBody_in_database _ _ _ _ _ _ _ _ Huid Hin)).
        rewrite decide_False by auto.
        destruct (IH (S idx) (beforeInstance item bar idx s))
          as (asked & Hr & Hsub).
        exists asked. rewrite Hr, Br. auto.
      * rewrite decide_True by assumption.
        destruct (useCacheFlag s
                  && isfile (folders s) (downloadFolderPath item)
                       (instanceFileName uid)) eqn:Hhit.
        -- apply andb_true_iff in Hhit as [Hcache Hfile].
           rewrite (bind_returned _ _ _ _ _
                      (instanceBody_cached _ _ _ _ _ _ _ _
                         Huid Hnotin Hcache Hfile)).
           destruct (IH (S idx) (beforeInstance item bar idx s))
             as (asked & Hr & Hsub).
           exists asked. rewrite Hr, Br.
           split; [reflexivity | apply sublist_cons, Hsub].
        -- apply andb_false_iff in Hhit.
           destruct (instanceBody_asked env item bar db instance idx s uid
                       Huid Hnotin Hhit)
             as (outcome & s' & Hrun & Hr').
           unfold bind at 1. rewrite Hrun.
           destruct outcome as [[]|error|].
           ++ destruct (IH (S idx) s') as (asked & Hr & Hsub).
              exists (uid :: asked). rewrite Hr, Hr', <- app_assoc.
              split; [reflexivity | apply sublist_skip, Hsub].
           ++ exists [uid]. cbn [snd]. rewrite Hr'.
              split; [reflexivity | apply sublist_skip, sublist_nil_l].
           ++ exists [uid]. cbn [snd]. rewrite Hr'.
              split; [reflexivity | apply sublist_skip, sublist_nil_l].
    + destruct (instanceBody_no_uid env item bar db instance idx s Huid)
        as (error & Hrun).
      rewrite (bind_raised _ _ _ _ _ Hrun). cbn [snd].
      exists []. rewrite Br. simpl. rewrite app_nil_r.
      split; [reflexivity | apply sublist_nil_l].
Qed.

(** ** Files are kept until their folder is indexed *)

Lemma filesKept_refl s : filesKept s s.
Proof. intros folder name H. exact H. Qed.

Lemma filesKept_trans s1 s2 s3 :
  filesKept s1 s2 -> filesKept s2 s3 -> filesKept s1 s3.
Proof. intros H12 H23 folder name H. apply H23, H12, H. Qed.

Lemma filesKept_same s s' : folders s' = folders s -> filesKept s s'.
Proof. intros Heq folder name H. rewrite Heq. exact H. Qed.

Lemma keepsFiles_same {A : Type} (m : M A) :
  (forall s, folders (m s).2 = folders s) -> keepsFiles m.
Proof. intros H s. apply filesKept_same, H. Qed.

Lemma keepsFiles_ret {A : Type} (a : A) : keepsFiles (ret a).
Proof. apply keepsFiles_same. reflexivity. Qed.

Lemma keepsFiles_raise {A : Type} error : keepsFiles (@raise A error).
Proof. apply keepsFiles_same. reflexivity. Qed.

Lemma keepsFiles_gets {A : Type} (f : State -> A) : keepsFiles (gets f).
Proof. apply keepsFiles_same. reflexivity. Qed.

Lemma keepsFiles_bind {A B : Type} (m : M A) (k : A -> M B) :
  keepsFiles m -> (forall a, keepsFiles (k a)) -> keepsFiles (bind m k).
Proof.
  intros Hm Hk s. unfold bind. specialize (Hm s).
  destruct (m s) as [[a|error|] s1]; simpl in *; try assumption.
  eapply filesKept_trans; [exact Hm | apply Hk].
Qed.

Lemma keepsFiles_emit e : keepsFiles (emit e).
Proof. apply keepsFiles_same. reflexivity. Qed.

Lemma keepsFiles_request {A : Type} e (r : Response A) :
  keepsFiles (request e r).
Proof.
  unfold request. apply keepsFiles_bind; [apply keepsFiles_emit|].
  intros _. destruct r; [apply keepsFiles_ret | apply keepsFiles_raise].
Qed.

Lemma keepsFiles_processEvents : keepsFiles processEvents.
Proof. apply keepsFiles_same. intros s. apply processEvents_frame. Qed.

Lemma keepsFiles_setValue series b v : keepsFiles (setValue series b v).
Proof. apply keepsFiles_same. intros s. apply setValue_fields. Qed.

Lemma keepsFiles_setMaximum b n : keepsFiles (setMaximum b n).
Proof. apply keepsFiles_same. reflexivity. Qed.

Lemma keepsFiles_whenBar bar f :
  (forall b, keepsFiles (f b)) -> keepsFiles (whenBar bar f).
Proof. intros H. destruct bar; [apply H | apply keepsFiles_ret]. Qed.

Lemma keepsFiles_getSeriesRowNumber series :
  keepsFiles (getSeriesRowNumber series).
Proof. apply keepsFiles_same. reflexivity. Qed.

Lemma keepsFiles_sopInstanceUidOf instance :
  keepsFiles (sopInstanceUidOf instance).
Proof.
  unfold sopInstanceUidOf.
  destruct (instance !! "00080018") as [[|uid more]|];
    first [apply keepsFiles_ret | apply keepsFiles_raise].
Qed.

Lemma isfile_insert_file fs folder files name payload folder' name' :
  fs !! folder = Some files ->
  isfile fs folder' name' = true ->
  isfile (<[folder := <[name := payload]> files]> fs) folder' name' = true.
Proof.
  intros Hfolder. unfold isfile.
  destruct (decide (folder = folder')) as [<-|Hne].
  - rewrite lookup_insert_eq, Hfolder.
    destruct (decide (name = name')) as [<-|Hn].
    + rewrite lookup_insert_eq. reflexivity.
    + rewrite lookup_insert_ne by assumption. auto.
  - rewrite lookup_insert_ne by assumption. auto.
Qed.

Lemma keepsFiles_write_file folder name payload :
  keepsFiles (write_file folder name payload).
Proof.
  intros s. unfold write_file, bind, gets, modify, raise.
  destruct (folders s !! folder) as [files|] eqn:Hf; simpl;
    [|apply filesKept_refl].
  intros folder' name'. simpl. apply isfile_insert_file, Hf.
Qed.

Lemma keepsFiles_instanceBody env item bar db instance idx :
  keepsFiles (instanceBody env item bar db instance idx).
Proof.
  unfold instanceBody.
  apply keepsFiles_bind;
    [apply keepsFiles_whenBar; intros b; apply keepsFiles_setValue|].
  intros _.
  apply keepsFiles_bind; [apply keepsFiles_processEvents|]. intros _.
  apply keepsFiles_bind; [apply keepsFiles_sopInstanceUidOf|]. intros uid.
  destruct (decide (uid ∈ db)); [apply keepsFiles_ret|].
  apply keepsFiles_bind; [apply keepsFiles_gets|]. intros present.
  apply keepsFiles_bind; [apply keepsFiles_gets|]. intros useCache.
  destruct (negb present || negb useCache); [|apply keepsFiles_ret].
  apply keepsFiles_bind; [apply keepsFiles_request|]. intros payload.
  apply keepsFiles_write_file.
Qed.

Lemma keepsFiles_instanceLoop env item bar db instances :
  forall idx, keepsFiles (instanceLoop env item bar db instances idx).
Proof.
  induction instances as [|instance rest IH]; intros idx; simpl.
  - apply keepsFiles_ret.
  - apply keepsFiles_bind; [apply keepsFiles_gets|].
    intros [|]; [apply keepsFiles_ret|].
    apply keepsFiles_bind; [apply keepsFiles_instanceBody|]. intros _.
    apply IH.
Qed.

Lemma keepsFiles_beginDownload env item : keepsFiles (beginDownload env item).
Proof.
  unfold beginDownload.
  apply keepsFiles_bind; [apply keepsFiles_request|]. intros instances.
  apply keepsFiles_bind; [apply keepsFiles_processEvents|]. intros _.
  apply keepsFiles_bind; [apply keepsFiles_processEvents|]. intros _.
  apply keepsFiles_bind.
  { unfold getSeriesDownloadProgressBar.
    apply keepsFiles_bind; [apply keepsFiles_getSeriesRowNumber|].
    intros [i|]; [|apply keepsFiles_ret].
    apply keepsFiles_bind; [apply keepsFiles_gets|]. intros rows.
    destruct (rows !! i ≫= rowProgressBar); apply keepsFiles_ret. }
  intros bar. apply keepsFiles_bind.
  { apply keepsFiles_whenBar. intros b.
    apply keepsFiles_bind; [apply keepsFiles_setMaximum|]. intros _.
    apply keepsFiles_setValue. }
  intros _.
  apply keepsFiles_bind; [apply keepsFiles_getSeriesRowNumber|]. intros _.
  apply keepsFiles_bind; [apply keepsFiles_gets|]. intros db.
  apply keepsFiles_ret.
Qed.

Lemma keepsFiles_prepareFolder item : keepsFiles (prepareFolder item).
Proof.
  intros s folder name H.
  destruct (prepareFolder_fields item s) as (_ & _ & _ & _ & _ & _ & Hkeep).
  unfold isfile in *.
  destruct (folders s !! folder) as [files|] eqn:Hf; [|discriminate].
  rewrite (Hkeep folder files Hf). exact H.
Qed.

Lemma handler_run error s :
  (clearStatus ;; critical (downloadErrorMessage error))%py s
  = (Returned tt,
     set_trace (trace s ++ [CriticalMessage (downloadErrorMessage error)]) s).
Proof. reflexivity. Qed.

Lemma isfile_delete_other fs folder folder' name :
  folder' ≠ folder ->
  isfile (delete folder fs) folder' name = isfile fs folder' name.
Proof. intros Hne. unfold isfile. rewrite lookup_delete_ne by auto. reflexivity. Qed.

(** What [finishDownload] can do to a folder that exists: index it and
    remove it, or leave it and the trace alone. *)
Lemma finishDownload_outcomes env item bar n s :
  is_Some (folders s !! downloadFolderPath item) ->
  (exists s',
     hasRow s item
     ∧ finishDownload env item bar n s = (Returned tt, s')
     ∧ imports (trace s')
       = imports (trace s) ++ [AddDirectory (downloadFolderPath item)]
     ∧ folders s' = delete (downloadFolderPath item) (folders s))
  ∨ (exists outcome s',
       finishDownload env item bar n s = (outcome, s')
       ∧ folders s' = folders s ∧ trace s' = trace s).
Proof.
  intros [files Hfiles].
  destruct (cancelDownloadRequested s) eqn:Hflag.
  { right. apply finishDownload_cancelled, Hflag. }
  destruct (getSeriesRowNumber_from (seriesTable s) (seriesInstanceUID item) 0)
    as [[i|]|error|] eqn:Hrow.
  - left.
    destruct (finishDownload_completed env item bar n s i files Hflag Hrow
                Hfiles)
      as (s' & Hrun & Hf & Hi & _).
    exists s'. split; [exists i; exact Hrow|]. auto.
  - right. unfold finishDownload, clearStatus.
    unfold bind at 1, ret at 1. unfold bind at 1, getSeriesRowNumber.
    rewrite Hrow. eexists _, _. repeat split; reflexivity.
  - right. unfold finishDownload, clearStatus.
    unfold bind at 1, ret at 1. unfold bind at 1, getSeriesRowNumber.
    rewrite Hrow. eexists _, _. repeat split; reflexivity.
  - right. unfold finishDownload, clearStatus.
    unfold bind at 1, ret at 1. unfold bind at 1, getSeriesRowNumber.
    rewrite Hrow. eexists _, _. repeat split; reflexivity.
Qed.

(** How the download of a series can end: with nothing indexed and every
    file kept, or indexed and with its folder removed. *)
Lemma downloadSeries_outcomes env item s :
  exists outcome s',
    downloadSeries env item (prepareFolder item s).2 = (outcome, s')
    ∧ ((imports (trace s') = imports (trace s)
        ∧ filesKept s s'
        ∧ is_Some (folders s' !! downloadFolderPath item))
       ∨ (outcome = Returned tt
          ∧ hasRow s item
          ∧ imports (trace s')
            = imports (trace s) ++ [AddDirectory (downloadFolderPath item)]
          ∧ exists s2,
              filesKept s s2
              ∧ folders s' = delete (downloadFolderPath item) (folders s2))).
Proof.
  destruct (prepareFolder_fields item s) as (Hex & F0 & _).
  assert (K0 := keepsFiles_prepareFolder item s).
  set (s0 := (prepareFolder item s).2) in *.
  assert (F1 := framed_beginDownload env item s0).
  assert (K1 := keepsFiles_beginDownload env item s0).
  unfold downloadSeries. unfold bind at 1.
  destruct (beginDownload env item s0) as [[[[bar db] instances]|error|] s1]
    eqn:Hbegin; cbn [snd] in F1, K1.
  - assert (F2 := framed_instanceLoop env item bar db instances 0 s1).
    assert (K2 := keepsFiles_instanceLoop env item bar db instances 0 s1).
    unfold bind at 1.
    destruct (instanceLoop env item bar db instances 0 s1)
      as [[[]|error|] s2] eqn:Hloop; cbn [snd] in F2, K2.
    + assert (F : downloadFrame s s2).
      { eapply downloadFrame_trans; [exact F0|].
        eapply downloadFrame_trans; [exact F1 | exact F2]. }
      assert (K : filesKept s s2).
      { eapply filesKept_trans; [exact K0|].
        eapply filesKept_trans; [exact K1 | exact K2]. }
      assert (Hex2 : is_Some (folders s2 !! downloadFolderPath item)).
      { apply F2, F1, Hex. }
      destruct (finishDownload_outcomes env item bar (length instances) s2
                  Hex2)
        as [(s' & Hrow & Hrun & Hi & Hf)
           |(outcome & s' & Hrun & Hf & Ht)].
      * exists (Returned tt), s'. split; [exact Hrun|]. right.
        split; [reflexivity|]. split.
        { apply (hasRow_rowUIDs s2); [symmetry; apply F | exact Hrow]. }
        split; [rewrite Hi; f_equal; apply F|].
        exists s2. auto.
      * exists outcome, s'. split; [exact Hrun|]. left.
        rewrite Ht, Hf. split; [apply F|]. split; [|exact Hex2].
        eapply filesKept_trans; [exact K | apply filesKept_same, Hf].
    + assert (F : downloadFrame s s2).
      { eapply downloadFrame_trans; [exact F0|].
        eapply downloadFrame_trans; [exact F1 | exact F2]. }
      exists (Raised error), s2. split; [reflexivity|]. left.
      split; [apply F|]. split; [|apply F2, F1, Hex].
      eapply filesKept_trans; [exact K0|].
      eapply filesKept_trans; [exact K1 | exact K2].
    + assert (F : downloadFrame s s2).
      { eapply downloadFrame_trans; [exact F0|].
        eapply downloadFrame_trans; [exact F1 | exact F2]. }
      exists Diverged, s2. split; [reflexivity|]. left.
      split; [apply F|]. split; [|apply F2, F1, Hex].
      eapply filesKept_trans; [exact K0|].
      eapply filesKept_trans; [exact K1 | exact K2].
  - assert (F : downloadFrame s s1).
    { eapply downloadFrame_trans; [exact F0 | exact F1]. }
    exists (Raised error), s1. split; [reflexivity|]. left.
    split; [apply F|]. split; [|apply F1, Hex].
    eapply filesKept_trans; [exact K0 | exact K1].
  - assert (F : downloadFrame s s1).
    { eapply downloadFrame_trans; [exact F0 | exact F1]. }
    exists Diverged, s1. split; [reflexivity|]. left.
    split; [apply F|]. split; [|apply F1, Hex].
    eapply filesKept_trans; [exact K0 | exact K1].
Qed.

(** Processing a queued item never loses a file that was not indexed:
    either nothing is handed to the indexer and every file that was
    there is still there, or the folder of the item is handed to the
    indexer, then removed, and the files of all other folders are still
    there. *)
Theorem files_removed_only_after_import env item s :
  let r := processQueuedItem env item s in
  (imports (trace r.2) = imports (trace s) ∧ filesKept s r.2)
  ∨ (imports (trace r.2)
     = imports (trace s) ++ [AddDirectory (downloadFolderPath item)]
     ∧ folders r.2 !! downloadFolderPath item = None
     ∧ forall folder name,
         folder ≠ downloadFolderPath item ->
         isfile (folders s) folder name = true ->
         isfile (folders r.2) folder name = true).
Proof.
  destruct (downloadSeries_outcomes env item s)
    as (outcome & s' & Hrun & Hcases).
  intros r. subst r. rewrite processQueuedItem_run. unfold try_except.
  rewrite Hrun.
  destruct Hcases as [(Hi & Hk & _) | (-> & _ & Hi & s2 & Hk & Hf)].
  - left. destruct outcome as [[]|error|]; cbn [snd]; try (split; assumption).
    rewrite handler_run. cbn [snd trace set_trace].
    rewrite imports_app, Hi. simpl. rewrite app_nil_r. split; [reflexivity|].
    eapply filesKept_trans; [exact Hk | apply filesKept_same; reflexivity].
  - right. cbn [snd]. split; [exact Hi|]. rewrite Hf.
    split; [apply lookup_delete_eq|].
    intros folder name Hne Hfile. rewrite isfile_delete_other by assumption.
    apply Hk, Hfile.
Qed.

(** When the download of a series raises, the error is shown in a
    message box and the item is over: nothing was handed to the indexer,
    the download folder exists and every file that was there or was
    downloaded before the error is kept. *)
Theorem failed_download_keeps_files env item s error s_e :
  downloadSeries env item (prepareFolder item s).2 = (Raised error, s_e) ->
  let r := processQueuedItem env item s in
  r = (Returned tt,
       set_trace (trace s_e ++ [CriticalMessage (downloadErrorMessage error)])
         s_e)
  ∧ imports (trace r.2) = imports (trace s)
  ∧ filesKept s r.2
  ∧ folders r.2 = folders s_e
  ∧ is_Some (folders r.2 !! downloadFolderPath item).
Proof.
  intros Hraise.
  destruct (downloadSeries_outcomes env item s)
    as (outcome & s' & Hrun & Hcases).
  rewrite Hraise in Hrun. injection Hrun as <- <-.
  destruct Hcases as [(Hi & Hk & Hex) | (Habs & _)]; [|discriminate].
  intros r. subst r. rewrite processQueuedItem_run. unfold try_except.
  rewrite Hraise, handler_run. cbn [snd trace set_trace folders].
  rewrite imports_app, Hi. simpl. rewrite app_nil_r.
  repeat split; try reflexivity; try assumption.
Qed.

(** A series that has no row in the series table (the source's row -1)
    is never handed to the indexer, and its files stay in the download
    folder. *)
Theorem series_without_row_not_indexed env item s :
  getSeriesRowNumber_from (seriesTable s) (seriesInstanceUID item) 0
  = Returned None ->
  let r := processQueuedItem env item s in
  imports (trace r.2) = imports (trace s) ∧ filesKept s r.2.
Proof.
  intros Hnone.
  destruct (downloadSeries_outcomes env item s)
    as (outcome & s' & Hrun & Hcases).
  intros r. subst r. rewrite processQueuedItem_run. unfold try_except.
  rewrite Hrun.
  destruct Hcases as [(Hi & Hk & _) | (_ & (i & Hrow) & _)];
    [|congruence].
  destruct outcome as [[]|error|]; cbn [snd]; try (split; assumption).
  rewrite handler_run. cbn [snd trace set_trace].
  rewrite imports_app, Hi. simpl. rewrite app_nil_r. split; [reflexivity|].
  eapply filesKept_trans; [exact Hk | apply filesKept_same; reflexivity].
Qed.

(** ** A click on Cancel during a download *)

Lemma sameEvents_refl s : sameEvents s s.
Proof. split; reflexivity. Qed.

Lemma sameEvents_trans s1 s2 s3 :
  sameEvents s1 s2 -> sameEvents s2 s3 -> sameEvents s1 s3.
Proof. intros [A1 A2] [B1 B2]. split; congruence. Qed.

Lemma keepsEvents_ret {A : Type} (a : A) : keepsEvents (ret a).
Proof. intros s. apply sameEvents_refl. Qed.

Lemma keepsEvents_gets {A : Type} (f : State -> A) : keepsEvents (gets f).
Proof. intros s. apply sameEvents_refl. Qed.

Lemma keepsEvents_bind {A B : Type} (m : M A) (k : A -> M B) :
  keepsEvents m -> (forall a, keepsEvents (k a)) -> keepsEvents (bind m k).
Proof.
  intros Hm Hk s. unfold bind. specialize (Hm s).
  destruct (m s) as [[a|error|] s1]; simpl in *; try assumption.
  eapply sameEvents_trans; [exact Hm | apply Hk].
Qed.

Lemma keepsEvents_setValue series b v : keepsEvents (setValue series b v).
Proof.
  intros s. destruct (setValue_fields series b v s) as (_ & _ & C & D & _).
  split; assumption.
Qed.

Lemma keepsEvents_setMaximum b n : keepsEvents (setMaximum b n).
Proof. intros s. split; reflexivity. Qed.

Lemma keepsEvents_whenBar bar f :
  (forall b, keepsEvents (f b)) -> keepsEvents (whenBar bar f).
Proof. intros H. destruct bar; [apply H | apply keepsEvents_ret]. Qed.

Lemma keepsEvents_getSeriesRowNumber series :
  keepsEvents (getSeriesRowNumber series).
Proof. intros s. apply sameEvents_refl. Qed.

(** [processEvents] handles the first of the pending events; a click
    sets the flag. *)
Lemma processEvents_pending s clicked later :
  pendingEvents s = clicked :: later ->
  pendingEvents (processEvents s).2 = later
  ∧ cancelDownloadRequested (processEvents s).2
    = clicked || cancelDownloadRequested s.
Proof.
  intros H. unfold processEvents, bind, gets, modify, ret,
    onCancelDownloadButton.
  rewrite H. destruct clicked; simpl; split; reflexivity.
Qed.

(** Lines 795-800 handle one event. *)
Lemma prepareFolder_events item s clicked later :
  pendingEvents s = clicked :: later ->
  pendingEvents (prepareFolder item s).2 = later
  ∧ cancelDownloadRequested (prepareFolder item s).2
    = clicked || cancelDownloadRequested s.
Proof.
  intros H.
  unfold prepareFolder, bind, os_path_exists, gets, os_makedirs, modify,
    showStatus, ret.
  destruct (folders s !! downloadFolderPath item); simpl;
    rewrite processEvents_run; simpl.
  - apply processEvents_pending, H.
  - apply (processEvents_pending
             (set_folders (<[downloadFolderPath item := ∅]> (folders s)) s)),
      H.
Qed.

(** Lines 803-825 handle two events, at lines 809 and 810. *)
Lemma beginDownload_events env item s instances first second later :
  search_for_instances (client env) (studyInstanceUID item)
    (seriesInstanceUID item) = Ok instances ->
  pendingEvents s = first :: second :: later ->
  pendingEvents (beginDownload env item s).2 = later
  ∧ cancelDownloadRequested (beginDownload env item s).2
    = second || (first || cancelDownloadRequested s).
Proof.
  intros Hsrv Hp. unfold beginDownload. rewrite Hsrv.
  rewrite (bind_returned _ _ _ _ _ (request_ok _ _ _)).
  set (sA := set_trace _ s).
  unfold showStatus.
  rewrite (bind_returned _ _ _ _ _ (processEvents_run _)).
  set (sB := (processEvents sA).2).
  rewrite (bind_returned _ _ _ _ _ (processEvents_run _)).
  set (sC := (processEvents sB).2).
  destruct (processEvents_pending sA first (second :: later) Hp) as [PB CB].
  fold sB in PB, CB.
  destruct (processEvents_pending sB second later PB) as [PC CC].
  fold sC in PC, CC.
  match goal with
  | |- pendingEvents (?m sC).2 = _ ∧ _ => assert (K : keepsEvents m)
  end.
  { apply keepsEvents_bind.
    { unfold getSeriesDownloadProgressBar.
      apply keepsEvents_bind; [apply keepsEvents_getSeriesRowNumber|].
      intros [i|]; [|apply keepsEvents_ret].
      apply keepsEvents_bind; [apply keepsEvents_gets|]. intros rows.
      destruct (rows !! i ≫= rowProgressBar); apply keepsEvents_ret. }
    intros bar. apply keepsEvents_bind.
    { apply keepsEvents_whenBar. intros b.
      apply keepsEvents_bind; [apply keepsEvents_setMaximum|]. intros _.
      apply keepsEvents_setValue. }
    intros _.
    apply keepsEvents_bind; [apply keepsEvents_getSeriesRowNumber|]. intros _.
    apply keepsEvents_bind; [apply keepsEvents_gets|]. intros db.
    apply keepsEvents_ret. }
  destruct (K sC) as [Kc Kp]. rewrite Kc, Kp, PC, CC, CB. split; reflexivity.
Qed.

(** Each instance handles one event, at line 832: after the check of the
    flag at line 828, before the instance is asked for. *)
Lemma beforeInstance_events item bar idx s clicked later :
  pendingEvents s = clicked :: later ->
  pendingEvents (beforeInstance item bar idx s) = later
  ∧ cancelDownloadRequested (beforeInstance item bar idx s)
    = clicked || cancelDownloadRequested s.
Proof.
  intros H. unfold beforeInstance.
  destruct (keepsEvents_whenBar bar
              (fun b => setValue (seriesInstanceUID item) b idx)
              (fun b => keepsEvents_setValue _ b idx) s) as [Kc Kp].
  rewrite <- Kc. apply processEvents_pending. rewrite Kp. exact H.
Qed.

(** What the loop does for one instance the server delivers. *)
Lemma instanceBody_step env item bar db instance idx s uid files :
  sopUidOf instance = Some uid ->
  (uid ∉ db ->
   exists payload,
     retrieve_instance (client env) (studyInstanceUID item)
       (seriesInstanceUID item) uid = Ok payload) ->
  folders s !! downloadFolderPath item = Some files ->
  exists s2 files2,
    instanceBody env item bar db instance idx s = (Returned tt, s2)
    ∧ sameEvents (beforeInstance item bar idx s) s2
    ∧ useCacheFlag s2 = useCacheFlag s
    ∧ folders s2 !! downloadFolderPath item = Some files2
    ∧ retrievals (trace s2)
      = retrievals (trace s)
        ++ (RetrieveInstance (studyInstanceUID item) (seriesInstanceUID item)
              <$> toRetrieve (useCacheFlag s) (dom files) db [uid])
    ∧ (forall uids,
         toRetrieve (useCacheFlag s) (dom files) db (uid :: uids)
         = toRetrieve (useCacheFlag s) (dom files) db [uid]
           ++ toRetrieve (useCacheFlag s) (dom files2) db uids)
    ∧ (uid ∉ db ->
       isfile (folders s2) (downloadFolderPath item) (instanceFileName uid)
       = true).
Proof.
  intros Huid Hsrv Hfolder.
  destruct (beforeInstance_fields item bar idx s) as (Bf & Bu & Br & _).
  set (s1 := beforeInstance item bar idx s) in *.
  destruct (decide (uid ∈ db)) as [Hin|Hnotin].
  - exists s1, files.
    rewrite (instanceBody_in_database _ _ _ _ _ _ _ _ Huid Hin). fold s1.
    split; [reflexivity|]. split; [apply sameEvents_refl|].
    split; [exact Bu|]. split; [rewrite Bf; exact Hfolder|].
    split.
    { cbn [toRetrieve]. rewrite decide_True by assumption.
      simpl. rewrite app_nil_r. exact Br. }
    split.
    { intros uids. cbn [toRetrieve]. rewrite !decide_True by assumption.
      reflexivity. }
    intros Hn. contradiction.
  - destruct (useCacheFlag s
              && isfile (folders s) (downloadFolderPath item)
                   (instanceFileName uid)) eqn:Hhit.
    + assert (Hskip : useCacheFlag s
                      && bool_decide (instanceFileName uid ∈ dom files) = true).
      { rewrite <- (isfile_dom (folders s) _ _ _ Hfolder). exact Hhit. }
      apply andb_true_iff in Hhit as [Hcache Hfile].
      exists s1, files.
      rewrite (instanceBody_cached _ _ _ _ _ _ _ _ Huid Hnotin Hcache Hfile).
      fold s1.
      split; [reflexivity|]. split; [apply sameEvents_refl|].
      split; [exact Bu|]. split; [rewrite Bf; exact Hfolder|].
      split.
      { cbn [toRetrieve]. rewrite decide_False by assumption. rewrite Hskip.
        simpl. rewrite app_nil_r. exact Br. }
      split.
      { intros uids. cbn [toRetrieve]. rewrite !decide_False by assumption.
        rewrite Hskip. reflexivity. }
      intros _. rewrite Bf. exact Hfile.
    + assert (Hask : useCacheFlag s
                     && bool_decide (instanceFileName uid ∈ dom files) = false).
      { rewrite <- (isfile_dom (folders s) _ _ _ Hfolder). exact Hhit. }
      apply andb_false_iff in Hhit.
      destruct (Hsrv Hnotin) as (payload & Hpayload).
      exists (set_folders
                (<[downloadFolderPath item
                   := <[instanceFileName uid := payload]> files]> (folders s))
                (set_trace
                   (trace s1 ++ [RetrieveInstance (studyInstanceUID item)
                                   (seriesInstanceUID item) uid]) s1)),
             (<[instanceFileName uid := payload]> files).
      rewrite (instanceBody_retrieved _ _ bar _ _ idx _ _ _ _
                 Huid Hnotin Hhit Hpayload Hfolder).
      fold s1.
      split; [reflexivity|]. split; [split; reflexivity|].
      split; [exact Bu|]. cbn [folders set_folders trace set_trace].
      split; [apply lookup_insert_eq|].
      split.
      { cbn [toRetrieve]. rewrite decide_False by assumption. rewrite Hask.
        rewrite retrievals_app, Br. reflexivity. }
      split.
      { intros uids. cbn [toRetrieve]. rewrite !decide_False by assumption.
        rewrite Hask, dom_insert_L. reflexivity. }
      intros _. unfold isfile. rewrite !lookup_insert_eq. reflexivity.
Qed.

(** A click handled while the loop is at instance [k + 1], after [k]
    instances over which nothing was clicked: this instance is still
    dealt with, the loop stops at the check of the next one. *)
Lemma instanceLoop_click env item bar db :
  forall instances uids k idx s files later,
    sopUidOf <$> instances = Some <$> uids ->
    (forall uid, uid ∈ take (S k) uids -> uid ∉ db ->
       exists payload,
         retrieve_instance (client env) (studyInstanceUID item)
           (seriesInstanceUID item) uid = Ok payload) ->
    cancelDownloadRequested s = false ->
    pendingEvents s = replicate k false ++ true :: later ->
    k < length instances ->
    folders s !! downloadFolderPath item = Some files ->
    exists s',
      instanceLoop env item bar db instances idx s = (Returned tt, s')
      ∧ cancelDownloadRequested s' = true
      ∧ pendingEvents s' = later
      ∧ retrievals (trace s')
        = retrievals (trace s)
          ++ (RetrieveInstance (studyInstanceUID item) (seriesInstanceUID item)
                <$> toRetrieve (useCacheFlag s) (dom files) db
                      (take (S k) uids))
      ∧ (forall uid, uid ∈ take (S k) uids -> uid ∉ db ->
           isfile (folders s') (downloadFolderPath item) (instanceFileName uid)
           = true).
Proof.
  induction instances as [|instance rest IH];
    intros uids k idx s files later Huids Hsrv Hflag Hpend Hk Hfolder.
  - simpl in Hk. lia.
  - destruct uids as [|uid uids]; [discriminate|].
    simpl in Huids. injection Huids as Huid Hrest.
    rewrite instanceLoop_cons by exact Hflag.
    destruct (instanceBody_step env item bar db instance idx s uid files Huid)
      as (s2 & files2 & Hbody & [Ec Ep] & Hu & Hf2 & Hr & Hsplit & Hfile);
      [|exact Hfolder|].
    { intros Hn. apply Hsrv; [left | exact Hn]. }
    rewrite (bind_returned _ _ _ _ _ Hbody).
    destruct k as [|k]; cbn [replicate app] in Hpend.
    + destruct (beforeInstance_events item bar idx s true later Hpend)
        as [Bp Bc].
      assert (Hc2 : cancelDownloadRequested s2 = true).
      { rewrite Ec, Bc. reflexivity. }
      exists s2. rewrite instanceLoop_cancelled by exact Hc2.
      split; [reflexivity|]. split; [exact Hc2|].
      split; [rewrite Ep; exact Bp|].
      cbn [take]. split; [exact Hr|].
      intros u Hin Hn. apply list_elem_of_singleton in Hin as ->.
      apply Hfile, Hn.
    + destruct (beforeInstance_events item bar idx s false _ Hpend)
        as [Bp Bc].
      rewrite Hflag in Bc. cbn [orb] in Bc.
      destruct (IH uids k (S idx) s2 files2 later Hrest)
        as (s' & Hrun & Hc' & Hp' & Hr' & Hfiles').
      * intros u Hin Hn. apply Hsrv; [right; exact Hin | exact Hn].
      * rewrite Ec. exact Bc.
      * rewrite Ep. exact Bp.
      * simpl in Hk. lia.
      * exact Hf2.
      * exists s'. split; [exact Hrun|]. split; [exact Hc'|].
        split; [exact Hp'|].
        change (take (S (S k)) (uid :: uids)) with (uid :: take (S k) uids).
        split.
        { rewrite Hr', Hu, (Hsplit (take (S k) uids)), fmap_app, app_assoc,
            <- Hr. reflexivity. }
        intros u Hin Hn. apply elem_of_cons in Hin as [-> | Hin].
        -- assert (K := keepsFiles_instanceLoop env item bar db rest (S idx) s2).
           rewrite Hrun in K. apply K, Hfile, Hn.
        -- apply Hfiles'; assumption.
Qed.

(** After a loop that was cancelled, the row of the series loses its
    progress bar; the folder and the trace are left alone. *)
Lemma finishDownload_cancelled_found env item bar n s i :
  cancelDownloadRequested s = true ->
  getSeriesRowNumber_from (seriesTable s) (seriesInstanceUID item) 0
  = Returned (Some i) ->
  exists s',
    finishDownload env item bar n s = (Returned tt, s')
    ∧ folders s' = folders s ∧ trace s' = trace s
    ∧ cancelDownloadRequested s' = true.
Proof.
  intros Hc Hrow. unfold finishDownload, clearStatus.
  unfold bind at 1, ret at 1.
  rewrite (bind_returned _ _ _ _ _
             (getSeriesRowNumber_found _ s s _ eq_refl Hrow)).
  unfold bind at 1, gets at 1. rewrite Hc. unfold bind at 1, ret at 1.
  destruct (removeDownloadProgressBar_fields (seriesInstanceUID item) s)
    as (H1 & H2 & H3 & _ & _ & [Hret | Habs]); [|congruence].
  eexists. split; [rewrite (run_pair _ s), Hret; reflexivity|].
  split; [exact H1|]. split; [exact H2|]. rewrite H3. exact Hc.
Qed.

(** C3 (amended). The pending events are handled once per instance, at
    line 832: after the check of the flag at line 828 and before the
    instance is asked for.  For a job whose series has its row in the
    table, let the click on Cancel be handled while the loop is at
    instance [k + 1] (three calls of [processEvents] precede the loop, at
    lines 799, 809 and 810, so it is the event that follows [3 + k]
    others): this is where a click made once instance [k] was retrieved
    is handled.  Then instance [k + 1] is still asked for when it is
    neither in the local database nor reused from the download folder,
    and no instance after it is: the requests are those for the first
    [k + 1] instances.  Nothing is handed to the indexer, no file is
    removed, and the files of these instances are in the download
    folder. *)
Theorem cancel_stops_retrieval env item s instances uids k later :
  search_for_instances (client env) (studyInstanceUID item)
    (seriesInstanceUID item) = Ok instances ->
  sopUidOf <$> instances = Some <$> uids ->
  k < length instances ->
  (forall uid, uid ∈ take (S k) uids ->
     uid ∉ default ∅ (dicomDatabase s !! seriesInstanceUID item) ->
     exists payload,
       retrieve_instance (client env) (studyInstanceUID item)
         (seriesInstanceUID item) uid = Ok payload) ->
  hasRow s item ->
  cancelDownloadRequested s = false ->
  pendingEvents s = replicate (3 + k) false ++ true :: later ->
  let r := processQueuedItem env item s in
  r.1 = Returned tt
  ∧ cancelDownloadRequested r.2 = true
  ∧ retrievals (trace r.2)
    = retrievals (trace s)
      ++ (RetrieveInstance (studyInstanceUID item) (seriesInstanceUID item)
            <$> toRetrieve (useCacheFlag s)
                  (dom (default ∅ (folders s !! downloadFolderPath item)))
                  (default ∅ (dicomDatabase s !! seriesInstanceUID item))
                  (take (S k) uids))
  ∧ imports (trace r.2) = imports (trace s)
  ∧ filesKept s r.2
  ∧ (forall uid, uid ∈ take (S k) uids ->
       uid ∉ default ∅ (dicomDatabase s !! seriesInstanceUID item) ->
       isfile (folders r.2) (downloadFolderPath item) (instanceFileName uid)
       = true).
Proof.
  intros Hsrv Huids Hk Hretr (i & Hrow) Hflag Hpend r. subst r.
  cbn [Nat.add replicate app] in Hpend.
  destruct (prepareFolder_fields item s) as (_ & F0 & R0 & T0 & D0 & _ & _).
  assert (L0 := prepareFolder_folder item s).
  assert (K0 := keepsFiles_prepareFolder item s).
  destruct (prepareFolder_events item s false _ Hpend) as [P0 C0].
  rewrite Hflag in C0. cbn [orb] in C0.
  set (s0 := (prepareFolder item s).2) in *.
  destruct (beginDownload_run env item s0 instances i Hsrv)
    as (s1 & bar & Hbegin & C1 & _).
  { rewrite T0. exact Hrow. }
  rewrite D0 in Hbegin.
  destruct (beginDownload_events env item s0 instances false false _ Hsrv P0)
    as [P1 C1c].
  assert (K1 := keepsFiles_beginDownload env item s0).
  rewrite Hbegin in P1, C1c, K1. cbn [snd] in P1, C1c, K1.
  rewrite C0 in C1c. cbn [orb] in C1c.
  destruct C1 as (C1f & C1u & _ & _ & C1t & _).
  destruct F0 as (F0r & _ & F0i & F0u & _).
  destruct (instanceLoop_click env item bar
              (default ∅ (dicomDatabase s !! seriesInstanceUID item))
              instances uids k 0 s1
              (default ∅ (folders s !! downloadFolderPath item)) later
              Huids Hretr C1c P1 Hk)
    as (s2 & Hloop & Hc2 & _ & R2 & Hfiles2).
  { rewrite C1f. exact L0. }
  assert (F1 := framed_beginDownload env item s0).
  rewrite Hbegin in F1. cbn [snd] in F1.
  assert (F2 := framed_instanceLoop env item bar
                  (default ∅ (dicomDatabase s !! seriesInstanceUID item))
                  instances 0 s1).
  assert (K2 := keepsFiles_instanceLoop env item bar
                  (default ∅ (dicomDatabase s !! seriesInstanceUID item))
                  instances 0 s1).
  rewrite Hloop in F2, K2. cbn [snd] in F2, K2.
  destruct F1 as (F1r & _ & F1i & _).
  destruct F2 as (F2r & _ & F2i & _).
  assert (Hrows2 : rowUIDs s2 = rowUIDs s) by congruence.
  destruct (finishDownload_cancelled_found env item bar (length instances) s2 i
              Hc2)
    as (s' & Hfin & Ff & Ft & Hc').
  { rewrite (getSeriesRowNumber_from_rowUIDs _ _ (seriesTable s) 0 Hrows2).
    exact Hrow. }
  rewrite processQueuedItem_run. fold s0. unfold try_except.
  rewrite (downloadSeries_run _ _ _ _ _ _ _ _ Hbegin Hloop), Hfin.
  cbn [fst snd].
  split; [reflexivity|]. split; [exact Hc'|].
  split; [rewrite Ft, R2, C1t, R0, C1u, F0u; reflexivity|].
  split; [rewrite Ft; congruence|].
  split.
  { eapply filesKept_trans; [exact K0|].
    eapply filesKept_trans; [exact K1|].
    eapply filesKept_trans; [exact K2 | apply filesKept_same, Ff]. }
  intros uid Hin Hn. rewrite Ff. apply Hfiles2; assumption.
Qed.

(** C3, as it was stated, does not hold.  Job [S3] has five instances,
    none of them local.  Once the second one was retrieved the flag is
    still clear; the click is handled next, at line 832 for the third
    instance, and sets the flag when two instances have been asked for.
    The third instance is asked for all the same: a further request
    after the flag was set, which leaves two instances unfetched, not
    three. *)
Lemma cancel_after_second_instance_third_retrieved :
  let s1 := (beginDownload demoEnv jobS3
               (prepareFolder jobS3 lateCancelledState).2).2 in
  let s2 := (instanceLoop demoEnv jobS3 (Some 2) ∅ (take 2 fiveInstances) 0
               s1).2 in
  let s3 := beforeInstance jobS3 (Some 2) 2 s2 in
  let r := processQueuedItem demoEnv jobS3 lateCancelledState in
  search_for_instances (client demoEnv) "1.2.3" "S3" = Ok fiveInstances
  ∧ length fiveInstances = 5
  ∧ cancelDownloadRequested s2 = false
  ∧ retrievals (trace s2)
    = [RetrieveInstance "1.2.3" "S3" "1.1"; RetrieveInstance "1.2.3" "S3" "1.2"]
  ∧ cancelDownloadRequested s3 = true
  ∧ retrievals (trace s3) = retrievals (trace s2)
  ∧ r.1 = Returned tt
  ∧ retrievals (trace r.2)
    = [RetrieveInstance "1.2.3" "S3" "1.1";
       RetrieveInstance "1.2.3" "S3" "1.2";
       RetrieveInstance "1.2.3" "S3" "1.3"]
  ∧ imports (trace r.2) = [].
Proof. vm_compute. repeat split; reflexivity. Qed.

Lemma cancel_stops_retrieval_witness :
  let r := processQueuedItem demoEnv jobS3 lateCancelledState in
  r.1 = Returned tt
  ∧ cancelDownloadRequested r.2 = true
  ∧ retrievals (trace r.2)
    = [RetrieveInstance "1.2.3" "S3" "1.1";
       RetrieveInstance "1.2.3" "S3" "1.2";
       RetrieveInstance "1.2.3" "S3" "1.3"]
  ∧ imports (trace r.2) = []
  ∧ isfile (folders r.2) (downloadFolderPath jobS3) (instanceFileName "1.3")
    = true.
Proof.
  destruct (cancel_stops_retrieval demoEnv jobS3 lateCancelledState
              fiveInstances ["1.1"; "1.2"; "1.3"; "1.4"; "1.5"] 2 [])
    as (Hrun & Hc & Hr & Hi & _ & Hfiles).
  - reflexivity.
  - reflexivity.
  - simpl. lia.
  - intros uid _ _. eexists. reflexivity.
  - exists 2. reflexivity.
  - reflexivity.
  - reflexivity.
  - cbv zeta. split; [exact Hrun|]. split; [exact Hc|].
    split; [rewrite Hr; vm_compute; reflexivity|]. split; [exact Hi|].
    apply Hfiles.
    + apply (bool_decide_unpack _). vm_compute. exact I.
    + apply (bool_decide_unpack _). vm_compute. exact I.
Defined.

(** ** Cancelling between two items *)

Lemma drainQueue_cancelled env queue s :
  cancelDownloadRequested s = true ->
  drainQueue env queue s = (Returned tt, s).
Proof.
  intros Hc. destruct queue as [|item rest]; [reflexivity|].
  simpl. unfold bind, gets. rewrite Hc. reflexivity.
Qed.

Lemma removeProgressBars_fields : forall queue s,
  exists outcome s',
    removeProgressBars queue s = (outcome, s')
    ∧ folders s' = folders s ∧ trace s' = trace s
    ∧ dicomDatabase s' = dicomDatabase s.
Proof.
  induction queue as [|item rest IH]; intros s.
  - eexists _, _. repeat split; reflexivity.
  - cbn [removeProgressBars]. unfold bind at 1.
    destruct (removeDownloadProgressBar_fields (seriesInstanceUID item) s)
      as (Hf & Ht & _ & _ & Hd & _).
    destruct (removeDownloadProgressBar (seriesInstanceUID item) s)
      as [[[]|error|] s1]; cbn [snd] in Hf, Ht, Hd.
    + destruct (IH s1) as (outcome & s' & Hrun & Hf' & Ht' & Hd').
      exists outcome, s'. split; [exact Hrun|].
      split; [congruence|]. split; congruence.
    + eexists _, _. split; [reflexivity|]. auto.
    + eexists _, _. split; [reflexivity|]. auto.
Qed.

(** When the cancellation flag is set at the end of an item, no further
    item of the queue is started: after that item nothing more is asked
    of the server or the indexer and no folder is touched; the rest of
    the queue is dropped. *)
Theorem drain_stops_when_cancelled env item rest s s1 :
  cancelDownloadRequested s = false ->
  downloadQueue s = item :: rest ->
  processQueuedItem env item (set_downloadQueue rest s) = (Returned tt, s1) ->
  cancelDownloadRequested s1 = true ->
  let r := downloadSelectedSeries env s in
  trace r.2 = trace s1
  ∧ folders r.2 = folders s1
  ∧ dicomDatabase r.2 = dicomDatabase s1
  ∧ (r.1 = Returned tt -> downloadQueue r.2 = []).
Proof.
  intros Hflag Hqueue Hitem Hcancel.
  assert (Hdrain : drainQueue env (item :: rest) s = (Returned tt, s1)).
  { rewrite drainQueue_cons by assumption.
    rewrite (bind_returned _ _ _ _ _ Hitem).
    apply drainQueue_cancelled, Hcancel. }
  destruct (removeProgressBars_fields (downloadQueue s1) s1)
    as (outcome & s2 & Hbars & Hf & Ht & Hd).
  assert (Hrun : downloadSelectedSeries env s
                 = match outcome with
                   | Returned _ => (Returned tt, set_downloadQueue [] s2)
                   | Raised error => (Raised error, s2)
                   | Diverged => (Diverged, s2)
                   end).
  { unfold downloadSelectedSeries. unfold bind at 1, gets at 1.
    rewrite Hqueue. unfold bind at 1. rewrite Hdrain.
    unfold bind at 1, gets at 1. unfold bind at 1. rewrite Hbars.
    destruct outcome; reflexivity. }
  intros r. subst r. rewrite Hrun.
  destruct outcome as [[]|error|]; cbn [fst snd];
    repeat split; try assumption; try discriminate.
Qed.

(** ** Reading the cache *)

(** A non-empty list cached for the server is shown as it is: the server
    is not asked (whatever it would answer) and the cache is not
    written. *)
Theorem connectToServer_cache_hit fuel env url s study more :
  useCacheFlag s = true ->
  cacheFiles s !! studiesCacheFile (cachePath s) url = Some (study :: more) ->
  let r := connectToServer fuel env url s in
  r.1 = Returned tt
  ∧ studiesTable r.2 = study :: more
  ∧ trace r.2 = trace s
  ∧ cacheFiles r.2 = cacheFiles s.
Proof.
  intros Hon Hfile.
  assert (Hrun : connectToServer fuel env url s
                 = (Returned tt,
                    set_seriesTable []
                      (set_studiesTable
                         (studiesTable (connectPrelude s) ++ study :: more)
                         (connectPrelude s)))).
  { unfold connectToServer.
    unfold bind at 1, clearStudiesTableWidget at 1, modify at 1.
    unfold bind at 1, clearSeriesTableWidget at 1, modify at 1.
    unfold bind at 1, gets at 1.
    unfold bind at 1, showStatus. rewrite processEvents_run.
    fold (connectPrelude s). simpl cachePath.
    destruct (connectPrelude_frame s) as (Hp & Hu & Hc & _).
    unfold bind at 1, cache_isfile, gets at 1. rewrite Hc, Hfile.
    unfold bind at 1, gets at 1. rewrite Hu, Hon. cbn [andb].
    unfold json_load, bind, gets. rewrite Hc, Hfile. reflexivity. }
  intros r. subst r. rewrite Hrun. cbn [fst snd].
  destruct (connectPrelude_frame s) as (_ & _ & Hc & Ht & Hst & _).
  simpl. rewrite Hst, Ht, Hc. repeat split; reflexivity.
Qed.

Lemma connectToServer_fetched fuel env url s studies :
  studiesCacheMiss s url ->
  (searchAllStudies fuel env [] 0 s).1 = Returned studies ->
  exists s1,
    connectToServer fuel env url s = (Returned tt, s1)
    ∧ useCacheFlag s1 = useCacheFlag s
    ∧ cachePath s1 = cachePath s
    ∧ cacheFiles s1 = <[studiesCacheFile (cachePath s) url := studies]>
                        (cacheFiles s)
    ∧ studiesTable s1 = studies.
Proof.
  intros Hmiss Hfetch.
  rewrite (connectToServer_miss _ _ _ _ Hmiss).
  destruct (connectPrelude_frame s) as (Hp & Hu & Hc & _ & Hst & _).
  destruct (searchAllStudies_effect fuel env [] 0)
    as (outcome & requests & _ & Hrun).
  rewrite Hrun in Hfetch. simpl in Hfetch. subst outcome.
  erewrite bind_returned; [|apply fetchStudies_returned, Hrun].
  unfold clearSeriesTableWidget, modify. eexists. split; [reflexivity|].
  simpl. rewrite Hu, Hp, Hc, Hst. repeat split; reflexivity.
Qed.

(** What a fetch of the study list wrote to the cache is what the next
    [connectToServer] to that server shows, when the list is not empty
    and the cache is in use: the same studies in the same order, without
    a request. *)
Theorem studies_cache_round_trip fuel env url s studies fuel' env' :
  useCacheFlag s = true ->
  studiesCacheMiss s url ->
  (searchAllStudies fuel env [] 0 s).1 = Returned studies ->
  studies ≠ [] ->
  let s1 := (connectToServer fuel env url s).2 in
  let r := connectToServer fuel' env' url s1 in
  r.1 = Returned tt ∧ studiesTable r.2 = studies ∧ trace r.2 = trace s1.
Proof.
  intros Hon Hmiss Hfetch Hne.
  destruct (connectToServer_fetched fuel env url s studies Hmiss Hfetch)
    as (s1 & Hrun & Hu & Hp & Hc & _).
  rewrite Hrun. cbn [snd]. cbv zeta.
  destruct studies as [|study more]; [congruence|].
  destruct (connectToServer_cache_hit fuel' env' url s1 study more)
    as (H1 & H2 & H3 & _).
  - congruence.
  - rewrite Hc, Hp. apply lookup_insert_eq.
  - auto.
Qed.

(** ** The series list *)

(** The same for the series list of a study, whatever the list, an empty
    one included: after a fetch, selecting the study again adds the rows
    of the cached list once more, without a request. *)
Theorem series_cache_round_trip env row s study series env' :
  useCacheFlag s = true ->
  studiesTable s !! row = Some study ->
  seriesCacheMiss s (studyInstanceUIDText study) ->
  search_for_series (client env) (studyInstanceUIDText study) = Ok series ->
  let s1 := (studySelected env row s).2 in
  let r := studySelected env' row s1 in
  seriesTable s1 = seriesTable s ++ (rowOfSeries <$> series)
  ∧ r.1 = Returned tt
  ∧ seriesTable r.2 = seriesTable s1 ++ (rowOfSeries <$> series)
  ∧ trace r.2 = trace s1.
Proof.
  intros Hon Hrow Hmiss Hsrv.
  assert (Hrun : exists s1,
             studySelected env row s = (Returned tt, s1)
             ∧ useCacheFlag s1 = true
             ∧ cachePath s1 = cachePath s
             ∧ studiesTable s1 = studiesTable s
             ∧ seriesTable s1 = seriesTable s ++ (rowOfSeries <$> series)
             ∧ cacheFiles s1
               = <[seriesCacheFile (cachePath s) (studyInstanceUIDText study)
                   := series]> (cacheFiles s)).
  { rewrite (studySelected_miss _ _ _ _ Hrow Hmiss).
    destruct (processEvents_frame s) as (Hp & Hu & _ & Hst & Hse & Hc & _).
    unfold fetchSeries, try_except. rewrite Hsrv.
    rewrite (bind_returned _ _ _ _ _ (request_ok _ _ _)).
    unfold json_dump, populateSeriesTableWidget, clearStatus, bind, modify,
      ret. eexists. split; [reflexivity|]. simpl.
    rewrite Hu, Hp, Hst, Hse, Hc. repeat split; auto. }
  destruct Hrun as (s1 & Hrun & Hu & Hp & Hst & Hse & Hc).
  rewrite Hrun. cbn [snd]. cbv zeta.
  split; [exact Hse|].
  rewrite (studySelected_hit env' row s1 study series).
  - destruct (processEvents_frame s1) as (_ & _ & _ & _ & Hse' & _ & _ & _ & Ht).
    cbn [fst snd]. simpl. rewrite Hse', Ht. repeat split; reflexivity.
  - rewrite Hst. exact Hrow.
  - exact Hu.
  - rewrite Hc, Hp. apply lookup_insert_eq.
Qed.

(** When the request for the series of a study fails, the error is shown
    in a message box; no cache file is written and no row is added. *)
Theorem studySelected_failure_keeps_cache env row s study message :
  studiesTable s !! row = Some study ->
  seriesCacheMiss s (studyInstanceUIDText study) ->
  search_for_series (client env) (studyInstanceUIDText study)
  = HTTPError message ->
  let r := studySelected env row s in
  r.1 = Returned tt
  ∧ cacheFiles r.2 = cacheFiles s
  ∧ seriesTable r.2 = seriesTable s
  ∧ messages (trace r.2)
    = messages (trace s) ++ [CriticalMessage (seriesErrorMessage message)].
Proof.
  intros Hrow Hmiss Hsrv r. subst r.
  rewrite (studySelected_miss _ _ _ _ Hrow Hmiss).
  destruct (processEvents_frame s) as (_ & _ & _ & _ & Hse & Hc & _ & _ & Ht).
  unfold fetchSeries, try_except. rewrite Hsrv.
  rewrite (bind_raised _ _ _ _ _ (request_failed _ _ _)).
  unfold clearStatus, critical, emit, bind, ret, modify. cbn [fst snd].
  simpl. rewrite Hc, Hse, Ht, !messages_app. simpl. rewrite app_nil_r.
  repeat split; reflexivity.
Qed.

(** A row that is not in the studies table cannot be selected:
    [studySelected] raises before it asks or shows anything. *)
Lemma studySelected_out_of_range env row s :
  length (studiesTable s) <= row ->
  studySelected env row s = (Raised "IndexError", s).
Proof.
  intros Hrow. unfold studySelected, bind, gets.
  rewrite (lookup_ge_None_2 _ _ Hrow). reflexivity.
Qed.

(** ** Paging through the studies *)

Lemma studyRequests_searches offsets :
  studyRequests (SearchStudies <$> offsets) = SearchStudies <$> offsets.
Proof.
  induction offsets as [|offset offsets IH]; [reflexivity|].
  unfold studyRequests in *. simpl. f_equal. exact IH.
Qed.

Lemma searchAllStudies_pages env : forall pages studies fuel s,
  servesPages env studies pages ->
  length pages < fuel ->
  searchAllStudies fuel env studies (length studies) s
  = (Returned (studies ++ concat pages),
     set_trace
       (trace s ++ (SearchStudies <$> pageOffsets (length studies) pages)) s).
Proof.
  induction pages as [|page rest IH]; intros studies fuel s Hserves Hfuel.
  - destruct fuel as [|fuel]; [simpl in Hfuel; lia|].
    cbn [servesPages] in Hserves.
    cbn [searchAllStudies]. unfold request, emit, bind, modify.
    destruct (search_for_studies (client env) (length studies))
      as [[|first more]|message]; try contradiction.
    + simpl. rewrite app_nil_r. reflexivity.
    + cbn [ret]. rewrite decide_True by assumption.
      simpl. rewrite app_nil_r. reflexivity.
  - destruct fuel as [|fuel]; [simpl in Hfuel; lia|].
    destruct Hserves as (Hsrv & (first & more & -> & Hnew) & Hrest).
    cbn [searchAllStudies]. unfold request, emit, bind, modify.
    rewrite Hsrv. cbn [ret]. rewrite decide_False by assumption.
    rewrite <- length_app.
    rewrite (IH (studies ++ first :: more) fuel); [|exact Hrest|simpl in Hfuel; lia].
    cbn [concat pageOffsets fmap list_fmap].
    rewrite <- app_assoc, <- length_app. unfold set_trace. simpl.
    rewrite <- app_assoc. reflexivity.
Qed.

(** Against a server that hands out a list of pages one after the other
    and then ends the list, [connectToServer] on a cache miss asks for
    each page once, at the offset reached by the pages before it, and
    once more for the page that ends the list; it shows and caches the
    pages joined in the order they came. *)
Theorem connectToServer_all_pages fuel env url s pages :
  studiesCacheMiss s url ->
  servesPages env [] pages ->
  length pages < fuel ->
  let r := connectToServer fuel env url s in
  r.1 = Returned tt
  ∧ studyRequests (trace r.2)
    = studyRequests (trace s) ++ (SearchStudies <$> pageOffsets 0 pages)
  ∧ length (pageOffsets 0 pages) = S (length pages)
  ∧ studiesTable r.2 = concat pages
  ∧ cacheFiles r.2 !! studiesCacheFile (cachePath s) url = Some (concat pages).
Proof.
  intros Hmiss Hserves Hfuel r. subst r.
  rewrite (connectToServer_miss _ _ _ _ Hmiss).
  destruct (connectPrelude_frame s) as (_ & _ & Hc & Ht & Hst & _).
  erewrite bind_returned;
    [|apply fetchStudies_returned;
      apply (searchAllStudies_pages env pages [] fuel); assumption].
  unfold clearSeriesTableWidget, modify. simpl.
  rewrite Ht, Hst, Hc, studyRequests_app, studyRequests_searches,
    lookup_insert_eq.
  repeat split; try reflexivity.
  clear. generalize 0. induction pages as [|page rest IH]; intros offset;
    simpl; [reflexivity|]. rewrite IH. reflexivity.
Qed.

Lemma connectToServer_all_pages_witness :
  let r := connectToServer 3 demoEnv demoUrl demoState in
  r.1 = Returned tt
  ∧ studyRequests (trace r.2)
    = [SearchStudies 0; SearchStudies 2; SearchStudies 3]
  ∧ length (pageOffsets 0 [[studyA; studyB]; [studyC]]) = 3
  ∧ studiesTable r.2 = [studyA; studyB; studyC]
  ∧ cacheFiles r.2 !! studiesCacheFile (cachePath demoState) demoUrl
    = Some [studyA; studyB; studyC].
Proof.
  apply (connectToServer_all_pages 3 demoEnv demoUrl demoState
           [[studyA; studyB]; [studyC]]).
  - right. left. reflexivity.
  - cbn [servesPages]. split; [reflexivity|]. split.
    { exists studyA, [studyB]. split; [reflexivity | apply not_elem_of_nil]. }
    split; [reflexivity|]. split; [|exact I].
    exists studyC, []. split; [reflexivity|].
    apply (bool_decide_unpack _). vm_compute. exact I.
  - simpl. lia.
Defined.

(** ** A page that cannot be fetched *)

Lemma messages_searches offsets : messages (SearchStudies <$> offsets) = [].
Proof.
  induction offsets as [|offset offsets IH]; [reflexivity|].
  unfold messages in *. simpl. exact IH.
Qed.

(** When the request that follows the pages fails, the page loop raises
    the error of the server, after one request per page and the failed
    one. *)
Lemma searchAllStudies_fails env error : forall pages studies fuel s,
  failsAfterPages env studies pages error ->
  length pages < fuel ->
  searchAllStudies fuel env studies (length studies) s
  = (Raised error,
     set_trace
       (trace s ++ (SearchStudies <$> pageOffsets (length studies) pages)) s).
Proof.
  induction pages as [|page rest IH]; intros studies fuel s Hfails Hfuel.
  - destruct fuel as [|fuel]; [simpl in Hfuel; lia|].
    cbn [failsAfterPages] in Hfails.
    cbn [searchAllStudies]. unfold request, emit, bind, modify.
    rewrite Hfails. reflexivity.
  - destruct fuel as [|fuel]; [simpl in Hfuel; lia|].
    destruct Hfails as (Hsrv & (first & more & -> & Hnew) & Hrest).
    cbn [searchAllStudies]. unfold request, emit, bind, modify.
    rewrite Hsrv. cbn [ret]. rewrite decide_False by assumption.
    rewrite <- length_app.
    rewrite (IH (studies ++ first :: more) fuel);
      [|exact Hrest|simpl in Hfuel; lia].
    cbn [pageOffsets fmap list_fmap].
    rewrite <- length_app. unfold set_trace. simpl.
    rewrite <- app_assoc. reflexivity.
Qed.

(** C9. When a page request of a study-list fetch fails, whether the
    first one or one that follows pages already received,
    [connectToServer] (on a cache miss) makes no further request and
    shows the error of the server in a message box, after the text of
    line 603; it writes nothing to the cache, where every file is as it
    was, and it shows no study: the pages received so far are
    dropped. *)
Theorem connectToServer_failure_keeps_cache fuel env url s pages error :
  studiesCacheMiss s url ->
  failsAfterPages env [] pages error ->
  length pages < fuel ->
  let r := connectToServer fuel env url s in
  r.1 = Returned tt
  ∧ studyRequests (trace r.2)
    = studyRequests (trace s) ++ (SearchStudies <$> pageOffsets 0 pages)
  ∧ messages (trace r.2)
    = messages (trace s)
      ++ [CriticalMessage
            ("connectToServer: Error in getting response from DICOMweb server."
             +:+ String "010"%char ("Error:" +:+ String "010"%char error))]
  ∧ cacheFiles r.2 = cacheFiles s
  ∧ studiesTable r.2 = [].
Proof.
  intros Hmiss Hfails Hfuel r. subst r.
  rewrite (connectToServer_miss _ _ _ _ Hmiss).
  destruct (connectPrelude_frame s) as (_ & _ & Hc & Ht & Hst & _).
  erewrite bind_returned;
    [|apply fetchStudies_raised;
      apply (searchAllStudies_fails env error pages [] fuel); assumption].
  unfold clearSeriesTableWidget, modify.
  cbn [fst snd trace set_trace set_seriesTable cacheFiles studiesTable length].
  rewrite Ht, Hst, Hc, !studyRequests_app, !messages_app,
    studyRequests_searches, messages_searches, !app_nil_r.
  repeat split; reflexivity.
Qed.

Lemma connectToServer_failure_keeps_cache_witness :
  let r := connectToServer 5 (envOf failingServer) demoUrl emptyStudiesCache in
  r.1 = Returned tt
  ∧ studyRequests (trace r.2) = [SearchStudies 0; SearchStudies 2]
  ∧ messages (trace r.2)
    = [CriticalMessage
         ("connectToServer: Error in getting response from DICOMweb server."
          +:+ String "010"%char
                ("Error:" +:+ String "010"%char "504 Gateway Timeout"))]
  ∧ cacheFiles r.2 = cacheFiles emptyStudiesCache
  ∧ studiesTable r.2 = [].
Proof.
  apply (connectToServer_failure_keeps_cache 5 (envOf failingServer) demoUrl
           emptyStudiesCache [[studyA; studyB]] "504 Gateway Timeout").
  - right. right. reflexivity.
  - cbn [failsAfterPages]. split; [reflexivity|]. split; [|reflexivity].
    exists studyA, [studyB]. split; [reflexivity | apply not_elem_of_nil].
  - simpl. lia.
Defined.





(** ** The further statements at work *)

Lemma failed_download_keeps_files_witness :
  let r := processQueuedItem (envOf brokenServer) jobS3 demoState in
  imports (trace r.2) = []
  ∧ folders r.2 !! downloadFolderPath jobS3
    = Some {[ instanceFileName "1.1" := "DICM 1.1";
              instanceFileName "1.2" := "DICM 1.2" ]}.
Proof.
  set (s_e := (downloadSeries (envOf brokenServer) jobS3
                 (prepareFolder jobS3 demoState).2).2).
  destruct (failed_download_keeps_files (envOf brokenServer) jobS3 demoState
              "404 Not Found" s_e)
    as (_ & Hi & _ & Hf & _).
  - vm_compute. reflexivity.
  - cbv zeta. split; [exact Hi|]. rewrite Hf. vm_compute. reflexivity.
Defined.

Lemma series_without_row_not_indexed_witness :
  let r := processQueuedItem demoEnv jobS4 demoState in
  imports (trace r.2) = imports (trace demoState) ∧ filesKept demoState r.2.
Proof.
  apply (series_without_row_not_indexed demoEnv jobS4 demoState).
  reflexivity.
Defined.

Lemma drain_stops_when_cancelled_witness :
  let r := downloadSelectedSeries demoEnv cancelledState in
  retrievals (trace r.2) = [RetrieveInstance "1.2.3" "S1" "1.1"]
  ∧ imports (trace r.2) = []
  ∧ downloadQueue r.2 = [].
Proof.
  set (s1 := (processQueuedItem demoEnv jobS1
                (set_downloadQueue [jobS2; jobS3] cancelledState)).2).
  destruct (drain_stops_when_cancelled demoEnv jobS1 [jobS2; jobS3]
              cancelledState s1)
    as (Ht & _ & _ & Hq).
  - reflexivity.
  - reflexivity.
  - vm_compute. reflexivity.
  - vm_compute. reflexivity.
  - cbv zeta. rewrite Ht. split; [vm_compute; reflexivity|].
    split; [vm_compute; reflexivity|]. apply Hq. vm_compute. reflexivity.
Defined.

Lemma connectToServer_cache_hit_witness :
  let r := connectToServer 0 (envOf failingServer) demoUrl cachedStudiesState in
  r.1 = Returned tt
  ∧ studiesTable r.2 = [studyA; studyB]
  ∧ trace r.2 = trace cachedStudiesState
  ∧ cacheFiles r.2 = cacheFiles cachedStudiesState.
Proof.
  apply (connectToServer_cache_hit 0 (envOf failingServer) demoUrl
           cachedStudiesState studyA [studyB]).
  - reflexivity.
  - vm_compute. reflexivity.
Defined.

Lemma studies_cache_round_trip_witness :
  let s1 := (connectToServer 3 demoEnv demoUrl demoState).2 in
  let r := connectToServer 0 (envOf failingServer) demoUrl s1 in
  r.1 = Returned tt
  ∧ studiesTable r.2 = [studyA; studyB; studyC]
  ∧ trace r.2 = trace s1.
Proof.
  apply (studies_cache_round_trip 3 demoEnv demoUrl demoState
           [studyA; studyB; studyC] 0 (envOf failingServer)).
  - reflexivity.
  - right. left. reflexivity.
  - vm_compute. reflexivity.
  - discriminate.
Defined.

Lemma series_cache_round_trip_witness :
  let s1 := (studySelected demoEnv 0 demoState).2 in
  let r := studySelected (envOf brokenServer) 0 s1 in
  seriesTable s1 = seriesTable demoState ++ [rowOfSeries (seriesWith "S1")]
  ∧ r.1 = Returned tt
  ∧ seriesTable r.2 = seriesTable s1 ++ [rowOfSeries (seriesWith "S1")]
  ∧ trace r.2 = trace s1.
Proof.
  apply (series_cache_round_trip demoEnv 0 demoState studyA
           [seriesWith "S1"] (envOf brokenServer)).
  - reflexivity.
  - reflexivity.
  - right. reflexivity.
  - reflexivity.
Defined.

Lemma studySelected_failure_keeps_cache_witness :
  let r := studySelected (envOf brokenServer) 0 demoState in
  r.1 = Returned tt
  ∧ cacheFiles r.2 = cacheFiles demoState
  ∧ seriesTable r.2 = seriesTable demoState
  ∧ messages (trace r.2)
    = [CriticalMessage (seriesErrorMessage "500 Internal Server Error")].
Proof.
  apply (studySelected_failure_keeps_cache (envOf brokenServer) 0 demoState
           studyA "500 Internal Server Error").
  - reflexivity.
  - right. reflexivity.
  - reflexivity.
Defined.

(** ** Names made from a digest *)

Lemma le_bytes_range n : forall x,
  Forall (fun b => (0 <= b < 256)%Z) (MD5.le_bytes n x).
Proof.
  induction n as [|n IH]; intros x; cbn [MD5.le_bytes]; constructor;
    [|apply IH].
  change 255%Z with (Z.ones 8). rewrite Z.land_ones by lia.
  apply Z.mod_pos_bound. lia.
Qed.

Lemma length_le_bytes n : forall x, length (MD5.le_bytes n x) = n.
Proof.
  induction n as [|n IH]; intros x; cbn [MD5.le_bytes length];
    [reflexivity|]. rewrite IH. reflexivity.
Qed.

Lemma hex_digit_is_hex x :
  (0 <= x < 16)%Z ->
  MD5.hex_digit x ∈ String.list_ascii_of_string "0123456789abcdef".
Proof.
  intros Hx. unfold MD5.hex_digit. apply list_elem_of_In, List.nth_In.
  change (List.length (String.list_ascii_of_string "0123456789abcdef"))
    with 16. lia.
Qed.

Lemma hex_of_bytes_spec bs :
  Forall (fun b => (0 <= b < 256)%Z) bs ->
  String.length (MD5.hex_of_bytes bs) = 2 * length bs
  ∧ Forall (fun c => c ∈ String.list_ascii_of_string "0123456789abcdef")
      (String.list_ascii_of_string (MD5.hex_of_bytes bs)).
Proof.
  induction 1 as [|b bs Hb _ [IHl IHc]];
    cbn [MD5.hex_of_bytes String.length String.list_ascii_of_string length].
  - split; [reflexivity | constructor].
  - split; [rewrite IHl; lia|].
    constructor; [|constructor; [|exact IHc]].
    + apply hex_digit_is_hex. rewrite Z.shiftr_div_pow2 by lia.
      change (2 ^ 4)%Z with 16%Z. split.
      * apply Z.div_pos; lia.
      * apply Z.div_lt_upper_bound; lia.
    + apply hex_digit_is_hex. change 15%Z with (Z.ones 4).
      rewrite Z.land_ones by lia. apply Z.mod_pos_bound. lia.
Qed.

(** The digest the names of cache files, download folders and instance
    files are made of is always 32 characters long, all of them digits or
    letters from a to f: it holds no path separator, whatever the URL or
    UID it is the digest of. *)
Lemma hexdigest_is_hex s :
  String.length (MD5.hexdigest s) = 32
  ∧ Forall (fun c => c ∈ String.list_ascii_of_string "0123456789abcdef")
      (String.list_ascii_of_string (MD5.hexdigest s))
  ∧ "/"%char ∉ String.list_ascii_of_string (MD5.hexdigest s).
Proof.
  unfold MD5.hexdigest, MD5.digest. cbv zeta.
  match goal with
  | |- context [MD5.dA ?x] => set (st := x)
  end.
  destruct (hex_of_bytes_spec
              (MD5.le_bytes 4 (MD5.dA st) ++ MD5.le_bytes 4 (MD5.dB st)
               ++ MD5.le_bytes 4 (MD5.dC st) ++ MD5.le_bytes 4 (MD5.dD st)))
    as [Hl Hc].
  { repeat (apply Forall_app; split); apply le_bytes_range. }
  split; [|split; [exact Hc|]].
  - rewrite Hl, !length_app, !length_le_bytes. reflexivity.
  - intros Hin. rewrite Forall_forall in Hc. specialize (Hc _ Hin).
    revert Hc. apply (bool_decide_unpack _). vm_compute. exact I.
Qed.

(** The file an instance is saved to is named by 32 characters, all of
    them digits or letters from a to f, followed by [.dcm], and the cache
    file of a server by the cache directory, 32 such characters and
    [.json]: whatever the SOP instance UID or the URL holds, no path
    separator comes from it. *)
Theorem digest_names_are_safe key :
  exists digest,
    String.length digest = 32
    ∧ Forall (fun c => c ∈ String.list_ascii_of_string "0123456789abcdef")
        (String.list_ascii_of_string digest)
    ∧ ("/"%char ∉ String.list_ascii_of_string digest)
    ∧ instanceFileName key = digest +:+ ".dcm"
    ∧ (forall dir, studiesCacheFile dir key = dir +:+ digest +:+ ".json").
Proof.
  exists (MD5.hexdigest key).
  destruct (hexdigest_is_hex key) as (Hl & Hc & Hs).
  repeat split; assumption.
Qed.
